(** * Testr: the plan-to-report run engine of the QA swipe console

    A shallow embedding of the logic of the page component ([parsePlan],
    [getCategorySummary], [buildReport] and the callbacks of [Home]:
    [commitVerdict], [recordVerdict], [undoLast], [finishRun],
    [submitPlan] and the history handlers), followed by the properties
    stated for it.

    Conventions of the embedding.
    - A JavaScript string is a [string]; every character stands for one
      code unit in the range 0..255.
    - Counters ([sequence], array indices, the cursor) are [nat]; they
      are rendered in decimal, as a template literal renders a
      non-negative integer.
    - A plain JavaScript object is the list of its own enumerable
      properties in the order [Object.entries] reports them; what the
      code can observe of the prototype chain ([Object.prototype] behind
      an object literal, the [__proto__] setter) is written out.
    - A thrown [Error] is the [Throw] outcome of the [Completion] monad,
      carrying its message.
    - [JSON.parse] is a parameter; the identifier and the time stamp of a
      report are inputs of the event that creates it.
    - The entry of [localStorage] is kept as the array [JSON.parse]
      reads from its text; writing the history stores of each report
      what [JSON.stringify] keeps of it ([storedReport]).
    - The React state of [Home] is one record.  An event handler runs to
      completion on the state of the latest render; the callback handed
      to [setTimeout] is an event of its own and closes over the render
      that armed it. *)

From Stdlib Require Import List String Ascii Bool Arith NArith ZArith Lia.
From Stdlib Require Import DecimalString DecimalNat.
Import ListNotations.

Local Open Scope string_scope.
Local Open Scope list_scope.
Set Warnings "-register-all".

(* ================================================================== *)
(** ** Strings *)

Module JSString.

Definition empty : string := EmptyString.

(** The quotation mark that the error templates put around a category. *)
Definition dquote : string := String (ascii_of_nat 34) EmptyString.

(** [String.prototype.trim] strips white space and line terminators:
    TAB, LF, VT, FF, CR, SPACE and NBSP are those below code 256. *)
Definition isWhiteSpace (c : ascii) : bool :=
  let n := nat_of_ascii c in
  Nat.eqb n 9 || Nat.eqb n 10 || Nat.eqb n 11 || Nat.eqb n 12
  || Nat.eqb n 13 || Nat.eqb n 32 || Nat.eqb n 160.

Fixpoint trimStart (s : string) : string :=
  match s with
  | EmptyString => EmptyString
  | String c rest => if isWhiteSpace c then trimStart rest else s
  end.

Fixpoint trimEnd (s : string) : string :=
  match s with
  | EmptyString => EmptyString
  | String c rest =>
      match trimEnd rest with
      | EmptyString => if isWhiteSpace c then EmptyString
                       else String c EmptyString
      | kept => String c kept
      end
  end.

Definition trim (s : string) : string := trimEnd (trimStart s).

(** Truthiness of a string: only the empty string is falsy. *)
Definition truthy (s : string) : bool :=
  match s with EmptyString => false | String _ _ => true end.

(** Number-to-string conversion of a non-negative integer. *)
Definition ofNat (n : nat) : string :=
  NilEmpty.string_of_uint (Nat.to_uint n).

Definition isDigit (c : ascii) : bool :=
  let n := nat_of_ascii c in Nat.leb 48 n && Nat.leb n 57.

Fixpoint digitsValue (acc : N) (s : string) : option N :=
  match s with
  | EmptyString => Some acc
  | String c rest =>
      if isDigit c
      then digitsValue (acc * 10 + (N_of_ascii c - 48))%N rest
      else None
  end.

(** An array index is a canonical numeric string below 2^32 - 1. *)
Definition arrayIndex (k : string) : option N :=
  match k with
  | EmptyString => None
  | String c rest =>
      if Nat.eqb (nat_of_ascii c) 48
      then match rest with EmptyString => Some 0%N | _ => None end
      else match digitsValue 0%N k with
           | Some n => if (n <? 4294967295)%N then Some n else None
           | None => None
           end
  end.

End JSString.

(* ================================================================== *)
(** ** Plain objects *)

Module JSObject.

Section Own.
Context {V : Type}.

(** Own enumerable string-keyed properties, in enumeration order:
    array indices ascending, then the other keys by creation. *)
Definition t := list (string * V).

Fixpoint getOwn (k : string) (o : t) : option V :=
  match o with
  | [] => None
  | (k', v) :: rest => if String.eqb k' k then Some v else getOwn k rest
  end.

Definition hasOwn (k : string) (o : t) : bool :=
  match getOwn k o with Some _ => true | None => false end.

Fixpoint replaceOwn (k : string) (v : V) (o : t) : t :=
  match o with
  | [] => []
  | (k', v') :: rest =>
      if String.eqb k' k then (k', v) :: rest
      else (k', v') :: replaceOwn k v rest
  end.

Fixpoint insertIndex (n : N) (k : string) (v : V) (o : t) : t :=
  match o with
  | [] => [(k, v)]
  | (k', v') :: rest =>
      match JSString.arrayIndex k' with
      | Some m => if (m <? n)%N then (k', v') :: insertIndex n k v rest
                  else (k, v) :: o
      | None => (k, v) :: o
      end
  end.

(** Creating or overwriting the own data property [k]. *)
Definition setOwn (k : string) (v : V) (o : t) : t :=
  if hasOwn k o then replaceOwn k v o
  else match JSString.arrayIndex k with
       | Some n => insertIndex n k v o
       | None => o ++ [(k, v)]
       end.

End Own.

Arguments t : clear implicits.

(** The property names every object literal inherits from
    [Object.prototype]; each holds a function or an object, never a
    string, and each is truthy. *)
Definition prototypeKeys : list string :=
  [ "constructor"; "__defineGetter__"; "__defineSetter__";
    "hasOwnProperty"; "__lookupGetter__"; "__lookupSetter__";
    "isPrototypeOf"; "propertyIsEnumerable"; "toString"; "valueOf";
    "__proto__"; "toLocaleString" ].

Definition inherited (k : string) : bool :=
  existsb (String.eqb k) prototypeKeys.

(** What [o[k]] evaluates to on an object literal. *)
Inductive Lookup (V : Type) : Type :=
| Own (v : V)
| Inherited
| Undefined.
Arguments Own {V} v.
Arguments Inherited {V}.
Arguments Undefined {V}.

Definition get {V : Type} (k : string) (o : t V) : Lookup V :=
  match getOwn k o with
  | Some v => Own v
  | None => if inherited k then Inherited else Undefined
  end.

End JSObject.

(* ================================================================== *)
(** ** Completions *)

Inductive Completion (A : Type) : Type :=
| Normal (value : A)
| Throw (message : string).
Arguments Normal {A} value.
Arguments Throw {A} message.

Definition bind {A B : Type} (c : Completion A) (k : A -> Completion B)
  : Completion B :=
  match c with
  | Normal a => k a
  | Throw m => Throw m
  end.

Notation "x <- c ;; k" := (bind c (fun x => k))
  (at level 61, c at next level, right associativity).

(* ================================================================== *)
(** ** Data model *)

Inductive Step : Type := StepStart | StepInput | StepRun | StepReport.
Inductive Verdict : Type := Pass | Fail.

Record PlanGroup : Type := mkPlanGroup {
  action : string;
  result : string
}.

(** [PlanInput] is an object literal used as a map.  Besides its own
    properties the code can replace its prototype by an array: assigning
    to the key [__proto__] runs the inherited setter. *)
Record PlanInput : Type := mkPlanInput {
  categories : JSObject.t (list PlanGroup);
  prototypeArray : option (list PlanGroup)
}.

Record FlatTest : Type := mkFlatTest {
  id : string;
  category : string;
  test_action : string;
  expected : string;
  sequence : nat
}.

Record TestResult : Type := mkTestResult {
  test : FlatTest;
  verdict : Verdict;
  comment : string
}.

Record Counts : Type := mkCounts {
  passed : nat;
  failed : nat;
  total : nat
}.

Definition CategorySummary : Type := JSObject.t Counts.

Record SavedReport : Type := mkSavedReport {
  report_id : string;
  report_suiteName : string;
  createdAt : string;
  report_total : nat;
  report_passed : nat;
  report_failed : nat;
  byCategory : CategorySummary;
  report_results : list TestResult;
  source : PlanInput
}.

(** The values [JSON.parse] can return.  The payload of a number is
    never inspected by the code and is kept as its literal. *)
Inductive JSValue : Type :=
| JNull
| JBool (b : bool)
| JNumber (literal : string)
| JString (s : string)
| JArray (items : list JSValue)
| JObject (entries : list (string * JSValue)).

(** The type guard [isRecord(value)]: it holds of an object that is
    neither [null] nor an array, and narrows the value to its entries. *)
Definition isRecord (value : JSValue) : option (list (string * JSValue)) :=
  match value with
  | JObject entries => Some entries
  | _ => None
  end.

(** [Array.isArray(value)], narrowing the value to its elements. *)
Definition isArray (value : JSValue) : option (list JSValue) :=
  match value with
  | JArray items => Some items
  | _ => None
  end.

(* ================================================================== *)
(** ** Plan parser *)

Definition getProperty (k : string) (entries : list (string * JSValue))
  : option JSValue :=
  JSObject.getOwn k entries.

(** The trimmed [test.k] when [typeof test.k] is [string], the empty
    string otherwise. *)
Definition trimmedField (k : string) (entries : list (string * JSValue))
  : string :=
  match getProperty k entries with
  | Some (JString s) => JSString.trim s
  | _ => JSString.empty
  end.

Definition emptySource : PlanInput := mkPlanInput [] None.

(** [source[category] = []] *)
Definition assignEmpty (category : string) (source : PlanInput) : PlanInput :=
  if String.eqb category "__proto__"
  then mkPlanInput (categories source) (Some [])
  else mkPlanInput (JSObject.setOwn category [] (categories source))
                   (prototypeArray source).

(** [source[category].push(group)]; reading a missing property gives
    [undefined], on which the call of [push] is a [TypeError]. *)
Definition pushGroup (category : string) (group : PlanGroup)
  (source : PlanInput) : Completion PlanInput :=
  if String.eqb category "__proto__"
  then match prototypeArray source with
       | Some items =>
           Normal (mkPlanInput (categories source) (Some (items ++ [group])))
       | None => Throw "TypeError: source[category].push is not a function"
       end
  else match JSObject.getOwn category (categories source) with
       | Some items =>
           Normal (mkPlanInput
                     (JSObject.replaceOwn category (items ++ [group])
                        (categories source))
                     (prototypeArray source))
       | None =>
           Throw "TypeError: Cannot read properties of undefined"
       end.

Definition testId (category : string) (index sequence : nat) : string :=
  category ++ "-" ++ JSString.ofNat index ++ "-" ++ JSString.ofNat sequence.

Definition msgInvalidJson : string :=
  "Invalid JSON. Check commas, quotes, and brackets.".
Definition msgRoot : string :=
  "The root value must be an object of categories.".
Definition msgEmptyCategory : string :=
  "Category names cannot be empty.".
Definition msgNotArray (category : string) : string :=
  "Category " ++ JSString.dquote ++ category ++ JSString.dquote
  ++ " must contain an array.".
Definition msgNotObject (category : string) (index : nat) : string :=
  JSString.dquote ++ category ++ JSString.dquote ++ " test #"
  ++ JSString.ofNat (index + 1) ++ " must be an object.".
Definition msgNeedsFields (category : string) (index : nat) : string :=
  JSString.dquote ++ category ++ JSString.dquote ++ " test #"
  ++ JSString.ofNat (index + 1) ++ " needs non-empty action/result.".
Definition msgNoTests : string :=
  "No tests were found in the plan.".

(** The three variables the loops of [parsePlan] update. *)
Record ParseState : Type := mkParseState {
  ps_source : PlanInput;
  ps_flattened : list FlatTest;
  ps_sequence : nat
}.

(** The body of [rawTests.forEach((test, index) => ...)]. *)
Definition parseTest (category : string) (index : nat) (item : JSValue)
  (st : ParseState) : Completion ParseState :=
  match isRecord item with
  | None => Throw (msgNotObject category index)
  | Some fields =>
      let action := trimmedField "action" fields in
      let result := trimmedField "result" fields in
      if negb (JSString.truthy action) || negb (JSString.truthy result)
      then Throw (msgNeedsFields category index)
      else
        source <- pushGroup category (mkPlanGroup action result)
                    (ps_source st) ;;
        Normal (mkParseState source
                  (ps_flattened st ++
                     [mkFlatTest (testId category index (ps_sequence st))
                        category action result (ps_sequence st)])
                  (ps_sequence st + 1))
  end.

Fixpoint forEachTest (category : string) (index : nat)
  (rawTests : list JSValue) (st : ParseState) : Completion ParseState :=
  match rawTests with
  | [] => Normal st
  | item :: rest =>
      st' <- parseTest category index item st ;;
      forEachTest category (S index) rest st'
  end.

(** The body of [for (const [rawCategory, rawTests] of ...)]. *)
Definition parseCategory (rawCategory : string) (rawTests : JSValue)
  (st : ParseState) : Completion ParseState :=
  let category := JSString.trim rawCategory in
  if negb (JSString.truthy category) then Throw msgEmptyCategory
  else match isArray rawTests with
       | None => Throw (msgNotArray category)
       | Some items =>
           forEachTest category 0 items
             (mkParseState (assignEmpty category (ps_source st))
                (ps_flattened st) (ps_sequence st))
       end.

Fixpoint parseCategories (entries : list (string * JSValue))
  (st : ParseState) : Completion ParseState :=
  match entries with
  | [] => Normal st
  | (rawCategory, rawTests) :: rest =>
      st' <- parseCategory rawCategory rawTests st ;;
      parseCategories rest st'
  end.

Definition initialParseState : ParseState := mkParseState emptySource [] 1.

(** [parsePlan] from the value [JSON.parse] produced; [None] stands for
    [JSON.parse] having thrown. *)
Definition parsePlanValue (parsed : option JSValue)
  : Completion (PlanInput * list FlatTest) :=
  match parsed with
  | None => Throw msgInvalidJson
  | Some value =>
      match isRecord value with
      | None => Throw msgRoot
      | Some entries =>
          st <- parseCategories entries initialParseState ;;
          match ps_flattened st with
          | [] => Throw msgNoTests
          | _ :: _ => Normal (ps_source st, ps_flattened st)
          end
      end
  end.

(* ================================================================== *)
(** ** Report builder *)

Definition isPass (r : TestResult) : bool :=
  match verdict r with Pass => true | Fail => false end.

Definition zeroCounts : Counts := mkCounts 0 0 0.

(** [summary[k].field += 1]: when [summary[k]] is an own entry the entry
    is updated; when it is a member inherited from [Object.prototype]
    the write lands on that member and [summary] keeps its properties. *)
Definition bump (k : string) (f : Counts -> Counts)
  (summary : CategorySummary) : CategorySummary :=
  match JSObject.getOwn k summary with
  | Some counts => JSObject.replaceOwn k (f counts) summary
  | None => summary
  end.

Definition addTotal (c : Counts) : Counts :=
  mkCounts (passed c) (failed c) (total c + 1).
Definition addPassed (c : Counts) : Counts :=
  mkCounts (passed c + 1) (failed c) (total c).
Definition addFailed (c : Counts) : Counts :=
  mkCounts (passed c) (failed c + 1) (total c).

(** [if (!summary[k]) summary[k] = { passed: 0, failed: 0, total: 0 }]:
    an own entry and an inherited member are both truthy. *)
Definition ensureEntry (k : string) (summary : CategorySummary)
  : CategorySummary :=
  match JSObject.get k summary with
  | JSObject.Undefined => JSObject.setOwn k zeroCounts summary
  | JSObject.Own _ => summary
  | JSObject.Inherited => summary
  end.

(** The body of [results.forEach((result) => ...)]. *)
Definition summarize (summary : CategorySummary) (r : TestResult)
  : CategorySummary :=
  let k := category (test r) in
  let summary1 := ensureEntry k summary in
  let summary2 := bump k addTotal summary1 in
  if isPass r then bump k addPassed summary2
  else bump k addFailed summary2.

Definition getCategorySummary (results : list TestResult) : CategorySummary :=
  fold_left summarize results [].

(** [toSafeId()] and [new Date().toISOString()] are supplied by the
    caller as [freshId] and [now]. *)
Definition buildReport (freshId now : string) (suiteName : string)
  (source : PlanInput) (results : list TestResult) : SavedReport :=
  let passed := List.length (filter isPass results) in
  let failed := List.length results - passed in
  mkSavedReport freshId suiteName now (List.length results) passed failed
    (getCategorySummary results) results source.

(* ================================================================== *)
(** ** Run engine state *)

Definition SWIPE_THRESHOLD : Z := 120.
Definition MAX_HISTORY_ITEMS : nat := 50.

(** An element of [results]: [null], a hole left by writing past the
    end, or a committed result. *)
Inductive Slot : Type :=
| SlotNull
| SlotUndefined
| SlotResult (r : TestResult).

(** [items.filter((item): item is TestResult => Boolean(item))]: only a
    committed result is truthy. *)
Fixpoint committedResults (items : list Slot) : list TestResult :=
  match items with
  | [] => []
  | SlotResult r :: rest => r :: committedResults rest
  | _ :: rest => committedResults rest
  end.

(** [copy = [...items]; copy[i] = x]: inside the array the element is
    replaced, past the end the array grows and the gap reads undefined. *)
Fixpoint arraySet (i : nat) (x : Slot) (items : list Slot) : list Slot :=
  match i, items with
  | O, [] => [x]
  | O, _ :: rest => x :: rest
  | S j, [] => SlotUndefined :: arraySet j x []
  | S j, y :: rest => y :: arraySet j x rest
  end.

(** The values a callback reads from the render that created it. *)
Record Render : Type := mkRender {
  r_step : Step;
  r_suiteName : string;
  r_sourcePlan : option PlanInput;
  r_tests : list FlatTest;
  r_cursor : nat;
  r_results : list Slot;
  r_commentDrafts : JSObject.t string
}.

Record AppState : Type := mkAppState {
  step : Step;
  suiteName : string;
  jsonDraft : string;
  parseError : option string;
  sourcePlan : option PlanInput;
  tests : list FlatTest;
  cursor : nat;
  results : list Slot;
  commentDrafts : JSObject.t string;
  dragOffset : Z;
  isDragging : bool;
  exitVerdict : option Verdict;
  (** the callback armed through [swipeTimeoutRef], with the verdict and
      the render its [commitVerdict] closes over *)
  swipeTimeout : option (Verdict * Render);
  history : list SavedReport;
  activeReportId : option string;
  (** the entry of [localStorage] under [HISTORY_STORAGE_KEY], as the
      array [JSON.parse] reads from its text *)
  storedHistory : option (list SavedReport)
}.

Definition render (s : AppState) : Render :=
  mkRender (step s) (suiteName s) (sourcePlan s) (tests s) (cursor s)
    (results s) (commentDrafts s).

Definition setStep (v : Step) (s : AppState) : AppState :=
  mkAppState v (suiteName s) (jsonDraft s) (parseError s) (sourcePlan s)
    (tests s) (cursor s) (results s) (commentDrafts s) (dragOffset s)
    (isDragging s) (exitVerdict s) (swipeTimeout s) (history s)
    (activeReportId s) (storedHistory s).
Definition setSuiteName (v : string) (s : AppState) : AppState :=
  mkAppState (step s) v (jsonDraft s) (parseError s) (sourcePlan s)
    (tests s) (cursor s) (results s) (commentDrafts s) (dragOffset s)
    (isDragging s) (exitVerdict s) (swipeTimeout s) (history s)
    (activeReportId s) (storedHistory s).
Definition setJsonDraft (v : string) (s : AppState) : AppState :=
  mkAppState (step s) (suiteName s) v (parseError s) (sourcePlan s)
    (tests s) (cursor s) (results s) (commentDrafts s) (dragOffset s)
    (isDragging s) (exitVerdict s) (swipeTimeout s) (history s)
    (activeReportId s) (storedHistory s).
Definition setParseError (v : option string) (s : AppState) : AppState :=
  mkAppState (step s) (suiteName s) (jsonDraft s) v (sourcePlan s)
    (tests s) (cursor s) (results s) (commentDrafts s) (dragOffset s)
    (isDragging s) (exitVerdict s) (swipeTimeout s) (history s)
    (activeReportId s) (storedHistory s).
Definition setSourcePlan (v : option PlanInput) (s : AppState) : AppState :=
  mkAppState (step s) (suiteName s) (jsonDraft s) (parseError s) v
    (tests s) (cursor s) (results s) (commentDrafts s) (dragOffset s)
    (isDragging s) (exitVerdict s) (swipeTimeout s) (history s)
    (activeReportId s) (storedHistory s).
Definition setTests (v : list FlatTest) (s : AppState) : AppState :=
  mkAppState (step s) (suiteName s) (jsonDraft s) (parseError s)
    (sourcePlan s) v (cursor s) (results s) (commentDrafts s) (dragOffset s)
    (isDragging s) (exitVerdict s) (swipeTimeout s) (history s)
    (activeReportId s) (storedHistory s).
Definition setCursor (v : nat) (s : AppState) : AppState :=
  mkAppState (step s) (suiteName s) (jsonDraft s) (parseError s)
    (sourcePlan s) (tests s) v (results s) (commentDrafts s) (dragOffset s)
    (isDragging s) (exitVerdict s) (swipeTimeout s) (history s)
    (activeReportId s) (storedHistory s).
Definition setResults (v : list Slot) (s : AppState) : AppState :=
  mkAppState (step s) (suiteName s) (jsonDraft s) (parseError s)
    (sourcePlan s) (tests s) (cursor s) v (commentDrafts s) (dragOffset s)
    (isDragging s) (exitVerdict s) (swipeTimeout s) (history s)
    (activeReportId s) (storedHistory s).
Definition setCommentDrafts (v : JSObject.t string) (s : AppState)
  : AppState :=
  mkAppState (step s) (suiteName s) (jsonDraft s) (parseError s)
    (sourcePlan s) (tests s) (cursor s) (results s) v (dragOffset s)
    (isDragging s) (exitVerdict s) (swipeTimeout s) (history s)
    (activeReportId s) (storedHistory s).
Definition setDragOffset (v : Z) (s : AppState) : AppState :=
  mkAppState (step s) (suiteName s) (jsonDraft s) (parseError s)
    (sourcePlan s) (tests s) (cursor s) (results s) (commentDrafts s) v
    (isDragging s) (exitVerdict s) (swipeTimeout s) (history s)
    (activeReportId s) (storedHistory s).
Definition setIsDragging (v : bool) (s : AppState) : AppState :=
  mkAppState (step s) (suiteName s) (jsonDraft s) (parseError s)
    (sourcePlan s) (tests s) (cursor s) (results s) (commentDrafts s)
    (dragOffset s) v (exitVerdict s) (swipeTimeout s) (history s)
    (activeReportId s) (storedHistory s).
Definition setExitVerdict (v : option Verdict) (s : AppState) : AppState :=
  mkAppState (step s) (suiteName s) (jsonDraft s) (parseError s)
    (sourcePlan s) (tests s) (cursor s) (results s) (commentDrafts s)
    (dragOffset s) (isDragging s) v (swipeTimeout s) (history s)
    (activeReportId s) (storedHistory s).
Definition setSwipeTimeout (v : option (Verdict * Render)) (s : AppState)
  : AppState :=
  mkAppState (step s) (suiteName s) (jsonDraft s) (parseError s)
    (sourcePlan s) (tests s) (cursor s) (results s) (commentDrafts s)
    (dragOffset s) (isDragging s) (exitVerdict s) v (history s)
    (activeReportId s) (storedHistory s).
Definition setHistory (v : list SavedReport) (s : AppState) : AppState :=
  mkAppState (step s) (suiteName s) (jsonDraft s) (parseError s)
    (sourcePlan s) (tests s) (cursor s) (results s) (commentDrafts s)
    (dragOffset s) (isDragging s) (exitVerdict s) (swipeTimeout s) v
    (activeReportId s) (storedHistory s).
Definition setActiveReportId (v : option string) (s : AppState) : AppState :=
  mkAppState (step s) (suiteName s) (jsonDraft s) (parseError s)
    (sourcePlan s) (tests s) (cursor s) (results s) (commentDrafts s)
    (dragOffset s) (isDragging s) (exitVerdict s) (swipeTimeout s)
    (history s) v (storedHistory s).
Definition setStoredHistory (v : option (list SavedReport)) (s : AppState)
  : AppState :=
  mkAppState (step s) (suiteName s) (jsonDraft s) (parseError s)
    (sourcePlan s) (tests s) (cursor s) (results s) (commentDrafts s)
    (dragOffset s) (isDragging s) (exitVerdict s) (swipeTimeout s)
    (history s) (activeReportId s) v.

Definition isRun (v : Step) : bool :=
  match v with StepRun => true | _ => false end.

Definition isSome {A : Type} (o : option A) : bool :=
  match o with Some _ => true | None => false end.

(* ================================================================== *)
(** ** Run engine operations *)

Definition clearRunState (s : AppState) : AppState :=
  setExitVerdict None
    (setIsDragging false
       (setDragOffset 0%Z
          (setCommentDrafts []
             (setResults []
                (setCursor 0
                   (setTests []
                      (setSourcePlan None
                         (setSwipeTimeout None s)))))))).

Definition openNewPlan (s : AppState) : AppState :=
  setStep StepInput (setParseError None (clearRunState s)).

(** [setHistory((previous) => [report, ...previous].slice(0, MAX))] *)
Definition appendHistory (report : SavedReport)
  (previous : list SavedReport) : list SavedReport :=
  firstn MAX_HISTORY_ITEMS (report :: previous).

(** [suiteName.trim() || "Untitled Plan"] *)
Definition reportName (suiteName : string) : string :=
  if JSString.truthy (JSString.trim suiteName) then JSString.trim suiteName
  else "Untitled Plan".

(** [finishRun] as created by render [c]. *)
Definition finishRun (c : Render) (freshId now : string)
  (nextResults : list Slot) (s : AppState) : AppState :=
  match r_sourcePlan c with
  | None => s
  | Some plan =>
      let finishedResults := committedResults nextResults in
      let report :=
        buildReport freshId now (reportName (r_suiteName c)) plan
          finishedResults in
      setStep StepReport
        (setActiveReportId (Some (report_id report))
           (setHistory (appendHistory report (history s)) s))
  end.

(** The draft [commentDrafts[target.id]], defaulting to the empty string
    when undefined, then trimmed: a member inherited from
    [Object.prototype] is not a string and has no [trim]. *)
Definition draftComment (testId : string) (drafts : JSObject.t string)
  : Completion string :=
  match JSObject.get testId drafts with
  | JSObject.Own text => Normal (JSString.trim text)
  | JSObject.Undefined => Normal (JSString.trim JSString.empty)
  | JSObject.Inherited =>
      Throw "TypeError: (commentDrafts[target.id] ?? ...).trim is not a function"
  end.

(** [commitVerdict] as created by render [c], run on the state [s]. *)
Definition commitVerdict (c : Render) (freshId now : string)
  (v : Verdict) (s : AppState) : Completion AppState :=
  if negb (isRun (r_step c)) then Normal s
  else match nth_error (r_tests c) (r_cursor c) with
       | None => Normal s
       | Some target =>
           comment <- draftComment (id target) (r_commentDrafts c) ;;
           let entry := mkTestResult target v comment in
           let nextResults :=
             arraySet (r_cursor c) (SlotResult entry) (r_results c) in
           let s1 := setIsDragging false (setResults nextResults s) in
           let nextCursor := r_cursor c + 1 in
           if Nat.leb (List.length (r_tests c)) nextCursor
           then Normal (finishRun c freshId now nextResults s1)
           else Normal (setCursor nextCursor s1)
       end.

(** [recordVerdict]; [offscreenDistance] is
    [Math.round(screenWidth * 1.2)], computed by the caller. *)
Definition recordVerdict (v : Verdict) (offscreenDistance : Z)
  (s : AppState) : AppState :=
  if negb (isRun (step s)) || isSome (exitVerdict s) then s
  else match nth_error (tests s) (cursor s) with
       | None => s
       | Some _ =>
           let signedDistance :=
             match v with
             | Pass => offscreenDistance
             | Fail => (- offscreenDistance)%Z
             end in
           setSwipeTimeout (Some (v, render s))
             (setDragOffset signedDistance
                (setExitVerdict (Some v)
                   (setIsDragging false
                      (setSwipeTimeout None s))))
       end.

(** The callback given to [window.setTimeout(..., 220)].  When
    [commitVerdict] throws, the rest of the callback is skipped; the
    timer has fired all the same, so nothing stays armed. *)
Definition timerFires (freshId now : string) (s : AppState) : AppState :=
  match swipeTimeout s with
  | None => s
  | Some (v, c) =>
      match commitVerdict c freshId now v s with
      | Normal s' =>
          setSwipeTimeout None (setDragOffset 0%Z (setExitVerdict None s'))
      | Throw _ => setSwipeTimeout None s
      end
  end.

Definition undoLast (s : AppState) : AppState :=
  if negb (isRun (step s)) || Nat.eqb (cursor s) 0 || isSome (exitVerdict s)
  then s
  else
    let previousIndex := cursor s - 1 in
    let nextResults := arraySet previousIndex SlotNull (results s) in
    setIsDragging false
      (setDragOffset 0%Z
         (setCursor previousIndex
            (setResults nextResults s))).

(** [{ ...previous, [testId]: value }] *)
Definition updateComment (testId value : string) (s : AppState) : AppState :=
  setCommentDrafts (JSObject.setOwn testId value (commentDrafts s)) s.

Definition resolvePointerUp (deltaX offscreenDistance : Z) (s : AppState)
  : AppState :=
  if (SWIPE_THRESHOLD <? deltaX)%Z
  then recordVerdict Pass offscreenDistance s
  else if (deltaX <? - SWIPE_THRESHOLD)%Z
       then recordVerdict Fail offscreenDistance s
       else setIsDragging false (setDragOffset 0%Z s).

Definition sameId (a b : string) : bool := String.eqb a b.

Definition headId (reports : list SavedReport) : option string :=
  match reports with
  | [] => None
  | r :: _ => Some (report_id r)
  end.

Definition deleteReport (reportId : string) (s : AppState) : AppState :=
  let nextHistory :=
    filter (fun item => negb (sameId (report_id item) reportId))
      (history s) in
  let s1 := setHistory nextHistory s in
  match activeReportId s with
  | Some active =>
      if sameId active reportId
      then setActiveReportId (headId nextHistory) s1
      else s1
  | None => s1
  end.

Definition clearHistory (s : AppState) : AppState :=
  setActiveReportId None (setHistory [] s).

(** The effect that reads the stored history when the page mounts:
    [storedHistory] is the array [JSON.parse] reads from the stored
    text, which is set as it is, however long. *)
Definition loadHistory (s : AppState) : AppState :=
  match storedHistory s with
  | None => s
  | Some parsed => setActiveReportId (headId parsed) (setHistory parsed s)
  end.

(** What [JSON.parse] reads back from [JSON.stringify(report)]: the own
    properties of the report and of the objects in it, and so all of it
    but an array that a category named [__proto__] made the prototype
    of its [source]. *)
Definition storedReport (report : SavedReport) : SavedReport :=
  mkSavedReport (report_id report) (report_suiteName report)
    (createdAt report) (report_total report) (report_passed report)
    (report_failed report) (byCategory report) (report_results report)
    (mkPlanInput (categories (source report)) None).

(** The effect that writes [JSON.stringify(history)] after [history]
    changed; the entry is kept as the array [JSON.parse] reads back
    from that text. *)
Definition persistHistory (s : AppState) : AppState :=
  setStoredHistory (Some (map storedReport (history s))) s.

(** The text of [SAMPLE_PLAN], line by line. *)
Definition quoted (s : string) : string :=
  (JSString.dquote ++ s ++ JSString.dquote)%string.

Definition lines (ls : list string) : string :=
  String.concat (String (ascii_of_nat 10) EmptyString) ls.

Definition sampleTest (action result : string) (last : bool) : list string :=
  [ "    {";
    ("      " ++ quoted "action" ++ ": " ++ quoted action ++ ",")%string;
    ("      " ++ quoted "result" ++ ": " ++ quoted result)%string;
    if last then "    }" else "    }," ].

Definition sampleCategory (name : string) (last : bool) : list string :=
  [ ("  " ++ quoted name ++ ": [")%string ]
  ++ sampleTest "click the log in button" "user is logged in" false
  ++ sampleTest "click the log out button" "user is logged out" true
  ++ [ if last then "  ]" else "  ]," ].

Definition SAMPLE_PLAN : string :=
  lines ([ "{" ] ++ sampleCategory "Category 1" false
         ++ sampleCategory "Category 2" true ++ [ "}" ]).

Definition initialState (stored : option (list SavedReport)) : AppState :=
  mkAppState StepStart "Regression Plan" SAMPLE_PLAN None None [] 0 [] []
    0%Z false None None [] None stored.

(** Mounting: the load effect, then the persist effect on the loaded
    history. *)
Definition mount (stored : option (list SavedReport)) : AppState :=
  persistHistory (loadHistory (initialState stored)).

Section Engine.

(** [JSON.parse]: [None] when it throws. *)
Variable JSON_parse : string -> option JSValue.

Definition parsePlan (rawText : string)
  : Completion (PlanInput * list FlatTest) :=
  parsePlanValue (JSON_parse rawText).

Definition submitPlan (s : AppState) : AppState :=
  let s0 := setSwipeTimeout None s in
  match parsePlan (jsonDraft s) with
  | Normal (plan, flattened) =>
      setStep StepRun
        (setExitVerdict None
           (setIsDragging false
              (setDragOffset 0%Z
                 (setParseError None
                    (setCommentDrafts []
                       (setCursor 0
                          (setResults
                             (repeat SlotNull (List.length flattened))
                             (setTests flattened
                                (setSourcePlan (Some plan) s0)))))))))
  | Throw message => setParseError (Some message) s0
  end.

(** What the user and the platform can do to the page.  Each event is
    offered by the panel of one step; elsewhere it is not available.
    - [StartNewSession]: the buttons bound to [openNewPlan];
    - [GoHome], [OpenReportHistory]: the buttons that set the step;
    - [EditSuiteName], [EditJsonDraft], [SubmitPlan]: the input panel;
    - [EditComment]: the comment box of the current card;
    - [DragMove], [DragRelease], [DragCancel]: a locked horizontal drag
      of the card, its release ([resolvePointerUp]) and its cancel;
    - [PressVerdict], [PressUndo]: the run buttons and their keys;
    - [TimerFires]: the callback armed by [recordVerdict] runs;
    - [SelectReport], [DeleteReport], [ClearHistory]: the report panel;
    - [Reload]: the page is loaded again and mounts from the store. *)
Inductive Event : Type :=
| StartNewSession
| GoHome
| OpenReportHistory
| EditSuiteName (value : string)
| EditJsonDraft (value : string)
| SubmitPlan
| EditComment (value : string)
| DragMove (deltaX : Z)
| DragRelease (deltaX offscreenDistance : Z)
| DragCancel
| PressVerdict (v : Verdict) (offscreenDistance : Z)
| PressUndo
| TimerFires (freshId now : string)
| SelectReport (reportId : string)
| DeleteReport (reportId : string)
| ClearHistory
| Reload.

Definition currentTest (s : AppState) : option FlatTest :=
  nth_error (tests s) (cursor s).

Definition handle (e : Event) (s : AppState) : AppState :=
  match e, step s with
  | StartNewSession, (StepStart | StepRun | StepReport) => openNewPlan s
  | GoHome, (StepInput | StepReport) => setStep StepStart s
  | OpenReportHistory, StepStart =>
      match history s with
      | [] => s
      | _ :: _ => setStep StepReport s
      end
  | EditSuiteName value, StepInput => setSuiteName value s
  | EditJsonDraft value, StepInput => setJsonDraft value s
  | SubmitPlan, StepInput => submitPlan s
  | EditComment value, StepRun =>
      match currentTest s with
      | Some t => updateComment (id t) value s
      | None => s
      end
  | DragMove deltaX, StepRun =>
      setDragOffset deltaX (setIsDragging true s)
  | DragRelease deltaX offscreenDistance, StepRun =>
      resolvePointerUp deltaX offscreenDistance s
  | DragCancel, StepRun => setIsDragging false (setDragOffset 0%Z s)
  | PressVerdict v offscreenDistance, StepRun =>
      recordVerdict v offscreenDistance s
  | PressUndo, StepRun => undoLast s
  | TimerFires freshId now, _ => timerFires freshId now s
  | SelectReport reportId, StepReport =>
      setActiveReportId (Some reportId) s
  | DeleteReport reportId, StepReport => deleteReport reportId s
  | ClearHistory, StepReport => clearHistory s
  | Reload, _ => loadHistory (initialState (storedHistory s))
  | _, _ => s
  end.

(** One event, followed by the effect that persists the history. *)
Definition dispatch (s : AppState) (e : Event) : AppState :=
  persistHistory (handle e s).

Definition run (events : list Event) (s : AppState) : AppState :=
  fold_left dispatch events s.

(** The states of a browser that starts with an empty store. *)
Inductive reachable : AppState -> Prop :=
| reachable_mount : reachable (mount None)
| reachable_dispatch s e : reachable s -> reachable (dispatch s e).

End Engine.

(* ================================================================== *)
(** * Vocabulary of the properties *)

(** ** Outcomes of the parser *)

(** The messages [parsePlan] is specified to fail with. *)
Inductive ValidationError : string -> Prop :=
| InvalidJson : ValidationError msgInvalidJson
| RootNotObject : ValidationError msgRoot
| EmptyCategoryName : ValidationError msgEmptyCategory
| CategoryNotArray category : ValidationError (msgNotArray category)
| TestNotObject category index :
    ValidationError (msgNotObject category index)
| TestNeedsFields category index :
    ValidationError (msgNeedsFields category index)
| NoTestsFound : ValidationError msgNoTests.

(** [source[category]] evaluates to an array. *)
Definition holdsCategory (category : string) (source : PlanInput) : Prop :=
  if String.eqb category "__proto__"
  then prototypeArray source <> None
  else JSObject.hasOwn category (categories source) = true.

(** Every outcome is a value satisfying [P] or a validation error. *)
Definition rejecting {A : Type} (P : A -> Prop) (c : Completion A) : Prop :=
  match c with
  | Normal a => P a
  | Throw m => ValidationError m
  end.

(** ** Identifiers *)

Definition isDash (c : ascii) : bool := Nat.eqb (nat_of_ascii c) 45.

Fixpoint hasDash (s : string) : bool :=
  match s with
  | EmptyString => false
  | String c rest => isDash c || hasDash rest
  end.

(** The part of a string after its last hyphen. *)
Fixpoint afterLastDash (s : string) : string :=
  match s with
  | EmptyString => EmptyString
  | String c rest =>
      if hasDash rest then afterLastDash rest
      else if isDash c then rest else s
  end.

(** A list numbered from [start]: every test carries its ordinal as
    [sequence], and an [id] built from its category, some index and that
    ordinal. *)
Fixpoint numberedFrom (start : nat) (l : list FlatTest) : Prop :=
  match l with
  | [] => True
  | t :: rest =>
      sequence t = start
      /\ (exists index, id t = testId (category t) index start)
      /\ numberedFrom (S start) rest
  end.

(** The loop variables of [parsePlan] stay numbered. *)
Definition numbered (st : ParseState) : Prop :=
  numberedFrom 1 (ps_flattened st)
  /\ ps_sequence st = 1 + List.length (ps_flattened st).

(** ** The authored plan and its flattening *)

(** The trimmed action and result of an item. *)
Definition groupOf (item : JSValue) : PlanGroup :=
  match item with
  | JObject fields =>
      mkPlanGroup (trimmedField "action" fields) (trimmedField "result" fields)
  | _ => mkPlanGroup JSString.empty JSString.empty
  end.

(** The items of a category. *)
Definition itemsOf (rawTests : JSValue) : list JSValue :=
  match rawTests with
  | JArray items => items
  | _ => []
  end.

(** The plan as authored, read off the parsed document: every category
    with its trimmed name and the trimmed action/result of its items, in
    the order of [Object.entries]. *)
Definition authoredGroups (entries : list (string * JSValue))
  : list (string * list PlanGroup) :=
  map (fun entry => (JSString.trim (fst entry),
                     map groupOf (itemsOf (snd entry)))) entries.

(** Flattening in encounter order: category order, then item order, with
    the position inside the category and a global ordinal. *)
Fixpoint flattenCategory (category : string) (index sequence : nat)
  (items : list PlanGroup) : list FlatTest :=
  match items with
  | [] => []
  | g :: rest =>
      mkFlatTest (testId category index sequence) category
        (action g) (result g) sequence
      :: flattenCategory category (S index) (S sequence) rest
  end.

Fixpoint flattenFrom (sequence : nat)
  (groups : list (string * list PlanGroup)) : list FlatTest :=
  match groups with
  | [] => []
  | (category, items) :: rest =>
      flattenCategory category 0 sequence items
      ++ flattenFrom (sequence + List.length items) rest
  end.

Definition toGroup (t : FlatTest) : PlanGroup :=
  mkPlanGroup (test_action t) (expected t).

Definition inCategory (k : string) (t : FlatTest) : bool :=
  String.eqb (category t) k.

Definition trimmedNames (entries : list (string * JSValue)) : list string :=
  map (fun entry => JSString.trim (fst entry)) entries.

Definition named (k : string) (entry : string * list PlanGroup) : bool :=
  String.eqb (fst entry) k.

(** Every item authored under the name [k], in document order. *)
Definition groupsNamed (k : string) (groups : list (string * list PlanGroup))
  : list PlanGroup :=
  List.concat (map snd (filter (named k) groups)).

(** The items of the last category authored under the name [k]. *)
Fixpoint lastNamed (k : string) (groups : list (string * list PlanGroup))
  : option (list PlanGroup) :=
  match groups with
  | [] => None
  | (k', items) :: rest =>
      match lastNamed k rest with
      | Some later => Some later
      | None => if String.eqb k' k then Some items else None
      end
  end.

(** Re-grouping a flattened list by category, keeping action and
    expected result and forgetting [id] and [sequence]: a test joins
    the group of its category, opening it when it is the first. *)
Definition regroupStep (groups : JSObject.t (list PlanGroup)) (t : FlatTest)
  : JSObject.t (list PlanGroup) :=
  let g := mkPlanGroup (test_action t) (expected t) in
  match JSObject.getOwn (category t) groups with
  | Some items => JSObject.replaceOwn (category t) (items ++ [g]) groups
  | None => JSObject.setOwn (category t) [g] groups
  end.

Definition regroupByCategory (flattened : list FlatTest)
  : JSObject.t (list PlanGroup) :=
  fold_left regroupStep flattened [].

(** No name is a key of the source twice. *)
Definition distinctKeys (source : PlanInput) : Prop :=
  NoDup (map fst (categories source)).

(** ** Counting results *)

Definition resultIn (k : string) (r : TestResult) : bool :=
  String.eqb (category (test r)) k.

(** The counts of the results of category [k], counted directly. *)
Definition tally (k : string) (results : list TestResult) : Counts :=
  let mine := filter (resultIn k) results in
  mkCounts (List.length (filter isPass mine))
           (List.length (filter (fun r => negb (isPass r)) mine))
           (List.length mine).

Definition addCounts (a b : Counts) : Counts :=
  mkCounts (passed a + passed b) (failed a + failed b) (total a + total b).

(** ** Commit and undo as the user sees them *)

(** [recordVerdict] followed by the firing of the timer it armed. *)
Definition recordAndCommit (freshId now : string) (v : Verdict)
  (offscreenDistance : Z) (s : AppState) : AppState :=
  timerFires freshId now (recordVerdict v offscreenDistance s).

(** The draft stored for a test, the empty string when there is none. *)
Definition draftText (testId : string) (drafts : JSObject.t string) : string :=
  match JSObject.getOwn testId drafts with
  | Some text => text
  | None => JSString.empty
  end.

(** The result [commitVerdict] builds for [target]. *)
Definition entryFor (target : FlatTest) (v : Verdict)
  (drafts : JSObject.t string) : TestResult :=
  mkTestResult target v (JSString.trim (draftText (id target) drafts)).

(** One commit-then-undo pair: a verdict, its delayed commit, an undo. *)
Definition commitThenUndo (s : AppState)
  (round : Verdict * Z * string * string) : AppState :=
  match round with
  | (v, offscreenDistance, freshId, now) =>
      undoLast (recordAndCommit freshId now v offscreenDistance s)
  end.

Definition commitUndoRounds (rounds : list (Verdict * Z * string * string))
  (s : AppState) : AppState :=
  fold_left commitThenUndo rounds s.

(** ** Invariants of the page *)

Definition storedWithinCap (s : AppState) : Prop :=
  match storedHistory s with
  | Some stored => List.length stored <= MAX_HISTORY_ITEMS
  | None => True
  end.

(** The timer is armed only while the exit verdict locks the card, and
    its closure still sees the run as it is, comment drafts apart. *)
Definition timerConsistent (s : AppState) : Prop :=
  forall v c,
    swipeTimeout s = Some (v, c) ->
    step s = StepRun /\ exitVerdict s <> None
    /\ r_step c = StepRun /\ r_tests c = tests s /\ r_cursor c = cursor s
    /\ r_results c = results s /\ r_sourcePlan c = sourcePlan s.

(** While running, the cursor points at a test whose slot, like every
    later one, is still empty. *)
Definition runningConsistent (s : AppState) : Prop :=
  step s = StepRun ->
  cursor s < List.length (tests s)
  /\ sourcePlan s <> None
  /\ forall i, cursor s <= i -> i < List.length (tests s) ->
               nth_error (results s) i = Some SlotNull.

Record pageInvariant (s : AppState) : Prop := mkPageInvariant {
  inv_results : List.length (results s) = List.length (tests s);
  inv_ids : Forall (fun t => JSObject.inherited (id t) = false) (tests s);
  inv_history : List.length (history s) <= MAX_HISTORY_ITEMS;
  inv_stored : storedWithinCap s;
  inv_running : runningConsistent s;
  inv_timer : timerConsistent s
}.

(** ** Sample plans and runs *)

(** The item [{"action": action, "result": result}]. *)
Definition planItem (action result : string) : JSValue :=
  JObject [("action", JString action); ("result", JString result)].

(** A plan whose two category names differ only by a leading blank:
    [{"A":[{"action":"x","result":"y"}]," A":[{"action":"p","result":"q"}]}] *)
Definition twiceTrimmedEntries : list (string * JSValue) :=
  [ ("A", JArray [planItem "x" "y"]); (" A", JArray [planItem "p" "q"]) ].

Definition twiceTrimmedPlan : JSValue := JObject twiceTrimmedEntries.

(** The tests flattened from it. *)
Definition twiceTrimmedFlattened : list FlatTest :=
  [ mkFlatTest "A-0-1" "A" "x" "y" 1;
    mkFlatTest "A-0-2" "A" "p" "q" 2 ].

(** A plan with an empty category:
    [{"A":[],"B":[{"action":"x","result":"y"}]}] *)
Definition emptyCategoryPlan : JSValue :=
  JObject [ ("A", JArray []); ("B", JArray [planItem "x" "y"]) ].

(** [{"A":[{"action":"x","result":"y"}]}] *)
Definition singleTestPlan : JSValue :=
  JObject [ ("A", JArray [planItem "x" "y"]) ].

(** Two tests in the category ["A"], one in the category ["B"]. *)
Definition threeTestPlan : JSValue :=
  JObject [ ("A", JArray [planItem "x" "y"; planItem "p" "q"]);
            ("B", JArray [planItem "u" "v"]) ].

(** A stand-in for [JSON.parse] that reads every text as [plan]. *)
Definition parseAs (plan : JSValue) : string -> option JSValue :=
  fun _ => Some plan.

(** A one-test run in the category ["constructor"], passed. *)
Definition constructorResult : TestResult :=
  mkTestResult (mkFlatTest "constructor-0-1" "constructor" "x" "y" 1)
    Pass JSString.empty.

(** The single-test run, loaded and waiting for its verdict. *)
Definition singleTestRun : AppState :=
  run (parseAs singleTestPlan) [StartNewSession; SubmitPlan] (mount None).

(** The three-test run after one committed verdict: the cursor is on
    the second test. *)
Definition threeTestRun : AppState :=
  run (parseAs threeTestPlan)
    [StartNewSession; SubmitPlan; PressVerdict Fail 576;
     TimerFires "r0" "t0"]
    (mount None).

(** A plan whose only category is named [__proto__]. *)
Definition prototypePlan : JSValue :=
  JObject [ ("__proto__", JArray [planItem "x" "y"]) ].

(** A report without results, and a stored array of 52 of them. *)
Definition emptyReport : SavedReport :=
  buildReport "r" "t" "Plan" emptySource [].

Definition oversizedStore : list SavedReport := repeat emptyReport 52.

(* ================================================================== *)
(** * Further code of the page *)

(** ** Derived values of a render *)

(** [results.filter((item): item is TestResult => Boolean(item)).length] *)
Definition completedCount (s : AppState) : nat :=
  List.length (committedResults (results s)).

(** [history.find((item) => item.id === activeReportId) ?? null]; no
    report has the id [null]. *)
Definition activeReport (s : AppState) : option SavedReport :=
  match activeReportId s with
  | Some active =>
      find (fun item => sameId (report_id item) active) (history s)
  | None => None
  end.

(** While running, the slots before the cursor hold the results of the
    tests at their positions. *)
Definition committedPrefix (s : AppState) : Prop :=
  step s = StepRun ->
  forall i, i < cursor s ->
    exists r, nth_error (results s) i = Some (SlotResult r)
              /\ nth_error (tests s) i = Some (test r).

(** ** File name of an exported report *)

(** [String.prototype.toLowerCase] on one code unit below 256: the
    letters A-Z and the capital letters of Latin-1 (all of C0-DE but the
    multiplication sign D7) move up by 32. *)
Definition lowerChar (c : ascii) : ascii :=
  let n := nat_of_ascii c in
  if (Nat.leb 65 n && Nat.leb n 90)
     || (Nat.leb 192 n && Nat.leb n 222 && negb (Nat.eqb n 215))
  then ascii_of_nat (n + 32)
  else c.

(** [String.prototype.toLowerCase] on a string of code units below 256,
    where it works unit by unit.  Above that range, which the strings
    here leave out, some code units lower-case into ASCII letters:
    U+212A to k, U+0130 to i followed by U+0307. *)
Fixpoint toLowerCase (s : string) : string :=
  match s with
  | EmptyString => EmptyString
  | String c rest => String (lowerChar c) (toLowerCase rest)
  end.

(** The class [[a-z0-9]]. *)
Definition isSlugChar (c : ascii) : bool :=
  let n := nat_of_ascii c in
  (Nat.leb 97 n && Nat.leb n 122) || (Nat.leb 48 n && Nat.leb n 57).

(** [.replace(/[^a-z0-9]+/g, "-")]: every maximal run of other
    characters becomes one hyphen; [inRun] tells that the run the
    character belongs to has been replaced already. *)
Fixpoint collapseRuns (inRun : bool) (s : string) : string :=
  match s with
  | EmptyString => EmptyString
  | String c rest =>
      if isSlugChar c then String c (collapseRuns false rest)
      else if inRun then collapseRuns true rest
           else String "-" (collapseRuns true rest)
  end.

Definition dropLeadingDash (s : string) : string :=
  match s with
  | EmptyString => EmptyString
  | String c rest => if isDash c then rest else s
  end.

Fixpoint dropTrailingDash (s : string) : string :=
  match s with
  | EmptyString => EmptyString
  | String c EmptyString => if isDash c then EmptyString else s
  | String c rest => String c (dropTrailingDash rest)
  end.

(** [.replace(/(^-|-$)+/g, "")]: the pattern matches one hyphen at the
    very start and one hyphen at the very end. *)
Definition stripEdgeDashes (s : string) : string :=
  dropTrailingDash (dropLeadingDash s).

Definition slugify (value : string) : string :=
  stripEdgeDashes (collapseRuns false (toLowerCase value)).

(** [slugify(report.suiteName) || "qa-report"] *)
Definition fileLabel (suiteName : string) : string :=
  if JSString.truthy (slugify suiteName) then slugify suiteName
  else "qa-report".

(** The name [downloadReport] saves the report under. *)
Definition downloadName (report : SavedReport) : string :=
  fileLabel (report_suiteName report) ++ "-" ++ report_id report ++ ".json".

(** A slug: letters a-z, digits and single hyphens between them. *)
Fixpoint slugBody (afterDash : bool) (s : string) : bool :=
  match s with
  | EmptyString => negb afterDash
  | String c rest =>
      if isDash c then negb afterDash && slugBody true rest
      else isSlugChar c && slugBody false rest
  end.

Definition wellFormedSlug (s : string) : bool :=
  match s with
  | EmptyString => true
  | String _ _ => slugBody true s
  end.

(** No two hyphens in a row, and nothing but hyphens, a-z and 0-9. *)
Fixpoint noDoubleDash (afterDash : bool) (s : string) : bool :=
  match s with
  | EmptyString => true
  | String c rest =>
      if isDash c then negb afterDash && noDoubleDash true rest
      else isSlugChar c && noDoubleDash false rest
  end.

(** An ASCII letter or digit. *)
Definition isAlnum (c : ascii) : bool :=
  let n := nat_of_ascii c in
  (Nat.leb 65 n && Nat.leb n 90) || (Nat.leb 97 n && Nat.leb n 122)
  || (Nat.leb 48 n && Nat.leb n 57).

Fixpoint anyChar (f : ascii -> bool) (s : string) : bool :=
  match s with
  | EmptyString => false
  | String c rest => f c || anyChar f rest
  end.

(** ** Keyboard shortcuts of the run step *)

(** What [onKeyDown] reads of [event.target]: an object that is no
    element has no [tagName]. *)
Record KeyTarget : Type := mkKeyTarget {
  tagName : option string;
  isContentEditable : bool
}.

Record KeyboardEvent : Type := mkKeyboardEvent {
  key_target : option KeyTarget;
  key : string;
  metaKey : bool;
  ctrlKey : bool
}.

(** [target?.tagName?.toLowerCase()] *)
Definition lowerTag (ev : KeyboardEvent) : option string :=
  match key_target ev with
  | Some element => option_map toLowerCase (tagName element)
  | None => None
  end.

(** [tag === name] *)
Definition tagIs (name : string) (tag : option string) : bool :=
  match tag with
  | Some text => String.eqb text name
  | None => false
  end.

(** The test that makes [onKeyDown] return at once: the key went to a
    text field. *)
Definition typedIntoField (ev : KeyboardEvent) : bool :=
  tagIs "input" (lowerTag ev) || tagIs "textarea" (lowerTag ev)
  || match key_target ev with
     | Some element => isContentEditable element
     | None => false
     end.

(** [key === "p" || event.key === "ArrowRight"], where [key] is
    [event.key.toLowerCase()]. *)
Definition passKey (ev : KeyboardEvent) : bool :=
  String.eqb (toLowerCase (key ev)) "p" || String.eqb (key ev) "ArrowRight".

(** [key === "f" || event.key === "ArrowLeft"] *)
Definition failKey (ev : KeyboardEvent) : bool :=
  String.eqb (toLowerCase (key ev)) "f" || String.eqb (key ev) "ArrowLeft".

(** [key === "u" || ((event.metaKey || event.ctrlKey) && key === "z")] *)
Definition undoKey (ev : KeyboardEvent) : bool :=
  String.eqb (toLowerCase (key ev)) "u"
  || ((metaKey ev || ctrlKey ev) && String.eqb (toLowerCase (key ev)) "z").

(** [onKeyDown]: three tests in a row, none of which returns. *)
Definition onKeyDown (ev : KeyboardEvent) (offscreenDistance : Z)
  (s : AppState) : AppState :=
  if typedIntoField ev then s
  else
    let s1 :=
      if passKey ev then recordVerdict Pass offscreenDistance s else s in
    let s2 :=
      if failKey ev then recordVerdict Fail offscreenDistance s1 else s1 in
    if undoKey ev then undoLast s2 else s2.

(** The effect installs the listener in the run step only. *)
Definition keyDown (ev : KeyboardEvent) (offscreenDistance : Z)
  (s : AppState) : AppState :=
  if isRun (step s) then onKeyDown ev offscreenDistance s else s.

(** ** The swipe gesture on the card *)

(** [pointerRef.current]; coordinates in whole CSS pixels. *)
Record Pointer : Type := mkPointer {
  pointerId : Z;
  startX : Z;
  startY : Z;
  locked : bool
}.

(** What the handlers read of a pointer event; [onControl] tells that
    [target.closest("textarea, input, button, select, option, label")]
    finds an element. *)
Record PointerEvent : Type := mkPointerEvent {
  ev_pointerId : Z;
  clientX : Z;
  clientY : Z;
  onControl : bool
}.

(** The card: the pointer reference beside the state of the page. *)
Record Card : Type := mkCard {
  pointerRef : option Pointer;
  page : AppState
}.

(** [pointer.pointerId !== event.pointerId] *)
Definition otherPointer (pointer : Pointer) (ev : PointerEvent) : bool :=
  negb (Z.eqb (pointerId pointer) (ev_pointerId ev)).




Definition handlePointerCancel (ev : PointerEvent) (c : Card) : Card :=
  match pointerRef c with
  | None => c
  | Some pointer =>
      if otherPointer pointer ev then c
      else mkCard None (setIsDragging false (setDragOffset 0%Z (page c)))
  end.





(** ** Adding up a category summary *)

(** The sum of one field over the entries of a summary. *)
Definition sumOver (field : Counts -> nat) (summary : CategorySummary) : nat :=
  list_sum (map (fun entry => field (snd entry)) summary).

(** ** Fields of a parsed test *)

(** A text that is not empty and has no white space around it. *)
Definition cleanText (s : string) : Prop :=
  s <> EmptyString /\ JSString.trim s = s.

Definition cleanTest (t : FlatTest) : Prop :=
  cleanText (category t) /\ cleanText (test_action t)
  /\ cleanText (expected t).

(** ** Further sample states *)

(** The single-test run, finished with a pass: one report in the
    history. *)
Definition finishedSingleRun : AppState :=
  Eval vm_compute in
    run (parseAs singleTestPlan)
      [StartNewSession; SubmitPlan; PressVerdict Pass 576;
       TimerFires "r1" "t1"]
      (mount None).

(** Two finished runs; the report of the first one is selected again. *)
Definition twoReports : AppState :=
  Eval vm_compute in
    run (parseAs singleTestPlan)
      [StartNewSession; SubmitPlan; PressVerdict Pass 576;
       TimerFires "r1" "t1";
       StartNewSession; SubmitPlan; PressVerdict Fail 576;
       TimerFires "r2" "t2"; SelectReport "r1"]
      (mount None).

(* ================================================================== *)
(** * Properties *)

(** ** The worked examples of the specification *)

(** The plan with one test yields one flattened test. *)
Example parse_single_test :
  parsePlanValue (Some singleTestPlan)
  = Normal (mkPlanInput [("A", [mkPlanGroup "x" "y"])] None,
            [mkFlatTest "A-0-1" "A" "x" "y" 1]).
Proof. reflexivity. Qed.

(** Committing Pass on it finishes the run at once, with the report
    total 1, passed 1, failed 0 and the category ["A"] at 1/0/1. *)
Example single_test_report :
  let s := run (parseAs singleTestPlan)
             [StartNewSession; SubmitPlan; PressVerdict Pass 576;
              TimerFires "r1" "t1"]
             (mount None) in
  step s = StepReport
  /\ history s
     = [ mkSavedReport "r1" "Regression Plan" "t1" 1 1 0
           [("A", mkCounts 1 0 1)]
           [mkTestResult (mkFlatTest "A-0-1" "A" "x" "y" 1) Pass
              JSString.empty]
           (mkPlanInput [("A", [mkPlanGroup "x" "y"])] None) ].
Proof. split; reflexivity. Qed.

(** The commit uses the draft as it was when the verdict was given: what
    is typed while the commit is in flight stays in the draft only. *)
Example comment_typed_in_flight :
  let s := run (parseAs threeTestPlan)
             [StartNewSession; SubmitPlan; EditComment "before";
              PressVerdict Pass 576; EditComment "after";
              TimerFires "r0" "t0"]
             (mount None) in
  nth_error (results s) 0
  = Some (SlotResult (mkTestResult (mkFlatTest "A-0-1" "A" "x" "y" 1) Pass
                        "before"))
  /\ commentDrafts s = [("A-0-1", "after")].
Proof. split; reflexivity. Qed.

(** The empty object has no tests. *)
Example parse_empty_object :
  parsePlanValue (Some (JObject [])) = Throw msgNoTests.
Proof. reflexivity. Qed.

(** A category that is not an array is refused by name. *)
Example parse_category_not_array :
  parsePlanValue (Some (JObject [("A", JObject [])]))
  = Throw (msgNotArray "A").
Proof. reflexivity. Qed.

(** Two categories with one test each, the first failed and the second
    passed: total 2, passed 1, failed 1, one result in each category. *)
Example two_category_report :
  let s := run (parseAs (JObject [ ("A", JArray [planItem "x" "y"]);
                                   ("B", JArray [planItem "u" "v"]) ]))
             [StartNewSession; SubmitPlan;
              PressVerdict Fail 576; TimerFires "r0" "t0";
              PressVerdict Pass 576; TimerFires "r1" "t1"]
             (mount None) in
  map (fun r => (report_total r, report_passed r, report_failed r,
                 byCategory r)) (history s)
  = [ (2, 1, 1, [("A", mkCounts 0 1 1); ("B", mkCounts 1 0 1)]) ].
Proof. reflexivity. Qed.

(** A comment typed before the verdict is stored trimmed; undo brings
    the cursor back and keeps the draft. *)
Example comment_trimmed_and_kept :
  let s := run (parseAs threeTestPlan)
             [StartNewSession; SubmitPlan; EditComment "  flaky  ";
              PressVerdict Fail 576; TimerFires "r0" "t0"]
             (mount None) in
  map (fun x => match x with
                | SlotResult r => Some (comment r)
                | _ => None
                end) (results s)
  = [Some "flaky"; None; None]
  /\ cursor s = 1
  /\ cursor (undoLast s) = 0
  /\ commentDrafts (undoLast s) = [("A-0-1", "  flaky  ")].
Proof. repeat split. Qed.

(** ** Own properties under assignment *)

Section OwnFacts.
Context {V : Type}.
Implicit Types (o : JSObject.t V) (k : string) (v : V).

Lemma getOwn_replaceOwn_same k v o :
  JSObject.hasOwn k o = true ->
  JSObject.getOwn k (JSObject.replaceOwn k v o) = Some v.
Proof.
  unfold JSObject.hasOwn.
  induction o as [|[k' v'] o IH]; simpl; [discriminate|].
  destruct (String.eqb k' k) eqn:E; simpl; rewrite E; auto.
Qed.

Lemma getOwn_replaceOwn_other k k' v o :
  k' <> k ->
  JSObject.getOwn k' (JSObject.replaceOwn k v o) = JSObject.getOwn k' o.
Proof.
  intros Hne.
  induction o as [|[k0 v0] o IH]; simpl; [reflexivity|].
  destruct (String.eqb k0 k) eqn:E; simpl.
  - apply String.eqb_eq in E; subst k0.
    destruct (String.eqb k k') eqn:E'; [|reflexivity].
    apply String.eqb_eq in E'; congruence.
  - rewrite IH; reflexivity.
Qed.

Lemma getOwn_insertIndex_same n k v o :
  JSObject.hasOwn k o = false ->
  JSObject.getOwn k (JSObject.insertIndex n k v o) = Some v.
Proof.
  unfold JSObject.hasOwn.
  induction o as [|[k' v'] o IH]; simpl; intros H.
  - rewrite String.eqb_refl; reflexivity.
  - destruct (String.eqb k' k) eqn:E; [discriminate|].
    destruct (JSString.arrayIndex k') as [m|]; simpl.
    + destruct (m <? n)%N; simpl.
      * rewrite E; auto.
      * rewrite String.eqb_refl; reflexivity.
    + rewrite String.eqb_refl; reflexivity.
Qed.

Lemma getOwn_insertIndex_other n k k' v o :
  k' <> k ->
  JSObject.getOwn k' (JSObject.insertIndex n k v o) = JSObject.getOwn k' o.
Proof.
  intros Hne.
  assert (Hk : String.eqb k k' = false) by (apply String.eqb_neq; congruence).
  induction o as [|[k0 v0] o IH]; simpl.
  - rewrite Hk; reflexivity.
  - destruct (JSString.arrayIndex k0) as [m|]; simpl.
    + destruct (m <? n)%N; simpl.
      * rewrite IH; reflexivity.
      * rewrite Hk; reflexivity.
    + rewrite Hk; reflexivity.
Qed.

Lemma getOwn_app k o1 o2 :
  JSObject.getOwn k (o1 ++ o2) =
  match JSObject.getOwn k o1 with
  | Some v => Some v
  | None => JSObject.getOwn k o2
  end.
Proof.
  induction o1 as [|[k' v'] o1 IH]; simpl; [reflexivity|].
  destruct (String.eqb k' k); auto.
Qed.

Lemma getOwn_setOwn_same k v o :
  JSObject.getOwn k (JSObject.setOwn k v o) = Some v.
Proof.
  unfold JSObject.setOwn.
  destruct (JSObject.hasOwn k o) eqn:H.
  - apply getOwn_replaceOwn_same; assumption.
  - destruct (JSString.arrayIndex k).
    + apply getOwn_insertIndex_same; assumption.
    + rewrite getOwn_app. unfold JSObject.hasOwn in H.
      destruct (JSObject.getOwn k o); [discriminate|].
      simpl. rewrite String.eqb_refl. reflexivity.
Qed.

Lemma getOwn_setOwn_other k k' v o :
  k' <> k ->
  JSObject.getOwn k' (JSObject.setOwn k v o) = JSObject.getOwn k' o.
Proof.
  intros Hne. unfold JSObject.setOwn.
  destruct (JSObject.hasOwn k o).
  - apply getOwn_replaceOwn_other; assumption.
  - destruct (JSString.arrayIndex k).
    + apply getOwn_insertIndex_other; assumption.
    + rewrite getOwn_app. destruct (JSObject.getOwn k' o); [reflexivity|].
      simpl. destruct (String.eqb k k') eqn:E; [|reflexivity].
      apply String.eqb_eq in E. congruence.
Qed.

Lemma hasOwn_In k o :
  JSObject.hasOwn k o = true <-> In k (map fst o).
Proof.
  unfold JSObject.hasOwn.
  induction o as [|[k' v'] o IH]; simpl.
  - split; [discriminate|contradiction].
  - destruct (String.eqb k' k) eqn:E.
    + apply String.eqb_eq in E. split; auto.
    + apply String.eqb_neq in E. rewrite IH. split; [auto|].
      intros [H|H]; [contradiction|exact H].
Qed.

Lemma keys_replaceOwn k v o :
  map fst (JSObject.replaceOwn k v o) = map fst o.
Proof.
  induction o as [|[k' v'] o IH]; simpl; [reflexivity|].
  destruct (String.eqb k' k); simpl; [reflexivity|]. rewrite IH. reflexivity.
Qed.

Lemma In_keys_insertIndex n k k' v o :
  In k' (map fst (JSObject.insertIndex n k v o))
  <-> k = k' \/ In k' (map fst o).
Proof.
  induction o as [|[k0 v0] o IH]; simpl; [tauto|].
  destruct (JSString.arrayIndex k0) as [m|]; [destruct (m <? n)%N|];
    simpl; try rewrite IH; tauto.
Qed.

Lemma NoDup_keys_insertIndex n k v o :
  ~ In k (map fst o) ->
  NoDup (map fst o) -> NoDup (map fst (JSObject.insertIndex n k v o)).
Proof.
  induction o as [|[k0 v0] o IH]; simpl; intros Hk Hnd.
  - constructor; [tauto|constructor].
  - inversion Hnd as [|? ? Hnotin Hrest]; subst.
    destruct (JSString.arrayIndex k0) as [m|]; [destruct (m <? n)%N|];
      simpl; try (constructor; [simpl; tauto|assumption]).
    constructor.
    + rewrite In_keys_insertIndex. intros [H|H]; [|contradiction].
      apply Hk. left. congruence.
    + apply IH; tauto.
Qed.

(** Assignment keeps the keys of an object distinct. *)
Lemma NoDup_keys_setOwn k v o :
  NoDup (map fst o) -> NoDup (map fst (JSObject.setOwn k v o)).
Proof.
  intros Hnd. unfold JSObject.setOwn.
  destruct (JSObject.hasOwn k o) eqn:H.
  - rewrite keys_replaceOwn. exact Hnd.
  - assert (Hk : ~ In k (map fst o)).
    { rewrite <- hasOwn_In. congruence. }
    destruct (JSString.arrayIndex k).
    + apply NoDup_keys_insertIndex; assumption.
    + rewrite map_app. simpl. apply NoDup_app; [exact Hnd|repeat constructor;
        simpl; tauto|].
      intros x Hx [Hx'|[]]. subst x. contradiction.
Qed.

End OwnFacts.

(** ** The plan parser is total and rejecting *)

Lemma holdsCategory_assignEmpty category source :
  holdsCategory category (assignEmpty category source).
Proof.
  unfold holdsCategory, assignEmpty.
  destruct (String.eqb category "__proto__"); simpl.
  - discriminate.
  - unfold JSObject.hasOwn. rewrite getOwn_setOwn_same. reflexivity.
Qed.

Lemma pushGroup_holds category group source :
  holdsCategory category source ->
  exists source',
    pushGroup category group source = Normal source'
    /\ holdsCategory category source'.
Proof.
  unfold holdsCategory, pushGroup.
  destruct (String.eqb category "__proto__"); simpl; intros H.
  - destruct (prototypeArray source) as [items|]; [|congruence].
    eexists; split; [reflexivity|]. simpl. discriminate.
  - pose proof H as H'. unfold JSObject.hasOwn in H'.
    destruct (JSObject.getOwn category (categories source)) as [items|];
      [|discriminate].
    eexists; split; [reflexivity|]. simpl.
    unfold JSObject.hasOwn. rewrite getOwn_replaceOwn_same by assumption.
    reflexivity.
Qed.

Lemma parseTest_rejecting category index item st :
  holdsCategory category (ps_source st) ->
  rejecting
    (fun st' =>
       holdsCategory category (ps_source st')
       /\ exists t, ps_flattened st' = ps_flattened st ++ [t])
    (parseTest category index item st).
Proof.
  intros H. unfold parseTest.
  destruct item; simpl; try apply TestNotObject.
  destruct (negb (JSString.truthy (trimmedField "action" entries))
            || negb (JSString.truthy (trimmedField "result" entries))).
  - apply TestNeedsFields.
  - destruct (pushGroup_holds category
                (mkPlanGroup (trimmedField "action" entries)
                   (trimmedField "result" entries)) _ H)
      as [source' [-> Hs]].
    simpl. split; [assumption|]. eexists; reflexivity.
Qed.

Lemma forEachTest_rejecting category rawTests :
  forall index st,
    holdsCategory category (ps_source st) ->
    rejecting
      (fun st' =>
         List.length (ps_flattened st) + List.length rawTests
         = List.length (ps_flattened st'))
      (forEachTest category index rawTests st).
Proof.
  induction rawTests as [|item rest IH]; intros index st H; simpl.
  - lia.
  - pose proof (parseTest_rejecting category index item st H) as Hp.
    destruct (parseTest category index item st) as [st'|m]; simpl in *;
      [|assumption].
    destruct Hp as [Hs [t Ht]].
    specialize (IH (S index) st' Hs).
    destruct (forEachTest category (S index) rest st'); simpl in *;
      [|assumption].
    rewrite Ht in IH. rewrite length_app in IH. simpl in IH. lia.
Qed.

Lemma parseCategory_rejecting rawCategory rawTests st :
  rejecting
    (fun st' =>
       List.length (ps_flattened st) <= List.length (ps_flattened st'))
    (parseCategory rawCategory rawTests st).
Proof.
  unfold parseCategory.
  destruct (negb (JSString.truthy (JSString.trim rawCategory)));
    [apply EmptyCategoryName|].
  destruct rawTests; simpl; try apply CategoryNotArray.
  pose proof (forEachTest_rejecting (JSString.trim rawCategory) items 0
                (mkParseState
                   (assignEmpty (JSString.trim rawCategory) (ps_source st))
                   (ps_flattened st) (ps_sequence st))
                (holdsCategory_assignEmpty _ _)) as H.
  destruct (forEachTest _ _ _ _); simpl in *; [lia|assumption].
Qed.

Lemma parseCategories_rejecting entries :
  forall st, rejecting (fun _ => True) (parseCategories entries st).
Proof.
  induction entries as [|[rawCategory rawTests] rest IH]; intros st; simpl.
  - exact I.
  - pose proof (parseCategory_rejecting rawCategory rawTests st) as H.
    destruct (parseCategory rawCategory rawTests st); simpl in *;
      [apply IH|assumption].
Qed.

Lemma parsePlanValue_rejecting parsed :
  rejecting (fun out => 1 <= List.length (snd out)) (parsePlanValue parsed).
Proof.
  unfold parsePlanValue.
  destruct parsed as [[ | | | | |entries]|]; simpl;
    try apply RootNotObject; try apply InvalidJson.
  pose proof (parseCategories_rejecting entries initialParseState) as H.
  destruct (parseCategories entries initialParseState) as [st|m]; simpl in *;
    [|assumption].
  destruct (ps_flattened st); simpl; [apply NoTestsFound|lia].
Qed.

(** C3.  For every input text [parsePlan] either returns a source and a
    flattened list of at least one test, or throws one of the enumerated
    validation messages; a throw carries no result at all. *)
Theorem parsePlan_total_rejecting (JSON_parse : string -> option JSValue)
  (rawText : string) :
  (exists source flattened,
      parsePlan JSON_parse rawText = Normal (source, flattened)
      /\ 1 <= List.length flattened)
  \/ (exists message,
         parsePlan JSON_parse rawText = Throw message
         /\ ValidationError message).
Proof.
  unfold parsePlan.
  pose proof (parsePlanValue_rejecting (JSON_parse rawText)) as H.
  destruct (parsePlanValue (JSON_parse rawText)) as [[source flattened]|m];
    simpl in H.
  - left. exists source, flattened. split; [reflexivity|assumption].
  - right. exists m. split; [reflexivity|assumption].
Qed.

(** ** Identifiers of flattened tests *)

Lemma hasDash_append a b :
  hasDash (a ++ b) = hasDash a || hasDash b.
Proof.
  induction a as [|c a IH]; simpl; [reflexivity|].
  rewrite IH. apply orb_assoc.
Qed.

Lemma afterLastDash_suffix a e :
  hasDash e = false -> afterLastDash (a ++ "-" ++ e) = e.
Proof.
  intros He. induction a as [|c a IH]; simpl.
  - rewrite He. reflexivity.
  - rewrite hasDash_append. simpl. rewrite orb_true_r. exact IH.
Qed.

Lemma hasDash_string_of_uint d :
  hasDash (NilEmpty.string_of_uint d) = false.
Proof. induction d; simpl; auto. Qed.

Lemma hasDash_ofNat n : hasDash (JSString.ofNat n) = false.
Proof. apply hasDash_string_of_uint. Qed.

Lemma ofNat_inj n m : JSString.ofNat n = JSString.ofNat m -> n = m.
Proof.
  unfold JSString.ofNat. intros H.
  apply DecimalNat.Unsigned.to_uint_inj.
  assert (Hs : Some (Nat.to_uint n) = Some (Nat.to_uint m)).
  { rewrite <- (NilEmpty.usu (Nat.to_uint n)).
    rewrite <- (NilEmpty.usu (Nat.to_uint m)).
    rewrite H. reflexivity. }
  congruence.
Qed.

Lemma append_assoc (a b c : string) : ((a ++ b) ++ c = a ++ (b ++ c))%string.
Proof. induction a as [|x a IH]; simpl; [reflexivity|]. rewrite IH; auto. Qed.

Lemma afterLastDash_testId category index sequence :
  afterLastDash (testId category index sequence) = JSString.ofNat sequence.
Proof.
  unfold testId.
  replace (category ++ "-" ++ JSString.ofNat index ++ "-"
           ++ JSString.ofNat sequence)%string
    with ((category ++ "-" ++ JSString.ofNat index) ++ "-"
          ++ JSString.ofNat sequence)%string.
  - apply afterLastDash_suffix, hasDash_ofNat.
  - rewrite !append_assoc. reflexivity.
Qed.

Lemma testId_sequence c1 i1 s1 c2 i2 s2 :
  testId c1 i1 s1 = testId c2 i2 s2 -> s1 = s2.
Proof.
  intros H. apply ofNat_inj.
  rewrite <- (afterLastDash_testId c1 i1 s1).
  rewrite <- (afterLastDash_testId c2 i2 s2).
  rewrite H. reflexivity.
Qed.

Lemma hasDash_testId category index sequence :
  hasDash (testId category index sequence) = true.
Proof.
  unfold testId. rewrite hasDash_append. simpl. apply orb_true_r.
Qed.

Lemma numberedFrom_app start l t :
  numberedFrom start l ->
  sequence t = start + List.length l ->
  (exists index, id t = testId (category t) index (sequence t)) ->
  numberedFrom start (l ++ [t]).
Proof.
  revert start. induction l as [|x l IH]; simpl; intros start Hl Hs Hi.
  - rewrite Nat.add_0_r in Hs. rewrite Hs in Hi. auto.
  - destruct Hl as [Hx [Hid Hl]]. repeat split; auto.
    apply IH; auto. lia.
Qed.

Lemma numberedFrom_sequence_ge start l t :
  numberedFrom start l -> In t l -> start <= sequence t.
Proof.
  revert start. induction l as [|x l IH]; simpl; intros start Hl Hin.
  - contradiction.
  - destruct Hl as [Hx [_ Hl]]. destruct Hin as [->|Hin]; [lia|].
    specialize (IH _ Hl Hin). lia.
Qed.

Lemma numberedFrom_NoDup start l :
  numberedFrom start l -> NoDup (map id l).
Proof.
  revert start. induction l as [|x l IH]; simpl; intros start Hl.
  - constructor.
  - destruct Hl as [Hx [[index Hid] Hl]]. constructor; [|eapply IH; eauto].
    intros Hin. apply in_map_iff in Hin. destruct Hin as [y [Hy Hin]].
    pose proof (numberedFrom_sequence_ge _ _ _ Hl Hin) as Hge.
    assert (Hyid : exists j, id y = testId (category y) j (sequence y)).
    { clear -Hl Hin. revert start Hl.
      induction l as [|z l IH]; simpl in *; intros start Hl; [contradiction|].
      destruct Hl as [Hz [[j Hj] Hl]]. destruct Hin as [->|Hin].
      - exists j. rewrite Hz. exact Hj.
      - eapply IH; eauto. }
    destruct Hyid as [j Hj]. rewrite Hid, Hj in Hy.
    apply testId_sequence in Hy. lia.
Qed.

Lemma parseTest_numbered category index item st st' :
  numbered st ->
  parseTest category index item st = Normal st' ->
  numbered st'.
Proof.
  unfold numbered, parseTest. intros [Hn Hs] H.
  destruct item; cbn [isRecord] in *; try discriminate.
  destruct (_ || _); [discriminate|].
  destruct (pushGroup _ _ _); simpl in H; [|discriminate].
  injection H as <-. simpl. split.
  - apply numberedFrom_app; simpl; auto. eexists; reflexivity.
  - rewrite length_app. simpl. lia.
Qed.

Lemma forEachTest_numbered category rawTests :
  forall index st st',
    numbered st ->
    forEachTest category index rawTests st = Normal st' ->
    numbered st'.
Proof.
  induction rawTests as [|item rest IH]; simpl; intros index st st' Hn H.
  - injection H as <-. assumption.
  - destruct (parseTest category index item st) as [st1|] eqn:E;
      simpl in H; [|discriminate].
    eapply IH; [|exact H]. eapply parseTest_numbered; eauto.
Qed.

Lemma parseCategories_numbered entries :
  forall st st',
    numbered st -> parseCategories entries st = Normal st' -> numbered st'.
Proof.
  induction entries as [|[rawCategory rawTests] rest IH]; simpl;
    intros st st' Hn H.
  - injection H as <-. assumption.
  - destruct (parseCategory rawCategory rawTests st) as [st1|] eqn:E;
      simpl in H; [|discriminate].
    eapply IH; [|exact H].
    unfold parseCategory in E.
    destruct (negb _); [discriminate|].
    destruct rawTests; cbn [isArray] in *; try discriminate.
    eapply forEachTest_numbered; [|exact E]. exact Hn.
Qed.

Lemma parsePlanValue_numbered parsed source flattened :
  parsePlanValue parsed = Normal (source, flattened) ->
  numberedFrom 1 flattened.
Proof.
  unfold parsePlanValue.
  destruct parsed as [[ | | | | |entries]|]; cbn [isRecord]; try discriminate.
  destruct (parseCategories entries initialParseState) as [st|] eqn:E;
    simpl; [|discriminate].
  assert (Hn : numbered st).
  { eapply parseCategories_numbered; [|exact E]. split; simpl; auto. }
  destruct Hn as [Hn _].
  destruct (ps_flattened st) eqn:Ef; [discriminate|].
  intros H. injection H as _ <-. exact Hn.
Qed.

Lemma numberedFrom_ids start l :
  numberedFrom start l ->
  Forall (fun t => exists index,
              id t = testId (category t) index (sequence t)) l.
Proof.
  revert start. induction l as [|t l IH]; simpl; intros start H;
    constructor.
  - destruct H as [Hs [[index Hid] _]]. exists index. rewrite Hs. exact Hid.
  - destruct H as [_ [_ H]]. eapply IH; eauto.
Qed.

(** C8.  When [parsePlan] succeeds every test of the flattened list has
    an [id] made of its category, an index and its sequence number, and
    no two tests share an [id], whatever the category strings contain:
    the ids at two positions are equal only if the positions are. *)
Theorem parsePlan_ids_unique (JSON_parse : string -> option JSValue)
  (rawText : string) (source : PlanInput) (flattened : list FlatTest) :
  parsePlan JSON_parse rawText = Normal (source, flattened) ->
  Forall (fun t => exists index,
              id t = testId (category t) index (sequence t)) flattened
  /\ NoDup (map id flattened)
  /\ forall i j a b,
       nth_error flattened i = Some a ->
       nth_error flattened j = Some b ->
       id a = id b -> i = j.
Proof.
  intros H. apply parsePlanValue_numbered in H.
  pose proof (numberedFrom_NoDup _ _ H) as Hnd.
  split; [eapply numberedFrom_ids; eauto|].
  split; [assumption|].
  intros i j a b Ha Hb Hid.
  apply (proj1 (NoDup_nth_error (map id flattened)) Hnd).
  - rewrite length_map. apply nth_error_Some. congruence.
  - rewrite !nth_error_map, Ha, Hb. simpl. congruence.
Qed.

Lemma parsePlan_ids_unique_witness :
  NoDup (map id twiceTrimmedFlattened)
  /\ forall i j a b,
       nth_error twiceTrimmedFlattened i = Some a ->
       nth_error twiceTrimmedFlattened j = Some b ->
       id a = id b -> i = j.
Proof.
  apply (parsePlan_ids_unique (parseAs twiceTrimmedPlan) "plan"
           (mkPlanInput [("A", [mkPlanGroup "p" "q"])] None)
           twiceTrimmedFlattened).
  reflexivity.
Defined.

(** ** The flattened list *)

Lemma forEachTest_flattened category rawTests :
  forall index st st',
    forEachTest category index rawTests st = Normal st' ->
    ps_flattened st' =
      ps_flattened st
      ++ flattenCategory category index (ps_sequence st)
           (map groupOf rawTests)
    /\ ps_sequence st' = ps_sequence st + List.length rawTests.
Proof.
  induction rawTests as [|item rest IH]; simpl; intros index st st' H.
  - injection H as <-. rewrite app_nil_r. split; [reflexivity|lia].
  - destruct (parseTest category index item st) as [st1|] eqn:E;
      simpl in H; [|discriminate].
    destruct (IH _ _ _ H) as [Hf Hs]. clear IH H.
    unfold parseTest in E. destruct item; cbn [isRecord] in *; try discriminate.
    destruct (_ || _); [discriminate|].
    destruct (pushGroup _ _ _); simpl in E; [|discriminate].
    injection E as <-. simpl in *.
    rewrite Hf, Hs, <- app_assoc. simpl.
    rewrite Nat.add_1_r. split; [reflexivity|lia].
Qed.

Lemma parseCategories_flattened entries :
  forall st st',
    parseCategories entries st = Normal st' ->
    ps_flattened st' =
      ps_flattened st ++ flattenFrom (ps_sequence st) (authoredGroups entries).
Proof.
  induction entries as [|[rawCategory rawTests] rest IH]; simpl;
    intros st st' H.
  - injection H as <-. rewrite app_nil_r. reflexivity.
  - destruct (parseCategory rawCategory rawTests st) as [st1|] eqn:E;
      simpl in H; [|discriminate].
    rewrite (IH _ _ H). clear IH H.
    unfold parseCategory in E.
    destruct (negb _); [discriminate|].
    destruct rawTests; cbn [isArray] in *; try discriminate.
    apply forEachTest_flattened in E. simpl in E. destruct E as [-> ->].
    simpl. rewrite length_map, <- app_assoc. reflexivity.
Qed.

(** The part of the ordering contract that holds on every successful
    parse: the flattened list is the authored plan in encounter order,
    with trimmed fields and ordinals counted from 1. *)
Theorem parsePlanValue_flattened entries source flattened :
  parsePlanValue (Some (JObject entries)) = Normal (source, flattened) ->
  flattened = flattenFrom 1 (authoredGroups entries).
Proof.
  simpl.
  destruct (parseCategories entries initialParseState) as [st|] eqn:E;
    simpl; [|discriminate].
  apply parseCategories_flattened in E. simpl in E.
  destruct (ps_flattened st); [discriminate|].
  intros H. injection H as _ <-. exact E.
Qed.

(** ** The source *)

Lemma pushGroup_getOwn category group source source' :
  String.eqb category "__proto__" = false ->
  pushGroup category group source = Normal source' ->
  prototypeArray source' = prototypeArray source
  /\ forall k,
       JSObject.getOwn k (categories source') =
       if String.eqb category k
       then option_map (fun items => items ++ [group])
              (JSObject.getOwn k (categories source))
       else JSObject.getOwn k (categories source).
Proof.
  intros Hp. unfold pushGroup. rewrite Hp.
  destruct (JSObject.getOwn category (categories source)) as [items|] eqn:E;
    [|discriminate].
  intros H. injection H as <-. simpl. split; [reflexivity|].
  intros k. destruct (String.eqb category k) eqn:Ek.
  - apply String.eqb_eq in Ek. subst k. rewrite E. simpl.
    apply getOwn_replaceOwn_same. unfold JSObject.hasOwn. rewrite E.
    reflexivity.
  - apply getOwn_replaceOwn_other. apply String.eqb_neq in Ek. congruence.
Qed.

Lemma forEachTest_source category rawTests :
  String.eqb category "__proto__" = false ->
  forall index st st',
    forEachTest category index rawTests st = Normal st' ->
    prototypeArray (ps_source st') = prototypeArray (ps_source st)
    /\ forall k,
         JSObject.getOwn k (categories (ps_source st')) =
         if String.eqb category k
         then option_map (fun items => items ++ map groupOf rawTests)
                (JSObject.getOwn k (categories (ps_source st)))
         else JSObject.getOwn k (categories (ps_source st)).
Proof.
  intros Hp.
  induction rawTests as [|item rest IH]; simpl; intros index st st' H.
  - injection H as <-. split; [reflexivity|]. intros k.
    destruct (String.eqb category k); [|reflexivity].
    destruct (JSObject.getOwn k _); simpl; [|reflexivity].
    rewrite app_nil_r. reflexivity.
  - destruct (parseTest category index item st) as [st1|] eqn:E;
      simpl in H; [|discriminate].
    destruct (IH _ _ _ H) as [Hproto Hget]. clear IH H.
    unfold parseTest in E. destruct item; cbn [isRecord] in *; try discriminate.
    destruct (_ || _); [discriminate|].
    destruct (pushGroup category _ (ps_source st)) as [source1|] eqn:Epush;
      simpl in E; [|discriminate].
    injection E as <-. simpl in *.
    destruct (pushGroup_getOwn _ _ _ _ Hp Epush) as [Hproto1 Hget1].
    split; [congruence|].
    intros k. rewrite Hget, Hget1.
    destruct (String.eqb category k); [|reflexivity].
    destruct (JSObject.getOwn k _); simpl; [|reflexivity].
    rewrite <- app_assoc. reflexivity.
Qed.

Lemma parseCategories_source entries :
  ~ In "__proto__" (trimmedNames entries) ->
  forall st st',
    parseCategories entries st = Normal st' ->
    prototypeArray (ps_source st') = prototypeArray (ps_source st)
    /\ forall k,
         JSObject.getOwn k (categories (ps_source st')) =
         match lastNamed k (authoredGroups entries) with
         | Some items => Some items
         | None => JSObject.getOwn k (categories (ps_source st))
         end.
Proof.
  induction entries as [|[rawCategory rawTests] rest IH]; simpl;
    intros Hproto st st' H.
  - injection H as <-. auto.
  - destruct (parseCategory rawCategory rawTests st) as [st1|] eqn:E;
      simpl in H; [|discriminate].
    destruct (IH (fun Hin => Hproto (or_intror Hin)) _ _ H) as [Hp Hget].
    clear IH H.
    assert (Hne : String.eqb (JSString.trim rawCategory) "__proto__" = false).
    { apply String.eqb_neq. intros Heq. apply Hproto. left. exact Heq. }
    unfold parseCategory in E.
    destruct (negb _); [discriminate|].
    destruct rawTests; cbn [isArray] in *; try discriminate.
    apply (forEachTest_source _ _ Hne) in E. simpl in E.
    destruct E as [Hp1 Hget1].
    unfold assignEmpty in Hp1, Hget1. rewrite Hne in Hp1, Hget1.
    simpl in Hp1, Hget1.
    split; [congruence|].
    intros k. rewrite Hget. simpl.
    destruct (lastNamed k (authoredGroups rest)); [reflexivity|].
    rewrite Hget1.
    destruct (String.eqb (JSString.trim rawCategory) k) eqn:Ek.
    + apply String.eqb_eq in Ek. subst k.
      rewrite getOwn_setOwn_same. reflexivity.
    + apply getOwn_setOwn_other. apply String.eqb_neq in Ek. congruence.
Qed.

Lemma pushGroup_distinctKeys category group source source' :
  pushGroup category group source = Normal source' ->
  distinctKeys source -> distinctKeys source'.
Proof.
  unfold pushGroup, distinctKeys.
  destruct (String.eqb category "__proto__").
  - destruct (prototypeArray source); [|discriminate].
    intros H. injection H as <-. auto.
  - destruct (JSObject.getOwn category (categories source)); [|discriminate].
    intros H. injection H as <-. simpl. rewrite keys_replaceOwn. auto.
Qed.

Lemma forEachTest_distinctKeys category rawTests :
  forall index st st',
    forEachTest category index rawTests st = Normal st' ->
    distinctKeys (ps_source st) -> distinctKeys (ps_source st').
Proof.
  induction rawTests as [|item rest IH]; simpl; intros index st st' H Hd.
  - injection H as <-. exact Hd.
  - destruct (parseTest category index item st) as [st1|] eqn:E;
      simpl in H; [|discriminate].
    apply (IH _ _ _ H). clear IH H.
    unfold parseTest in E.
    destruct item; cbn [isRecord] in *; try discriminate.
    destruct (_ || _); [discriminate|].
    destruct (pushGroup category _ (ps_source st)) as [source1|] eqn:Epush;
      simpl in E; [|discriminate].
    injection E as <-. simpl.
    eapply pushGroup_distinctKeys; eauto.
Qed.

Lemma parseCategories_distinctKeys entries :
  forall st st',
    parseCategories entries st = Normal st' ->
    distinctKeys (ps_source st) -> distinctKeys (ps_source st').
Proof.
  induction entries as [|[rawCategory rawTests] rest IH]; simpl;
    intros st st' H Hd.
  - injection H as <-. exact Hd.
  - destruct (parseCategory rawCategory rawTests st) as [st1|] eqn:E;
      simpl in H; [|discriminate].
    apply (IH _ _ H). clear IH H.
    unfold parseCategory in E.
    destruct (negb _); [discriminate|].
    destruct rawTests; cbn [isArray] in *; try discriminate.
    apply forEachTest_distinctKeys in E; [exact E|]. simpl.
    unfold assignEmpty, distinctKeys in *.
    destruct (String.eqb _ "__proto__"); simpl; [exact Hd|].
    apply NoDup_keys_setOwn. exact Hd.
Qed.

(** The source never holds a key twice. *)
Lemma parsePlanValue_distinctKeys parsed source flattened :
  parsePlanValue parsed = Normal (source, flattened) ->
  distinctKeys source.
Proof.
  unfold parsePlanValue.
  destruct parsed as [[ | | | | |entries]|]; cbn [isRecord];
    try discriminate.
  destruct (parseCategories entries initialParseState) as [st|] eqn:E;
    simpl; [|discriminate].
  apply parseCategories_distinctKeys in E; [|constructor].
  destruct (ps_flattened st); [discriminate|].
  intros H. injection H as <- _. exact E.
Qed.

(** What the source holds on every successful parse of a plan without a
    category named ["__proto__"]: under each name, the items of the last
    category authored under that name. *)
Theorem parsePlanValue_source entries source flattened :
  parsePlanValue (Some (JObject entries)) = Normal (source, flattened) ->
  ~ In "__proto__" (trimmedNames entries) ->
  prototypeArray source = None
  /\ forall k,
       JSObject.getOwn k (categories source)
       = lastNamed k (authoredGroups entries).
Proof.
  simpl. intros H Hproto.
  destruct (parseCategories entries initialParseState) as [st|] eqn:E;
    simpl in H; [|discriminate].
  destruct (parseCategories_source _ Hproto _ _ E) as [Hp Hget].
  destruct (ps_flattened st); [discriminate|].
  injection H as <- _. simpl in Hp, Hget.
  split; [exact Hp|].
  intros k. rewrite Hget.
  destruct (lastNamed k (authoredGroups entries)); reflexivity.
Qed.

(** C5.  On the plan with the categories ["A"] and [" A"], one item
    each, the parse succeeds and the flattened list keeps the authored
    order and numbering, while the returned source has lost the item
    authored first: under the one name ["A"] it holds the second item
    only, so the items of the input are not all carried into the
    source. *)
Theorem parsePlan_source_drops_authored_item :
  parsePlanValue (Some (JObject twiceTrimmedEntries))
  = Normal (mkPlanInput [("A", [mkPlanGroup "p" "q"])] None,
            twiceTrimmedFlattened)
  /\ authoredGroups twiceTrimmedEntries
     = [ ("A", [mkPlanGroup "x" "y"]); ("A", [mkPlanGroup "p" "q"]) ]
  /\ twiceTrimmedFlattened
     = flattenFrom 1 (authoredGroups twiceTrimmedEntries)
  /\ map sequence twiceTrimmedFlattened = [1; 2]
  /\ map toGroup twiceTrimmedFlattened
     = [mkPlanGroup "x" "y"; mkPlanGroup "p" "q"]
  /\ ~ In (mkPlanGroup "x" "y")
         (List.concat (map snd [("A", [mkPlanGroup "p" "q"])])).
Proof.
  repeat split; try reflexivity.
  simpl. intros [H|[]]. discriminate.
Qed.

(** ** Source and flattened list against each other *)

Lemma regroup_getOwn flattened :
  forall groups k,
    JSObject.getOwn k (fold_left regroupStep flattened groups) =
    match map toGroup (filter (inCategory k) flattened) with
    | [] => JSObject.getOwn k groups
    | added =>
        Some (match JSObject.getOwn k groups with
              | Some items => items ++ added
              | None => added
              end)
    end.
Proof.
  induction flattened as [|t rest IH]; intros groups k; [reflexivity|].
  cbn [fold_left filter]. rewrite IH. clear IH.
  assert (Hstep : JSObject.getOwn k (regroupStep groups t) =
                  if inCategory k t
                  then Some (match JSObject.getOwn k groups with
                             | Some items => items ++ [toGroup t]
                             | None => [toGroup t]
                             end)
                  else JSObject.getOwn k groups).
  { unfold regroupStep, inCategory. fold (toGroup t).
    destruct (String.eqb (category t) k) eqn:Ek.
    - apply String.eqb_eq in Ek. subst k.
      destruct (JSObject.getOwn (category t) groups) eqn:Eg.
      + apply getOwn_replaceOwn_same. unfold JSObject.hasOwn.
        rewrite Eg. reflexivity.
      + apply getOwn_setOwn_same.
    - apply String.eqb_neq in Ek.
      destruct (JSObject.getOwn (category t) groups).
      + apply getOwn_replaceOwn_other. congruence.
      + apply getOwn_setOwn_other. congruence. }
  rewrite Hstep. destruct (inCategory k t); cbn [map].
  - destruct (map toGroup (filter (inCategory k) rest)) as [|g gs].
    + reflexivity.
    + destruct (JSObject.getOwn k groups); [rewrite <- app_assoc|];
        reflexivity.
  - reflexivity.
Qed.

Lemma regroup_distinctKeys flattened :
  forall groups,
    NoDup (map fst groups) ->
    NoDup (map fst (fold_left regroupStep flattened groups)).
Proof.
  induction flattened as [|t rest IH]; intros groups H; [exact H|].
  cbn [fold_left]. apply IH. unfold regroupStep.
  destruct (JSObject.getOwn (category t) groups).
  - rewrite keys_replaceOwn. exact H.
  - apply NoDup_keys_setOwn. exact H.
Qed.

Lemma flattenCategory_groups k category items :
  forall index sequence,
    map toGroup
      (filter (inCategory k) (flattenCategory category index sequence items))
    = if String.eqb category k then items else [].
Proof.
  induction items as [|g rest IH]; intros index sequence; simpl.
  - destruct (String.eqb category k); reflexivity.
  - unfold inCategory at 1. simpl. specialize (IH (S index) (S sequence)).
    destruct (String.eqb category k); simpl; rewrite IH.
    + destruct g; reflexivity.
    + reflexivity.
Qed.

Lemma flattenFrom_groups k groups :
  forall sequence,
    map toGroup (filter (inCategory k) (flattenFrom sequence groups))
    = groupsNamed k groups.
Proof.
  unfold groupsNamed.
  induction groups as [|[category items] rest IH]; intros sequence; simpl;
    [reflexivity|].
  rewrite filter_app, map_app, flattenCategory_groups, IH.
  unfold named at 2. simpl.
  destruct (String.eqb category k); reflexivity.
Qed.

Lemma named_absent k groups :
  ~ In k (map fst groups) ->
  filter (named k) groups = [] /\ lastNamed k groups = None.
Proof.
  induction groups as [|[k' items] rest IH]; simpl; intros H; [auto|].
  destruct IH as [Hf Hl]; [tauto|].
  unfold named at 1. simpl. rewrite Hl.
  destruct (String.eqb k' k) eqn:Ek; [|auto].
  apply String.eqb_eq in Ek. tauto.
Qed.

Lemma groupsNamed_distinct k groups :
  NoDup (map fst groups) ->
  groupsNamed k groups
  = match lastNamed k groups with
    | Some items => items
    | None => []
    end.
Proof.
  unfold groupsNamed.
  induction groups as [|[k' items] rest IH]; simpl; intros H; [reflexivity|].
  inversion H as [|? ? Hnotin Hrest]; subst.
  unfold named at 1. simpl.
  destruct (String.eqb k' k) eqn:Ek.
  - apply String.eqb_eq in Ek. subst k'.
    destruct (named_absent k rest Hnotin) as [-> ->]. simpl.
    apply app_nil_r.
  - rewrite (IH Hrest). destruct (lastNamed k rest); reflexivity.
Qed.

Lemma authoredGroups_names entries :
  map fst (authoredGroups entries) = trimmedNames entries.
Proof.
  unfold authoredGroups, trimmedNames. rewrite map_map. reflexivity.
Qed.

(** An empty category is kept in the source; no test is flattened from
    it, so re-grouping cannot bring its key back. *)
Lemma regroup_misses_empty_category :
  parsePlanValue (Some emptyCategoryPlan)
  = Normal (mkPlanInput [("A", []); ("B", [mkPlanGroup "x" "y"])] None,
            [mkFlatTest "B-0-1" "B" "x" "y" 1])
  /\ regroupByCategory [mkFlatTest "B-0-1" "B" "x" "y" 1]
     = [("B", [mkPlanGroup "x" "y"])]
  /\ regroupByCategory [mkFlatTest "B-0-1" "B" "x" "y" 1]
     <> [("A", []); ("B", [mkPlanGroup "x" "y"])].
Proof.
  split; [reflexivity|]. split; [reflexivity|]. discriminate.
Qed.

(** C4.  When [parsePlan] succeeds on a plan whose trimmed category
    names are pairwise distinct and none of them is ["__proto__"], the
    source is a plain map, it and the re-grouped flattened list hold no
    key twice, and re-grouping the flattened list by category gives,
    under every name, exactly the items the source holds under it, in
    the same order; only the categories the source holds with an empty
    array have no group. *)
Theorem regroup_matches_source (JSON_parse : string -> option JSValue)
  (rawText : string) (entries : list (string * JSValue))
  (source : PlanInput) (flattened : list FlatTest) :
  JSON_parse rawText = Some (JObject entries) ->
  parsePlan JSON_parse rawText = Normal (source, flattened) ->
  NoDup (trimmedNames entries) ->
  ~ In "__proto__" (trimmedNames entries) ->
  prototypeArray source = None
  /\ NoDup (map fst (categories source))
  /\ NoDup (map fst (regroupByCategory flattened))
  /\ forall k items,
       JSObject.getOwn k (regroupByCategory flattened) = Some items
       <-> (JSObject.getOwn k (categories source) = Some items
            /\ items <> []).
Proof.
  intros Hparse H Hdistinct Hproto.
  unfold parsePlan in H. rewrite Hparse in H.
  pose proof (parsePlanValue_flattened _ _ _ H) as Hflat.
  pose proof (parsePlanValue_distinctKeys _ _ _ H) as Hkeys.
  simpl in H.
  destruct (parseCategories entries initialParseState) as [st|] eqn:E;
    simpl in H; [|discriminate].
  destruct (parseCategories_source _ Hproto _ _ E) as [Hp Hget].
  destruct (ps_flattened st); [discriminate|].
  injection H as <- _. simpl in Hp, Hget.
  split; [exact Hp|]. split; [exact Hkeys|].
  split; [apply regroup_distinctKeys; constructor|].
  intros k items. unfold regroupByCategory.
  rewrite regroup_getOwn, Hflat, flattenFrom_groups, Hget.
  rewrite groupsNamed_distinct
    by (rewrite authoredGroups_names; exact Hdistinct).
  simpl.
  destruct (lastNamed k (authoredGroups entries)) as [[|g gs]|]; split;
    try discriminate.
  - intros [Hs Hne]. injection Hs as <-. congruence.
  - intros Hs. injection Hs as <-. split; [reflexivity|discriminate].
  - intros [Hs _]. exact Hs.
  - intros [Hs _]. discriminate.
Qed.

Lemma regroup_matches_source_witness :
  prototypeArray (mkPlanInput [("A", []); ("B", [mkPlanGroup "x" "y"])] None)
  = None
  /\ NoDup (map fst [("A", @nil PlanGroup); ("B", [mkPlanGroup "x" "y"])])
  /\ NoDup (map fst (regroupByCategory [mkFlatTest "B-0-1" "B" "x" "y" 1]))
  /\ forall k items,
       JSObject.getOwn k
         (regroupByCategory [mkFlatTest "B-0-1" "B" "x" "y" 1]) = Some items
       <-> (JSObject.getOwn k [("A", []); ("B", [mkPlanGroup "x" "y"])]
            = Some items
            /\ items <> []).
Proof.
  apply (regroup_matches_source (parseAs emptyCategoryPlan) "plan"
           [ ("A", JArray []); ("B", JArray [planItem "x" "y"]) ]
           (mkPlanInput [("A", []); ("B", [mkPlanGroup "x" "y"])] None)
           [mkFlatTest "B-0-1" "B" "x" "y" 1]).
  - reflexivity.
  - reflexivity.
  - repeat constructor; simpl; intuition discriminate.
  - simpl. intuition discriminate.
Defined.

(** ** Totals and per-category counts of a report *)

Lemma filter_length_le {A : Type} (f : A -> bool) (l : list A) :
  List.length (filter f l) <= List.length l.
Proof.
  induction l as [|x l IH]; simpl; [lia|]. destruct (f x); simpl; lia.
Qed.

(** The totals of every report add up. *)
Theorem buildReport_totals freshId now suiteName plan results :
  let report := buildReport freshId now suiteName plan results in
  report_passed report = List.length (filter isPass results)
  /\ report_failed report = List.length results - report_passed report
  /\ report_total report = List.length results
  /\ report_passed report + report_failed report = report_total report.
Proof.
  simpl. pose proof (filter_length_le isPass results). repeat split; lia.
Qed.

Lemma bump_getOwn k k' f (summary : CategorySummary) :
  JSObject.getOwn k' (bump k f summary) =
  if String.eqb k k'
  then option_map f (JSObject.getOwn k' summary)
  else JSObject.getOwn k' summary.
Proof.
  unfold bump. destruct (String.eqb k k') eqn:Ek.
  - apply String.eqb_eq in Ek. subst k'.
    destruct (JSObject.getOwn k summary) eqn:E; simpl.
    + apply getOwn_replaceOwn_same. unfold JSObject.hasOwn. rewrite E.
      reflexivity.
    + exact E.
  - apply String.eqb_neq in Ek.
    destruct (JSObject.getOwn k summary); [|reflexivity].
    apply getOwn_replaceOwn_other. congruence.
Qed.

Lemma summarize_getOwn k summary r :
  JSObject.inherited k = false ->
  JSObject.getOwn k (summarize summary r) =
  if resultIn k r
  then Some (addCounts
               (match JSObject.getOwn k summary with
                | Some c => c
                | None => zeroCounts
                end)
               (tally k [r]))
  else JSObject.getOwn k summary.
Proof.
  intros Hk. unfold summarize, tally. simpl.
  set (c := category (test r)).
  unfold resultIn. fold c.
  assert (Hinit :
            JSObject.getOwn k (ensureEntry c summary)
            = if String.eqb c k
              then Some match JSObject.getOwn k summary with
                        | Some x => x
                        | None => zeroCounts
                        end
              else JSObject.getOwn k summary).
  { unfold ensureEntry, JSObject.get. destruct (String.eqb c k) eqn:Ek.
    - apply String.eqb_eq in Ek. subst k.
      destruct (JSObject.getOwn c summary) eqn:E; [exact E|].
      rewrite Hk. apply getOwn_setOwn_same.
    - apply String.eqb_neq in Ek.
      destruct (JSObject.getOwn c summary); [reflexivity|].
      destruct (JSObject.inherited c); [reflexivity|].
      apply getOwn_setOwn_other. congruence. }
  destruct (isPass r) eqn:Ep; rewrite !bump_getOwn, Hinit;
    destruct (String.eqb c k); simpl; try reflexivity;
    rewrite Ep; simpl; destruct (JSObject.getOwn k summary) as [x|];
    simpl; unfold addCounts, addPassed, addFailed, addTotal; simpl;
    f_equal; f_equal; lia.
Qed.

Lemma tally_cons k r results :
  tally k (r :: results) = addCounts (tally k [r]) (tally k results).
Proof.
  unfold tally, addCounts. simpl.
  destruct (resultIn k r); simpl; [|reflexivity].
  destruct (isPass r); reflexivity.
Qed.

Lemma fold_summarize_getOwn k results :
  JSObject.inherited k = false ->
  forall summary,
    JSObject.getOwn k (fold_left summarize results summary) =
    match filter (resultIn k) results, JSObject.getOwn k summary with
    | [], found => found
    | _ :: _, Some c => Some (addCounts c (tally k results))
    | _ :: _, None => Some (tally k results)
    end.
Proof.
  intros Hk. induction results as [|r rest IH]; intros summary.
  - simpl. destruct (JSObject.getOwn k summary); reflexivity.
  - cbn [fold_left filter]. rewrite IH, (summarize_getOwn _ _ _ Hk).
    rewrite (tally_cons k r rest).
    destruct (resultIn k r) eqn:Er.
    + assert (Hrest : filter (resultIn k) rest = [] ->
                      tally k rest = zeroCounts).
      { intros Hnil. unfold tally. rewrite Hnil. reflexivity. }
      destruct (filter (resultIn k) rest) eqn:Ef;
        destruct (JSObject.getOwn k summary) as [c|];
        try rewrite (Hrest eq_refl);
        unfold addCounts, zeroCounts; simpl; f_equal; f_equal; lia.
    + assert (Hzero : tally k [r] = zeroCounts).
      { unfold tally. simpl. rewrite Er. reflexivity. }
      rewrite Hzero.
      destruct (filter (resultIn k) rest);
        destruct (JSObject.getOwn k summary) as [c|];
        try reflexivity;
        unfold addCounts, zeroCounts; simpl; f_equal;
        destruct (tally k rest); reflexivity.
Qed.

(** For a category whose name is not a member of [Object.prototype],
    [byCategory] holds exactly the counts of that category's results,
    and no entry when the category does not occur; names are compared
    character by character. *)
Theorem getCategorySummary_counts (results : list TestResult) (k : string) :
  JSObject.inherited k = false ->
  JSObject.getOwn k (getCategorySummary results) =
  match filter (resultIn k) results with
  | [] => None
  | _ :: _ => Some (tally k results)
  end.
Proof.
  intros Hk. unfold getCategorySummary.
  rewrite (fold_summarize_getOwn k results Hk). simpl.
  destruct (filter (resultIn k) results); reflexivity.
Qed.

(** C6.  For a finished run whose only result belongs to the category
    ["constructor"] the totals are right and [byCategory] has no entry
    at all: the lookup [summary["constructor"]] finds the member
    inherited from the prototype, so the category is never created and
    the counts are written elsewhere. *)
Theorem buildReport_inherited_category_missing freshId now suiteName plan :
  let report :=
    buildReport freshId now suiteName plan [constructorResult] in
  report_total report = 1
  /\ report_passed report = 1
  /\ report_failed report = 0
  /\ byCategory report = []
  /\ JSObject.getOwn "constructor" (byCategory report) = None.
Proof. repeat split. Qed.

(** ** Writing into the results array *)

Lemma length_arraySet i x items :
  i < List.length items ->
  List.length (arraySet i x items) = List.length items.
Proof.
  revert i. induction items as [|y items IH]; simpl; intros i Hi; [lia|].
  destruct i; simpl; [reflexivity|]. rewrite IH; lia.
Qed.

Lemma nth_error_arraySet_same i x items :
  nth_error (arraySet i x items) i = Some x.
Proof.
  revert items. induction i as [|i IH]; intros [|y items]; simpl; auto.
Qed.

Lemma nth_error_arraySet_other i j x items :
  i < List.length items -> j <> i ->
  nth_error (arraySet i x items) j = nth_error items j.
Proof.
  revert i j. induction items as [|y items IH]; simpl; intros i j Hi Hne;
    [lia|].
  destruct i, j; simpl; try reflexivity; try congruence.
  apply IH; lia.
Qed.

Lemma arraySet_twice i x y items :
  arraySet i y (arraySet i x items) = arraySet i y items.
Proof.
  revert items. induction i as [|i IH]; intros [|z items]; simpl;
    try reflexivity; rewrite IH; reflexivity.
Qed.

Lemma arraySet_same i x items :
  nth_error items i = Some x -> arraySet i x items = items.
Proof.
  revert items. induction i as [|i IH]; intros [|z items]; simpl;
    try discriminate.
  - congruence.
  - intros H. rewrite IH; auto.
Qed.

(** ** Invalid calls are silent no-ops *)

Lemma recordVerdict_refused v offscreenDistance s :
  step s <> StepRun \/ nth_error (tests s) (cursor s) = None
  \/ exitVerdict s <> None ->
  recordVerdict v offscreenDistance s = s.
Proof.
  intros H. unfold recordVerdict.
  destruct (step s); simpl; try reflexivity.
  destruct (exitVerdict s); simpl; try reflexivity.
  destruct (nth_error (tests s) (cursor s)); try reflexivity.
  destruct H as [H|[H|H]]; congruence.
Qed.

Lemma undoLast_refused s :
  step s <> StepRun \/ cursor s = 0 \/ exitVerdict s <> None ->
  undoLast s = s.
Proof.
  intros H. unfold undoLast.
  destruct (step s); simpl; try reflexivity.
  destruct (Nat.eqb (cursor s) 0) eqn:E; simpl; try reflexivity.
  destruct (exitVerdict s); simpl; try reflexivity.
  apply Nat.eqb_neq in E.
  destruct H as [H|[H|H]]; congruence.
Qed.

Lemma commitVerdict_refused c freshId now v s :
  r_step c <> StepRun \/ nth_error (r_tests c) (r_cursor c) = None ->
  commitVerdict c freshId now v s = Normal s.
Proof.
  intros H. unfold commitVerdict.
  destruct (r_step c); simpl; try reflexivity.
  destruct (nth_error (r_tests c) (r_cursor c)); try reflexivity.
  destruct H as [H|H]; congruence.
Qed.

(** C10.  Outside its precondition a call changes nothing and raises
    nothing: [recordVerdict] when the step is not the run step, when no
    test is at the cursor or when a commit is in flight; [undoLast] when
    the step is not the run step, when the cursor is 0 or when a commit
    is in flight; [commitVerdict] when its render is not in the run step
    or has no test at its cursor.  The whole state is returned as it
    was, the history included. *)
Theorem invalid_calls_change_nothing (s : AppState) :
  (forall v offscreenDistance,
      step s <> StepRun \/ nth_error (tests s) (cursor s) = None
      \/ exitVerdict s <> None ->
      recordVerdict v offscreenDistance s = s)
  /\ (step s <> StepRun \/ cursor s = 0 \/ exitVerdict s <> None ->
      undoLast s = s)
  /\ (forall c freshId now v,
         r_step c <> StepRun \/ nth_error (r_tests c) (r_cursor c) = None ->
         commitVerdict c freshId now v s = Normal s).
Proof.
  split; [|split].
  - intros v d. apply recordVerdict_refused.
  - apply undoLast_refused.
  - intros c freshId now v. apply commitVerdict_refused.
Qed.

Lemma invalid_calls_change_nothing_witness :
  recordVerdict Pass 576 (mount None) = mount None
  /\ undoLast (mount None) = mount None
  /\ commitVerdict (render (mount None)) "id" "now" Fail (mount None)
     = Normal (mount None).
Proof.
  pose proof (invalid_calls_change_nothing (mount None)) as [H1 [H2 H3]].
  split; [|split].
  - apply H1. left. discriminate.
  - apply H2. right. left. reflexivity.
  - apply H3. left. discriminate.
Defined.

(** ** Invariants of the page *)

Lemma inherited_no_dash k : hasDash k = true -> JSObject.inherited k = false.
Proof.
  intros Hd. destruct (JSObject.inherited k) eqn:E; [|reflexivity].
  unfold JSObject.inherited, JSObject.prototypeKeys in E. simpl in E.
  repeat match type of E with
         | (String.eqb k ?lit || _) = true =>
             let Hk := fresh "Hk" in
             destruct (String.eqb k lit) eqn:Hk;
             [ apply String.eqb_eq in Hk; subst k; discriminate Hd
             | simpl in E ]
         end.
  discriminate E.
Qed.

Lemma numberedFrom_not_inherited start l :
  numberedFrom start l ->
  Forall (fun t => JSObject.inherited (id t) = false) l.
Proof.
  revert start. induction l as [|t l IH]; simpl; intros start H;
    constructor.
  - destruct H as [_ [[index Hid] _]]. apply inherited_no_dash.
    rewrite Hid. apply hasDash_testId.
  - destruct H as [_ [_ H]]. eapply IH; eauto.
Qed.

Lemma appendHistory_length report previous :
  List.length (appendHistory report previous) <= MAX_HISTORY_ITEMS.
Proof. unfold appendHistory. apply firstn_le_length. Qed.

Lemma nth_error_repeat_null n i :
  i < n -> nth_error (repeat SlotNull n) i = Some SlotNull.
Proof.
  revert i. induction n as [|n IH]; intros i Hi; [lia|].
  destruct i; simpl; [reflexivity|]. apply IH. lia.
Qed.

(** Reading a field of an updated state. *)
Ltac state_simpl :=
  cbn [ step suiteName jsonDraft parseError sourcePlan tests cursor results
        commentDrafts dragOffset isDragging exitVerdict swipeTimeout history
        activeReportId storedHistory
        setStep setSuiteName setJsonDraft setParseError setSourcePlan
        setTests setCursor setResults setCommentDrafts setDragOffset
        setIsDragging setExitVerdict setSwipeTimeout setHistory
        setActiveReportId setStoredHistory
        clearRunState openNewPlan updateComment clearHistory persistHistory
        initialState render
        r_step r_suiteName r_sourcePlan r_tests r_cursor r_results
        r_commentDrafts ] in *.

Ltac invariant_fields :=
  constructor;
  unfold storedWithinCap, runningConsistent, timerConsistent; state_simpl.

Lemma initialState_invariant stored :
  match stored with
  | Some h => List.length h <= MAX_HISTORY_ITEMS
  | None => True
  end ->
  pageInvariant (loadHistory (initialState stored)).
Proof.
  intros H. unfold loadHistory. state_simpl.
  destruct stored as [h|]; invariant_fields; auto; try discriminate;
    simpl; unfold MAX_HISTORY_ITEMS; lia.
Qed.

Lemma persistHistory_invariant s :
  pageInvariant s -> pageInvariant (persistHistory s).
Proof.
  intros [H1 H2 H3 H4 H5 H6]. invariant_fields; auto.
  rewrite length_map. exact H3.
Qed.

Lemma openNewPlan_invariant s :
  pageInvariant s -> pageInvariant (openNewPlan s).
Proof.
  intros [H1 H2 H3 H4 H5 H6]. invariant_fields; auto; discriminate.
Qed.

Lemma no_timer_outside_run s :
  timerConsistent s -> step s <> StepRun -> swipeTimeout s = None.
Proof.
  intros H Hs. destruct (swipeTimeout s) as [[v c]|] eqn:E; [|reflexivity].
  destruct (H v c E) as [Hr _]. contradiction.
Qed.

Lemma no_timer_unlocked s :
  timerConsistent s -> exitVerdict s = None -> swipeTimeout s = None.
Proof.
  intros H Hs. destruct (swipeTimeout s) as [[v c]|] eqn:E; [|reflexivity].
  destruct (H v c E) as [_ [Hr _]]. contradiction.
Qed.

Lemma setStep_invariant v s :
  pageInvariant s -> step s <> StepRun -> v <> StepRun ->
  pageInvariant (setStep v s).
Proof.
  intros [H1 H2 H3 H4 H5 H6] Hs Hv. invariant_fields; auto.
  - contradiction.
  - intros w c E. rewrite (no_timer_outside_run s H6 Hs) in E. discriminate.
Qed.

Lemma recordVerdict_invariant v d s :
  pageInvariant s -> pageInvariant (recordVerdict v d s).
Proof.
  intros Hinv. pose proof Hinv as [H1 H2 H3 H4 H5 H6].
  unfold recordVerdict.
  destruct (step s) eqn:Es; cbn [isRun negb orb]; try exact Hinv.
  destruct (exitVerdict s) eqn:Ee; cbn [isSome orb]; try exact Hinv.
  destruct (nth_error (tests s) (cursor s)); try exact Hinv.
  invariant_fields; auto.
  intros w c E. injection E as _ <-. state_simpl.
  repeat split; auto. discriminate.
Qed.

Lemma undoLast_invariant s :
  pageInvariant s -> pageInvariant (undoLast s).
Proof.
  intros Hinv. pose proof Hinv as [H1 H2 H3 H4 H5 H6].
  unfold undoLast.
  destruct (step s) eqn:Es; cbn [isRun negb orb]; try exact Hinv.
  destruct (Nat.eqb (cursor s) 0) eqn:Ec; cbn [orb]; try exact Hinv.
  destruct (exitVerdict s) eqn:Ee; cbn [isSome orb]; try exact Hinv.
  apply Nat.eqb_neq in Ec.
  destruct (H5 Es) as [Hc [Hp Hn]].
  invariant_fields; auto.
  - rewrite length_arraySet; lia.
  - intros _. repeat split; [lia|assumption|].
    intros i Hi Hlt. destruct (Nat.eq_dec i (cursor s - 1)) as [->|Hne].
    + apply nth_error_arraySet_same.
    + rewrite nth_error_arraySet_other by lia. apply Hn; lia.
  - intros w c E. rewrite (no_timer_unlocked s H6 Ee) in E. discriminate.
Qed.

Lemma updateComment_invariant k value s :
  pageInvariant s -> pageInvariant (updateComment k value s).
Proof.
  intros [H1 H2 H3 H4 H5 H6]. invariant_fields; auto.
Qed.

Lemma timerFires_invariant freshId now s :
  pageInvariant s -> pageInvariant (timerFires freshId now s).
Proof.
  intros Hinv. pose proof Hinv as [H1 H2 H3 H4 H5 H6].
  unfold timerFires.
  destruct (swipeTimeout s) as [[v c]|] eqn:Et; [|exact Hinv].
  destruct (H6 v c Et) as [Hs [He [Cs [Ct [Cc [Cr Cp]]]]]].
  destruct (H5 Hs) as [Hc [Hp Hn]].
  unfold commitVerdict. rewrite Cs, Ct, Cc, Cr. cbn [isRun negb].
  destruct (nth_error (tests s) (cursor s)) as [target|] eqn:En.
  2:{ invariant_fields; auto. discriminate. }
  destruct (draftComment (id target) (r_commentDrafts c)) as [text|m];
    cbn [bind].
  2:{ invariant_fields; auto. discriminate. }
  destruct (Nat.leb (List.length (tests s)) (cursor s + 1)) eqn:El.
  - unfold finishRun. rewrite Cp.
    destruct (sourcePlan s) as [plan|]; [|congruence].
    invariant_fields; auto; try discriminate.
    + rewrite length_arraySet; lia.
    + apply appendHistory_length.
  - apply Nat.leb_gt in El.
    invariant_fields; auto; try discriminate.
    + rewrite length_arraySet; lia.
    + intros _. repeat split; [lia|assumption|].
      intros i Hi Hlt. rewrite nth_error_arraySet_other by lia.
      apply Hn; lia.
Qed.

Lemma deleteReport_invariant reportId s :
  pageInvariant s -> pageInvariant (deleteReport reportId s).
Proof.
  intros [H1 H2 H3 H4 H5 H6]. unfold deleteReport.
  assert (Hf : List.length
                 (filter (fun item => negb (sameId (report_id item) reportId))
                    (history s)) <= MAX_HISTORY_ITEMS).
  { eapply Nat.le_trans; [apply filter_length_le|assumption]. }
  destruct (activeReportId s) as [active|];
    [destruct (sameId active reportId)|]; invariant_fields; auto.
Qed.

Lemma clearHistory_invariant s :
  pageInvariant s -> pageInvariant (clearHistory s).
Proof.
  intros [H1 H2 H3 H4 H5 H6]. invariant_fields; auto.
  simpl. unfold MAX_HISTORY_ITEMS. lia.
Qed.

Lemma visual_invariant d b s :
  pageInvariant s -> pageInvariant (setDragOffset d (setIsDragging b s)).
Proof. intros [H1 H2 H3 H4 H5 H6]. invariant_fields; auto. Qed.

Lemma visual_invariant' d b s :
  pageInvariant s -> pageInvariant (setIsDragging b (setDragOffset d s)).
Proof. intros [H1 H2 H3 H4 H5 H6]. invariant_fields; auto. Qed.

Lemma resolvePointerUp_invariant dx d s :
  pageInvariant s -> pageInvariant (resolvePointerUp dx d s).
Proof.
  intros H. unfold resolvePointerUp.
  destruct (_ <? _)%Z; [apply recordVerdict_invariant; assumption|].
  destruct (_ <? _)%Z; [apply recordVerdict_invariant; assumption|].
  apply visual_invariant'; assumption.
Qed.

Section EngineFacts.
Variable JSON_parse : string -> option JSValue.

(** A plan that fails to parse leaves no trace in the run: only the
    error line is set. *)
Lemma submitPlan_failure s message :
  parsePlan JSON_parse (jsonDraft s) = Throw message ->
  render (submitPlan JSON_parse s) = render s
  /\ history (submitPlan JSON_parse s) = history s
  /\ parseError (submitPlan JSON_parse s) = Some message.
Proof.
  intros H. unfold submitPlan. rewrite H. repeat split.
Qed.

Lemma submitPlan_invariant s :
  pageInvariant s -> step s <> StepRun ->
  pageInvariant (submitPlan JSON_parse s).
Proof.
  intros [H1 H2 H3 H4 H5 H6] Hs. unfold submitPlan.
  destruct (parsePlan JSON_parse (jsonDraft s)) as [[plan flattened]|m] eqn:E.
  - pose proof (parsePlanValue_rejecting (JSON_parse (jsonDraft s))) as Hr.
    unfold parsePlan in E. rewrite E in Hr. simpl in Hr.
    pose proof (parsePlanValue_numbered _ _ _ E) as Hn.
    invariant_fields; auto; try discriminate.
    + apply repeat_length.
    + eapply numberedFrom_not_inherited; eauto.
    + intros _. repeat split; [lia|discriminate|].
      intros i _ Hi. apply nth_error_repeat_null. assumption.
  - invariant_fields; auto; discriminate.
Qed.

Lemma handle_invariant e s :
  pageInvariant s -> pageInvariant (handle JSON_parse e s).
Proof.
  intros Hinv. unfold handle.
  destruct e; destruct (step s) eqn:Es; try exact Hinv;
    try (apply openNewPlan_invariant; assumption);
    try (apply setStep_invariant; [assumption|congruence|discriminate]);
    try (apply timerFires_invariant; assumption);
    try (apply recordVerdict_invariant; assumption);
    try (apply undoLast_invariant; assumption);
    try (apply resolvePointerUp_invariant; assumption);
    try (apply deleteReport_invariant; assumption);
    try (apply clearHistory_invariant; assumption);
    try (apply visual_invariant; assumption);
    try (apply visual_invariant'; assumption);
    try (apply submitPlan_invariant; [assumption|congruence]);
    try (apply initialState_invariant; apply Hinv).
  - destruct (history s); [exact Hinv|].
    apply setStep_invariant; [assumption|congruence|discriminate].
  - destruct Hinv as [H1 H2 H3 H4 H5 H6]. invariant_fields; auto.
  - destruct Hinv as [H1 H2 H3 H4 H5 H6]. invariant_fields; auto.
  - destruct (currentTest s); [|exact Hinv].
    apply updateComment_invariant; assumption.
  - destruct Hinv as [H1 H2 H3 H4 H5 H6]. invariant_fields; auto.
Qed.

Lemma dispatch_invariant s e :
  pageInvariant s -> pageInvariant (dispatch JSON_parse s e).
Proof.
  intros H. apply persistHistory_invariant, handle_invariant, H.
Qed.

Lemma mount_invariant : pageInvariant (mount None).
Proof.
  apply persistHistory_invariant, initialState_invariant. exact I.
Qed.

Lemma run_invariant events :
  forall s, pageInvariant s -> pageInvariant (run JSON_parse events s).
Proof.
  unfold run. induction events as [|e events IH]; simpl; intros s H.
  - exact H.
  - apply IH, dispatch_invariant, H.
Qed.

Lemma reachable_invariant s :
  reachable JSON_parse s -> pageInvariant s.
Proof.
  induction 1.
  - apply mount_invariant.
  - apply dispatch_invariant; assumption.
Qed.

(** What every running state the page reaches offers to a verdict: a
    test at the cursor with a parser-built id, a loaded plan, and an
    empty slot at the cursor. *)
Lemma running_state_ready events :
  let s := run JSON_parse events (mount None) in
  step s = StepRun ->
  exists target plan,
    nth_error (tests s) (cursor s) = Some target
    /\ JSObject.inherited (id target) = false
    /\ sourcePlan s = Some plan
    /\ nth_error (results s) (cursor s) = Some SlotNull
    /\ List.length (results s) = List.length (tests s).
Proof.
  intros s Hs.
  assert (Hinv : pageInvariant s) by (apply run_invariant, mount_invariant).
  destruct Hinv as [H1 H2 H3 H4 H5 H6].
  destruct (H5 Hs) as [Hc [Hp Hn]].
  destruct (nth_error (tests s) (cursor s)) as [target|] eqn:Et.
  2:{ apply nth_error_None in Et. lia. }
  destruct (sourcePlan s) as [plan|]; [|congruence].
  exists target, plan. repeat split; auto.
  rewrite Forall_forall in H2. apply H2. eapply nth_error_In; eauto.
Qed.

Lemma run_reachable events :
  forall s,
    reachable JSON_parse s -> reachable JSON_parse (run JSON_parse events s).
Proof.
  unfold run. induction events as [|e events IH]; simpl; intros s H.
  - exact H.
  - apply IH. constructor. exact H.
Qed.

End EngineFacts.

(** ** A commit in flight locks the run *)

(** C9.  In every state the page reaches, while the delayed commit is
    armed a further [recordVerdict] or [undoLast] returns the state as
    it is, and releasing a drag leaves tests, cursor, results and
    comment drafts untouched. *)
Theorem commit_in_flight_locks (JSON_parse : string -> option JSValue)
  (events : list Event) :
  let s := run JSON_parse events (mount None) in
  swipeTimeout s <> None ->
  forall v offscreenDistance,
    recordVerdict v offscreenDistance s = s
    /\ undoLast s = s
    /\ forall deltaX,
         render (resolvePointerUp deltaX offscreenDistance s) = render s.
Proof.
  intros s Hpending v d.
  assert (Hinv : pageInvariant s)
    by (apply run_invariant, mount_invariant).
  assert (Hlock : exitVerdict s <> None).
  { destruct (swipeTimeout s) as [[w c]|] eqn:E; [|congruence].
    destruct (inv_timer s Hinv w c E) as [_ [H _]]. exact H. }
  assert (Hr : forall w, recordVerdict w d s = s)
    by (intros w; apply recordVerdict_refused; auto).
  split; [apply Hr|]. split; [apply undoLast_refused; auto|].
  intros deltaX. unfold resolvePointerUp.
  destruct (_ <? _)%Z; [rewrite Hr; reflexivity|].
  destruct (_ <? _)%Z; [rewrite Hr; reflexivity|].
  reflexivity.
Qed.

Lemma commit_in_flight_locks_witness :
  let s := run (parseAs singleTestPlan)
             [StartNewSession; SubmitPlan; PressVerdict Pass 576]
             (mount None) in
  swipeTimeout s <> None
  /\ recordVerdict Fail 576 s = s
  /\ undoLast s = s.
Proof.
  intros s.
  assert (H : swipeTimeout s <> None) by (vm_compute; discriminate).
  pose proof (commit_in_flight_locks (parseAs singleTestPlan)
                [StartNewSession; SubmitPlan; PressVerdict Pass 576]
                H Fail 576%Z) as T.
  exact (conj H (conj (proj1 T) (proj1 (proj2 T)))).
Defined.

(** ** History *)

Lemma appendHistory_cons report previous :
  appendHistory report previous
  = report :: firstn (MAX_HISTORY_ITEMS - 1) previous.
Proof. reflexivity. Qed.

Lemma mount_invariant_stored stored :
  match stored with
  | Some reports => List.length reports <= MAX_HISTORY_ITEMS
  | None => True
  end ->
  pageInvariant (mount stored).
Proof.
  intros H. apply persistHistory_invariant, initialState_invariant, H.
Qed.

(** C7.  The load effect sets the stored array as the history, as long
    as it is.  When that array holds at most [MAX_HISTORY_ITEMS] = 50
    reports, the history holds at most 50 reports in every state the
    page reaches, and so does the array the page stores.  Appending
    puts the new report in front and keeps the first 49 of the previous
    ones in their order; what is dropped is the tail of the previous
    list, its oldest entries; so the history is within the cap after
    an append, whatever it was before. *)
Theorem history_capped_newest_first (JSON_parse : string -> option JSValue)
  (stored : option (list SavedReport)) (events : list Event)
  (report : SavedReport) (previous : list SavedReport) :
  MAX_HISTORY_ITEMS = 50
  /\ (forall reports, history (mount (Some reports)) = reports)
  /\ (match stored with
      | Some reports => List.length reports <= MAX_HISTORY_ITEMS
      | None => True
      end ->
      List.length (history (run JSON_parse events (mount stored)))
      <= MAX_HISTORY_ITEMS
      /\ storedWithinCap (run JSON_parse events (mount stored)))
  /\ List.length (appendHistory report previous) <= MAX_HISTORY_ITEMS
  /\ exists kept dropped,
       previous = kept ++ dropped
       /\ appendHistory report previous = report :: kept
       /\ (dropped = [] \/ List.length (report :: kept) = MAX_HISTORY_ITEMS).
Proof.
  split; [reflexivity|]. split; [reflexivity|]. split; [|split].
  - intros H.
    pose proof (run_invariant JSON_parse events (mount stored)
                  (mount_invariant_stored stored H)) as Hinv.
    split; [apply inv_history, Hinv|apply inv_stored, Hinv].
  - apply appendHistory_length.
  - exists (firstn (MAX_HISTORY_ITEMS - 1) previous),
           (skipn (MAX_HISTORY_ITEMS - 1) previous).
    split; [symmetry; apply firstn_skipn|].
    split; [apply appendHistory_cons|].
    destruct (Nat.le_gt_cases (List.length previous) (MAX_HISTORY_ITEMS - 1))
      as [Hle|Hgt].
    + left. apply skipn_all2. exact Hle.
    + right. cbn [List.length]. rewrite length_firstn.
      unfold MAX_HISTORY_ITEMS in *. lia.
Qed.

(** A stored array of 52 reports is loaded whole: the history exceeds
    the cap. *)
Lemma history_over_cap_loaded :
  List.length (history (mount (Some oversizedStore))) = 52
  /\ MAX_HISTORY_ITEMS < List.length (history (mount (Some oversizedStore))).
Proof.
  split; [reflexivity|]. vm_compute. lia.
Qed.

Lemma history_capped_newest_first_witness :
  List.length
    (history (run (parseAs singleTestPlan) [Reload]
                (mount (Some [emptyReport]))))
  <= MAX_HISTORY_ITEMS.
Proof.
  apply (proj1 (proj2 (proj2 (history_capped_newest_first
                                (parseAs singleTestPlan) (Some [emptyReport])
                                [Reload] emptyReport [])))).
  simpl. unfold MAX_HISTORY_ITEMS. lia.
Defined.

(** Loading copies the stored list as it is; the cap on what is loaded
    is the cap on what [persistHistory] stored. *)
Lemma loadHistory_copies stored :
  history (loadHistory (initialState (Some stored))) = stored.
Proof. reflexivity. Qed.

(** The history of a finished run is the appended one. *)
Lemma finishRun_history c freshId now nextResults s plan :
  r_sourcePlan c = Some plan ->
  history (finishRun c freshId now nextResults s)
  = appendHistory
      (buildReport freshId now (reportName (r_suiteName c)) plan
         (committedResults nextResults))
      (history s).
Proof. intros H. unfold finishRun. rewrite H. reflexivity. Qed.

(** ** Committing a verdict *)

Lemma draftComment_not_inherited testId drafts :
  JSObject.inherited testId = false ->
  draftComment testId drafts = Normal (JSString.trim (draftText testId drafts)).
Proof.
  intros H. unfold draftComment, draftText, JSObject.get.
  destruct (JSObject.getOwn testId drafts); [reflexivity|].
  rewrite H. reflexivity.
Qed.

Ltac unfold_commit Hs He Ht Hi :=
  unfold recordAndCommit, recordVerdict;
  rewrite Hs, He, Ht; cbn [isRun negb isSome orb];
  unfold timerFires; state_simpl;
  unfold commitVerdict; state_simpl; rewrite Hs, Ht; cbn [isRun negb];
  rewrite (draftComment_not_inherited _ _ Hi); cbn [bind];
  fold (entryFor).

Lemma recordAndCommit_inner freshId now v d s target :
  step s = StepRun -> exitVerdict s = None ->
  nth_error (tests s) (cursor s) = Some target ->
  JSObject.inherited (id target) = false ->
  cursor s + 1 < List.length (tests s) ->
  recordAndCommit freshId now v d s
  = setSwipeTimeout None
      (setDragOffset 0%Z
         (setExitVerdict None
            (setIsDragging false
               (setCursor (cursor s + 1)
                  (setResults
                     (arraySet (cursor s)
                        (SlotResult (entryFor target v (commentDrafts s)))
                        (results s))
                     s))))).
Proof.
  intros Hs He Ht Hi Hlt. unfold_commit Hs He Ht Hi.
  assert (El : Nat.leb (List.length (tests s)) (cursor s + 1) = false)
    by (apply Nat.leb_gt; exact Hlt).
  rewrite El. reflexivity.
Qed.

Lemma recordAndCommit_last freshId now v d s target plan :
  step s = StepRun -> exitVerdict s = None ->
  nth_error (tests s) (cursor s) = Some target ->
  JSObject.inherited (id target) = false ->
  sourcePlan s = Some plan ->
  List.length (tests s) <= cursor s + 1 ->
  let nextResults :=
    arraySet (cursor s) (SlotResult (entryFor target v (commentDrafts s)))
      (results s) in
  let report :=
    buildReport freshId now (reportName (suiteName s)) plan
      (committedResults nextResults) in
  recordAndCommit freshId now v d s
  = setSwipeTimeout None
      (setDragOffset 0%Z
         (setExitVerdict None
            (setIsDragging false
               (setStep StepReport
                  (setActiveReportId (Some freshId)
                     (setHistory (appendHistory report (history s))
                        (setResults nextResults s))))))).
Proof.
  intros Hs He Ht Hi Hp Hle nextResults report. unfold_commit Hs He Ht Hi.
  assert (El : Nat.leb (List.length (tests s)) (cursor s + 1) = true)
    by (apply Nat.leb_le; exact Hle).
  rewrite El. unfold finishRun. state_simpl. rewrite Hp. reflexivity.
Qed.

(** C1.  In the run step, with no commit in flight, a test at the
    cursor (its id not the name of an inherited member, as for every id
    the parser builds) and a plan loaded, [recordVerdict v] and the
    commit it arms read the draft of that test, trim it, and store the
    result built from that test, [v] and the trimmed comment at
    [results[cursor]].  Before the last test the cursor then advances by
    one and the run goes on.  On the last test the cursor stays where it
    is, the step becomes the report step, and the report built from the
    committed entries of the new results, in their order, is appended to
    the history and selected. *)
Theorem recordVerdict_commits (s : AppState) (freshId now : string)
  (v : Verdict) (offscreenDistance : Z) (target : FlatTest)
  (plan : PlanInput) :
  step s = StepRun ->
  exitVerdict s = None ->
  nth_error (tests s) (cursor s) = Some target ->
  JSObject.inherited (id target) = false ->
  sourcePlan s = Some plan ->
  let entry :=
    mkTestResult target v
      (JSString.trim (draftText (id target) (commentDrafts s))) in
  let nextResults := arraySet (cursor s) (SlotResult entry) (results s) in
  let s' := recordAndCommit freshId now v offscreenDistance s in
  results s' = nextResults
  /\ nth_error (results s') (cursor s) = Some (SlotResult entry)
  /\ tests s' = tests s
  /\ commentDrafts s' = commentDrafts s
  /\ exitVerdict s' = None
  /\ swipeTimeout s' = None
  /\ (cursor s + 1 < List.length (tests s) ->
      cursor s' = cursor s + 1
      /\ step s' = StepRun
      /\ history s' = history s)
  /\ (cursor s + 1 = List.length (tests s) ->
      cursor s' = cursor s
      /\ step s' = StepReport
      /\ history s'
         = appendHistory
             (buildReport freshId now (reportName (suiteName s)) plan
                (committedResults nextResults))
             (history s)
      /\ activeReportId s' = Some freshId).
Proof.
  intros Hs He Ht Hi Hp entry nextResults s'.
  assert (Hlt : cursor s < List.length (tests s))
    by (apply nth_error_Some; congruence).
  assert (Hres : results s' = nextResults).
  { subst s'.
    destruct (Nat.lt_ge_cases (cursor s + 1) (List.length (tests s))).
    - rewrite (recordAndCommit_inner _ _ _ _ _ _ Hs He Ht Hi) by assumption.
      reflexivity.
    - rewrite (recordAndCommit_last _ _ _ _ _ _ _ Hs He Ht Hi Hp)
        by assumption.
      reflexivity. }
  split; [exact Hres|].
  split; [rewrite Hres; apply nth_error_arraySet_same|].
  subst s'.
  destruct (Nat.lt_ge_cases (cursor s + 1) (List.length (tests s)))
    as [Hin|Hout].
  - rewrite (recordAndCommit_inner _ _ _ _ _ _ Hs He Ht Hi Hin).
    state_simpl. repeat split; auto; lia.
  - rewrite (recordAndCommit_last _ _ _ _ _ _ _ Hs He Ht Hi Hp Hout).
    state_simpl. repeat split; auto; lia.
Qed.

(** On the last test of a run the commit does not move the cursor: it
    stays on that test while the page turns to the report. *)
Lemma recordVerdict_last_cursor_stays :
  step singleTestRun = StepRun
  /\ exitVerdict singleTestRun = None
  /\ nth_error (tests singleTestRun) (cursor singleTestRun)
     = Some (mkFlatTest "A-0-1" "A" "x" "y" 1)
  /\ cursor singleTestRun = 0
  /\ cursor (recordAndCommit "r1" "t1" Pass 576 singleTestRun) = 0
  /\ cursor (recordAndCommit "r1" "t1" Pass 576 singleTestRun)
     <> cursor singleTestRun + 1
  /\ step (recordAndCommit "r1" "t1" Pass 576 singleTestRun) = StepReport.
Proof. vm_compute. repeat split; discriminate. Qed.

Lemma recordVerdict_commits_witness :
  let s := threeTestRun in
  let s' := recordAndCommit "r1" "t1" Pass 576 s in
  cursor s = 1
  /\ results s'
     = arraySet 1
         (SlotResult (mkTestResult (mkFlatTest "A-1-2" "A" "p" "q" 2) Pass
                        JSString.empty))
         (results s)
  /\ cursor s' = 2.
Proof.
  intros s s'.
  pose proof (recordVerdict_commits threeTestRun "r1" "t1" Pass 576%Z
                (mkFlatTest "A-1-2" "A" "p" "q" 2)
                (mkPlanInput [ ("A", [mkPlanGroup "x" "y"; mkPlanGroup "p" "q"]);
                               ("B", [mkPlanGroup "u" "v"]) ] None)
                eq_refl eq_refl eq_refl eq_refl eq_refl) as T.
  cbv zeta in T.
  destruct T as [H1 [_ [_ [_ [_ [_ [H7 _]]]]]]].
  split; [reflexivity|]. split; [exact H1|].
  exact (proj1 (H7 ltac:(vm_compute; lia))).
Defined.

(** ** Undo *)

Lemma undoLast_running s :
  step s = StepRun -> 0 < cursor s -> exitVerdict s = None ->
  undoLast s
  = setIsDragging false
      (setDragOffset 0%Z
         (setCursor (cursor s - 1)
            (setResults (arraySet (cursor s - 1) SlotNull (results s)) s))).
Proof.
  intros Hs Hc He. unfold undoLast. rewrite Hs, He.
  assert (E : Nat.eqb (cursor s) 0 = false) by (apply Nat.eqb_neq; lia).
  rewrite E. reflexivity.
Qed.

Lemma commitThenUndo_restores s round target :
  step s = StepRun -> exitVerdict s = None ->
  nth_error (tests s) (cursor s) = Some target ->
  JSObject.inherited (id target) = false ->
  cursor s + 1 < List.length (tests s) ->
  nth_error (results s) (cursor s) = Some SlotNull ->
  render (commitThenUndo s round) = render s
  /\ exitVerdict (commitThenUndo s round) = None
  /\ history (commitThenUndo s round) = history s.
Proof.
  intros Hs He Ht Hi Hlt Hnull.
  destruct round as [[[v d] freshId] now]. unfold commitThenUndo.
  rewrite (recordAndCommit_inner _ _ _ _ _ _ Hs He Ht Hi Hlt).
  rewrite undoLast_running; state_simpl; auto; try lia.
  unfold render. state_simpl.
  replace (cursor s + 1 - 1) with (cursor s) by lia.
  rewrite arraySet_twice, (arraySet_same _ _ _ Hnull).
  repeat split; reflexivity.
Qed.

(** C2.  In the run step with no commit in flight and the cursor past
    the first test, [undoLast] empties [results[cursor-1]] and moves the
    cursor back by one; tests and comment drafts are left as they are.
    When the cursor is not on the last test and its slot is empty (as
    it is in every running state the page reaches), a verdict with its
    commit followed by [undoLast] gives back the run
    state (step, plan, tests, cursor, results, comment drafts) and the
    history, and so does any number of such pairs in a row. *)
Theorem undoLast_reverts_commit (s : AppState) :
  (step s = StepRun -> 0 < cursor s -> exitVerdict s = None ->
   results (undoLast s) = arraySet (cursor s - 1) SlotNull (results s)
   /\ cursor (undoLast s) = cursor s - 1
   /\ commentDrafts (undoLast s) = commentDrafts s
   /\ tests (undoLast s) = tests s
   /\ step (undoLast s) = StepRun)
  /\ (forall target,
        step s = StepRun -> exitVerdict s = None ->
        nth_error (tests s) (cursor s) = Some target ->
        JSObject.inherited (id target) = false ->
        cursor s + 1 < List.length (tests s) ->
        nth_error (results s) (cursor s) = Some SlotNull ->
        forall rounds,
          render (commitUndoRounds rounds s) = render s
          /\ cursor (commitUndoRounds rounds s) = cursor s
          /\ results (commitUndoRounds rounds s) = results s
          /\ history (commitUndoRounds rounds s) = history s).
Proof.
  split.
  - intros Hs Hc He. rewrite undoLast_running by assumption.
    state_simpl. repeat split; auto.
  - intros target Hs He Ht Hi Hlt Hnull rounds.
    assert (H : render (commitUndoRounds rounds s) = render s
                /\ exitVerdict (commitUndoRounds rounds s) = None
                /\ history (commitUndoRounds rounds s) = history s).
    { unfold commitUndoRounds. revert s Hs He Ht Hi Hlt Hnull.
      induction rounds as [|round rounds IH]; intros s Hs He Ht Hi Hlt Hnull.
      - simpl. auto.
      - cbn [fold_left].
        destruct (commitThenUndo_restores s round target Hs He Ht Hi Hlt Hnull)
          as [Hr [He' Hh]].
        assert (Hf : forall (A : Type) (f : Render -> A),
                   f (render (commitThenUndo s round)) = f (render s))
          by (intros A f; rewrite Hr; reflexivity).
        pose proof (Hf _ r_step) as Hstep.
        pose proof (Hf _ r_tests) as Htests.
        pose proof (Hf _ r_cursor) as Hcursor.
        pose proof (Hf _ r_results) as Hresults.
        cbn [render r_step r_tests r_cursor r_results] in *.
        destruct (IH (commitThenUndo s round)) as [Hr2 [He2 Hh2]];
          try congruence.
        repeat split; congruence. }
    destruct H as [Hr [_ Hh]].
    split; [exact Hr|]. split; [|split; [|exact Hh]].
    + change (r_cursor (render (commitUndoRounds rounds s))
              = r_cursor (render s)). rewrite Hr. reflexivity.
    + change (r_results (render (commitUndoRounds rounds s))
              = r_results (render s)). rewrite Hr. reflexivity.
Qed.

(** On a single-test run the commit finishes the run; the undo that
    follows is refused and the committed result stays in its slot. *)
Lemma undoLast_after_last_commit_refused :
  step singleTestRun = StepRun
  /\ exitVerdict singleTestRun = None
  /\ results singleTestRun = [SlotNull]
  /\ results (commitThenUndo singleTestRun (Pass, 576%Z, "r1", "t1"))
     = [SlotResult (mkTestResult (mkFlatTest "A-0-1" "A" "x" "y" 1) Pass
                      JSString.empty)]
  /\ results (commitThenUndo singleTestRun (Pass, 576%Z, "r1", "t1"))
     <> results singleTestRun
  /\ step (commitThenUndo singleTestRun (Pass, 576%Z, "r1", "t1"))
     = StepReport.
Proof. vm_compute. repeat split; discriminate. Qed.

Lemma undoLast_reverts_commit_witness :
  let s := threeTestRun in
  (cursor (undoLast s) = 0 /\ results (undoLast s) = repeat SlotNull 3)
  /\ render (commitUndoRounds
               [(Pass, 576%Z, "r1", "t1"); (Fail, 576%Z, "r2", "t2")] s)
     = render s.
Proof.
  intros s.
  pose proof (undoLast_reverts_commit threeTestRun) as [A B].
  split.
  - destruct (A eq_refl ltac:(vm_compute; lia) eq_refl) as [H1 [H2 _]].
    split; [exact H2|exact H1].
  - exact (proj1 (B (mkFlatTest "A-1-2" "A" "p" "q" 2)
                    eq_refl eq_refl eq_refl eq_refl
                    ltac:(vm_compute; lia) eq_refl
                    [(Pass, 576%Z, "r1", "t1"); (Fail, 576%Z, "r2", "t2")])).
Defined.

(* ================================================================== *)
(** * Further properties *)

(** ** Progress of a run *)

Lemma committedResults_null n : committedResults (repeat SlotNull n) = [].
Proof. induction n; simpl; auto. Qed.

Lemma committedResults_count items :
  forall n,
    n <= List.length items ->
    (forall i, i < n -> exists r, nth_error items i = Some (SlotResult r)) ->
    (forall i, n <= i -> i < List.length items ->
               nth_error items i = Some SlotNull) ->
    List.length (committedResults items) = n.
Proof.
  induction items as [|x items IH]; intros n Hn Hc Hz.
  - simpl in *. lia.
  - destruct n as [|n].
    + assert (Hx : x = SlotNull).
      { specialize (Hz 0 (Nat.le_refl 0)). simpl in Hz.
        assert (Some x = Some SlotNull) by (apply Hz; lia). congruence. }
      subst x. simpl. apply (IH 0); [lia| intros i Hi; lia |].
      intros i _ Hi. apply (Hz (S i)); simpl; lia.
    + destruct (Hc 0) as [r Hr]; [lia|]. simpl in Hr.
      injection Hr as ->. simpl. f_equal. apply IH.
      * simpl in Hn. lia.
      * intros i Hi. apply (Hc (S i)). lia.
      * intros i Hi Hlt. apply (Hz (S i)); simpl; lia.
Qed.

Lemma committedResults_tests items :
  forall ts,
    List.length items = List.length ts ->
    (forall i, i < List.length ts ->
       exists r, nth_error items i = Some (SlotResult r)
                 /\ nth_error ts i = Some (test r)) ->
    map test (committedResults items) = ts.
Proof.
  induction items as [|x items IH]; intros [|t ts] Hlen Hall;
    try discriminate; [reflexivity|].
  destruct (Hall 0) as [r [Hr Ht]]; [simpl; lia|].
  simpl in Hr, Ht. injection Hr as ->. injection Ht as ->.
  simpl. f_equal. apply IH.
  - simpl in Hlen. lia.
  - intros i Hi. apply (Hall (S i)). simpl. lia.
Qed.

Lemma committedPrefix_same s s' :
  step s' = step s -> cursor s' = cursor s -> results s' = results s ->
  tests s' = tests s ->
  committedPrefix s -> committedPrefix s'.
Proof.
  unfold committedPrefix. intros Hs Hc Hr Ht H. rewrite Hs, Hc, Hr, Ht.
  exact H.
Qed.

Lemma committedPrefix_not_running s :
  step s <> StepRun -> committedPrefix s.
Proof. unfold committedPrefix. intros H Hs. contradiction. Qed.

Lemma committedPrefix_start s :
  cursor s = 0 -> committedPrefix s.
Proof. unfold committedPrefix. intros H _ i Hi. lia. Qed.

Lemma recordVerdict_committedPrefix v d s :
  committedPrefix s -> committedPrefix (recordVerdict v d s).
Proof.
  intros H. unfold recordVerdict.
  destruct (negb (isRun (step s)) || isSome (exitVerdict s)); [exact H|].
  destruct (nth_error (tests s) (cursor s)); [|exact H].
  eapply committedPrefix_same; [| | | |exact H]; reflexivity.
Qed.

Lemma undoLast_committedPrefix s :
  pageInvariant s -> committedPrefix s -> committedPrefix (undoLast s).
Proof.
  intros Hinv H. unfold undoLast.
  destruct (step s) eqn:Es; cbn [isRun negb orb]; try exact H.
  destruct (Nat.eqb (cursor s) 0) eqn:Ec; cbn [orb]; try exact H.
  destruct (exitVerdict s); cbn [isSome orb]; try exact H.
  apply Nat.eqb_neq in Ec.
  destruct (inv_running s Hinv Es) as [Hc _].
  pose proof (inv_results s Hinv) as Hlen.
  unfold committedPrefix. state_simpl. intros _ i Hi.
  destruct (H Es i) as [r [Hr Ht]]; [lia|].
  exists r. split; [|exact Ht].
  rewrite nth_error_arraySet_other by lia. exact Hr.
Qed.

Lemma timerFires_committedPrefix freshId now s :
  pageInvariant s -> committedPrefix s ->
  committedPrefix (timerFires freshId now s).
Proof.
  intros Hinv H. unfold timerFires.
  destruct (swipeTimeout s) as [[v c]|] eqn:Et; [|exact H].
  destruct (inv_timer s Hinv v c Et) as [Hs [He [Cs [Ct [Cc [Cr Cp]]]]]].
  destruct (inv_running s Hinv Hs) as [Hc [Hp Hn]].
  pose proof (inv_results s Hinv) as Hlen.
  unfold commitVerdict. rewrite Cs, Ct, Cc, Cr. cbn [isRun negb].
  destruct (nth_error (tests s) (cursor s)) as [target|] eqn:En.
  2:{ eapply committedPrefix_same; [| | | |exact H]; reflexivity. }
  destruct (draftComment (id target) (r_commentDrafts c)) as [text|m];
    cbn [bind].
  2:{ eapply committedPrefix_same; [| | | |exact H]; reflexivity. }
  destruct (Nat.leb (List.length (tests s)) (cursor s + 1)) eqn:El.
  - apply committedPrefix_not_running.
    unfold finishRun. rewrite Cp.
    destruct (sourcePlan s); [|congruence]. state_simpl. discriminate.
  - unfold committedPrefix. state_simpl. intros _ i Hi.
    destruct (Nat.eq_dec i (cursor s)) as [->|Hne].
    + eexists. split; [apply nth_error_arraySet_same|]. exact En.
    + destruct (H Hs i) as [r [Hr Hti]]; [lia|].
      exists r. split; [|exact Hti].
      rewrite nth_error_arraySet_other by lia. exact Hr.
Qed.

Lemma resolvePointerUp_committedPrefix dx d s :
  committedPrefix s -> committedPrefix (resolvePointerUp dx d s).
Proof.
  intros H. unfold resolvePointerUp.
  destruct (_ <? _)%Z; [apply recordVerdict_committedPrefix; exact H|].
  destruct (_ <? _)%Z; [apply recordVerdict_committedPrefix; exact H|].
  eapply committedPrefix_same; [| | | |exact H]; reflexivity.
Qed.

Lemma deleteReport_committedPrefix reportId s :
  committedPrefix s -> committedPrefix (deleteReport reportId s).
Proof.
  intros H. unfold deleteReport.
  destruct (activeReportId s) as [active|];
    [destruct (sameId active reportId)|];
    (eapply committedPrefix_same; [| | | |exact H]; reflexivity).
Qed.

Section ProgressFacts.
Variable JSON_parse : string -> option JSValue.

Lemma submitPlan_committedPrefix s :
  step s <> StepRun -> committedPrefix (submitPlan JSON_parse s).
Proof.
  intros Hs. unfold submitPlan.
  destruct (parsePlan JSON_parse (jsonDraft s)) as [[plan flattened]|m].
  - apply committedPrefix_start. reflexivity.
  - apply committedPrefix_not_running. exact Hs.
Qed.

Lemma handle_committedPrefix e s :
  pageInvariant s -> committedPrefix s ->
  committedPrefix (handle JSON_parse e s).
Proof.
  intros Hinv H. unfold handle.
  destruct e; destruct (step s) eqn:Es; try exact H;
    try (apply committedPrefix_not_running; state_simpl;
         first [discriminate | congruence]);
    try (apply timerFires_committedPrefix; assumption);
    try (apply recordVerdict_committedPrefix; assumption);
    try (apply undoLast_committedPrefix; assumption);
    try (apply resolvePointerUp_committedPrefix; assumption);
    try (apply deleteReport_committedPrefix; assumption);
    try (apply submitPlan_committedPrefix; congruence);
    try (eapply committedPrefix_same; [| | | |exact H]; reflexivity).
  - destruct (history s); [exact H|].
    apply committedPrefix_not_running. state_simpl. discriminate.
  - destruct (currentTest s); [|exact H].
    eapply committedPrefix_same; [| | | |exact H]; reflexivity.
  - unfold loadHistory. state_simpl.
    destruct (storedHistory s); apply committedPrefix_not_running;
      state_simpl; discriminate.
  - unfold loadHistory. state_simpl.
    destruct (storedHistory s); apply committedPrefix_not_running;
      state_simpl; discriminate.
  - unfold loadHistory. state_simpl.
    destruct (storedHistory s); apply committedPrefix_not_running;
      state_simpl; discriminate.
  - unfold loadHistory. state_simpl.
    destruct (storedHistory s); apply committedPrefix_not_running;
      state_simpl; discriminate.
Qed.

Lemma run_progress events :
  forall s,
    pageInvariant s -> committedPrefix s ->
    pageInvariant (run JSON_parse events s)
    /\ committedPrefix (run JSON_parse events s).
Proof.
  unfold run. induction events as [|e events IH]; simpl; intros s Hi Hc.
  - auto.
  - apply IH.
    + apply dispatch_invariant. exact Hi.
    + unfold dispatch.
      eapply committedPrefix_same;
        [| | | |apply handle_committedPrefix; eassumption]; reflexivity.
Qed.

End ProgressFacts.

(** X1.  In every running state the page reaches, the progress count
    [completedCount] equals the cursor: the slots before the cursor hold
    the results of the tests at their positions, the others are empty;
    so the count stays below the number of tests while the run lasts. *)
Theorem completedCount_is_cursor (JSON_parse : string -> option JSValue)
  (events : list Event) :
  let s := run JSON_parse events (mount None) in
  step s = StepRun ->
  completedCount s = cursor s
  /\ completedCount s < List.length (tests s)
  /\ (forall i, i < cursor s ->
        exists r, nth_error (results s) i = Some (SlotResult r)
                  /\ nth_error (tests s) i = Some (test r))
  /\ (forall i, cursor s <= i -> i < List.length (tests s) ->
        nth_error (results s) i = Some SlotNull).
Proof.
  intros s Hs.
  destruct (run_progress JSON_parse events (mount None) mount_invariant)
    as [Hinv Hpre].
  { apply committedPrefix_not_running. discriminate. }
  fold s in Hinv, Hpre.
  destruct (inv_running s Hinv Hs) as [Hc [_ Hn]].
  pose proof (inv_results s Hinv) as Hlen.
  assert (Hcount : completedCount s = cursor s).
  { unfold completedCount. apply committedResults_count.
    - lia.
    - intros i Hi. destruct (Hpre Hs i Hi) as [r [Hr _]]. eauto.
    - intros i Hi Hlt. apply Hn; lia. }
  split; [exact Hcount|]. split; [lia|]. split; [exact (Hpre Hs)|exact Hn].
Qed.

Lemma completedCount_is_cursor_witness :
  completedCount threeTestRun = cursor threeTestRun
  /\ completedCount threeTestRun = 1.
Proof.
  pose proof (completedCount_is_cursor (parseAs threeTestPlan)
                [StartNewSession; SubmitPlan; PressVerdict Fail 576;
                 TimerFires "r0" "t0"] eq_refl) as T.
  exact (conj (proj1 T) eq_refl).
Defined.

(** X2.  When the commit of the last test fires in a running state the
    page reached, the report put at the front of the history holds one
    result for every test of the run, in the order of the tests; its
    total is the number of tests and the page shows the report step. *)
Theorem finished_report_covers_tests (JSON_parse : string -> option JSValue)
  (events : list Event) (freshId now : string) (v : Verdict)
  (offscreenDistance : Z) :
  let s := run JSON_parse events (mount None) in
  step s = StepRun ->
  exitVerdict s = None ->
  cursor s + 1 = List.length (tests s) ->
  let s' := recordAndCommit freshId now v offscreenDistance s in
  exists report older,
    history s' = report :: older
    /\ map test (report_results report) = tests s
    /\ report_total report = List.length (tests s)
    /\ report_id report = freshId
    /\ step s' = StepReport.
Proof.
  intros s Hs He Hlast s'.
  destruct (run_progress JSON_parse events (mount None) mount_invariant)
    as [Hinv Hpre].
  { apply committedPrefix_not_running. discriminate. }
  fold s in Hinv, Hpre.
  destruct (inv_running s Hinv Hs) as [Hc [Hp Hn]].
  pose proof (inv_results s Hinv) as Hlen.
  destruct (nth_error (tests s) (cursor s)) as [target|] eqn:Et.
  2:{ apply nth_error_None in Et. lia. }
  destruct (sourcePlan s) as [plan|] eqn:Ep; [|congruence].
  assert (Hi : JSObject.inherited (id target) = false).
  { pose proof (inv_ids s Hinv) as Hids. rewrite Forall_forall in Hids.
    apply Hids. eapply nth_error_In; eauto. }
  subst s'.
  rewrite (recordAndCommit_last freshId now v offscreenDistance s target plan
             Hs He Et Hi Ep) by lia.
  state_simpl. unfold appendHistory, MAX_HISTORY_ITEMS. cbn [firstn].
  eexists. eexists. split; [reflexivity|].
  cbn [report_results report_total report_id buildReport].
  assert (Hmap :
            map test
              (committedResults
                 (arraySet (cursor s)
                    (SlotResult (entryFor target v (commentDrafts s)))
                    (results s))) = tests s).
  { apply committedResults_tests.
    - rewrite length_arraySet; lia.
    - intros i Hlt. destruct (Nat.eq_dec i (cursor s)) as [->|Hne].
      + eexists. split; [apply nth_error_arraySet_same|]. exact Et.
      + destruct (Hpre Hs i) as [r [Hr Hti]]; [lia|].
        exists r. split; [|exact Hti].
        rewrite nth_error_arraySet_other by lia. exact Hr. }
  split; [exact Hmap|]. split; [|split; reflexivity].
  rewrite <- (length_map test), Hmap. reflexivity.
Qed.

Lemma finished_report_covers_tests_witness :
  exists report older,
    history (recordAndCommit "r1" "t1" Pass 576 singleTestRun)
    = report :: older
    /\ map test (report_results report) = tests singleTestRun.
Proof.
  destruct (finished_report_covers_tests (parseAs singleTestPlan)
              [StartNewSession; SubmitPlan] "r1" "t1" Pass 576%Z
              eq_refl eq_refl eq_refl)
    as [report [older [H1 [H2 _]]]].
  exists report, older. split; [exact H1|exact H2].
Defined.

(** ** Handling the history *)

Lemma deleteReport_history reportId s :
  history (deleteReport reportId s)
  = filter (fun item => negb (sameId (report_id item) reportId)) (history s).
Proof.
  unfold deleteReport.
  destruct (activeReportId s) as [active|];
    [destruct (sameId active reportId)|]; reflexivity.
Qed.

Lemma filter_all {A : Type} (f : A -> bool) (l : list A) :
  (forall x, In x l -> f x = true) -> filter f l = l.
Proof.
  induction l as [|x l IH]; simpl; intros H; [reflexivity|].
  rewrite (H x (or_introl eq_refl)). f_equal. apply IH. auto.
Qed.

Lemma filter_filter_comm {A : Type} (f g : A -> bool) (l : list A) :
  filter f (filter g l) = filter g (filter f l).
Proof.
  induction l as [|x l IH]; simpl; [reflexivity|].
  destruct (f x) eqn:Ef, (g x) eqn:Eg; simpl;
    rewrite ?Ef, ?Eg, IH; reflexivity.
Qed.

(** X3.  [deleteReport] removes every report with the given id and
    nothing else: no report with that id is left, the reports with any
    other id stay as they were and in their order, a history without
    the id is returned unchanged, and deleting twice is deleting once. *)
Theorem deleteReport_removes_exactly (reportId : string) (s : AppState) :
  Forall (fun item => report_id item <> reportId)
    (history (deleteReport reportId s))
  /\ (forall other,
        other <> reportId ->
        filter (fun item => sameId (report_id item) other)
          (history (deleteReport reportId s))
        = filter (fun item => sameId (report_id item) other) (history s))
  /\ (Forall (fun item => report_id item <> reportId) (history s) ->
      history (deleteReport reportId s) = history s)
  /\ history (deleteReport reportId (deleteReport reportId s))
     = history (deleteReport reportId s)
  /\ List.length (history (deleteReport reportId s))
     <= List.length (history s).
Proof.
  rewrite !deleteReport_history.
  split; [|split; [|split; [|split]]].
  - apply Forall_forall. intros item Hin. apply filter_In in Hin.
    destruct Hin as [_ Hne]. unfold sameId in Hne.
    intros Heq. rewrite Heq, String.eqb_refl in Hne. discriminate.
  - intros other Hne. rewrite filter_filter_comm. apply filter_all.
    intros item Hin. apply filter_In in Hin. destruct Hin as [_ Hid].
    unfold sameId in *. apply String.eqb_eq in Hid.
    destruct (String.eqb (report_id item) reportId) eqn:E; [|reflexivity].
    apply String.eqb_eq in E. congruence.
  - intros Hall. apply filter_all. intros item Hin.
    rewrite Forall_forall in Hall. specialize (Hall item Hin).
    unfold sameId. apply String.eqb_neq in Hall. rewrite Hall. reflexivity.
  - apply filter_all. intros item Hin.
    apply filter_In in Hin. tauto.
  - apply filter_length_le.
Qed.

Lemma find_filter_other {A : Type} (f g : A -> bool) (l : list A) :
  (forall x, f x = true -> g x = true) ->
  find f (filter g l) = find f l.
Proof.
  intros H. induction l as [|x l IH]; simpl; [reflexivity|].
  destruct (g x) eqn:Eg; simpl.
  - destruct (f x); [reflexivity|exact IH].
  - destruct (f x) eqn:Ef; [|exact IH].
    rewrite (H x Ef) in Eg. discriminate.
Qed.

Lemma find_head_id (l : list SavedReport) :
  match headId l with
  | Some first => find (fun item => sameId (report_id item) first) l
  | None => None
  end = hd_error l.
Proof.
  destruct l as [|r l]; simpl; [reflexivity|].
  unfold sameId. rewrite String.eqb_refl. reflexivity.
Qed.

(** X4.  Deleting the selected report moves the selection to the first
    report that is left, or to none when the history is emptied;
    deleting any other report keeps a selected report selected. *)
Theorem deleteReport_selection (reportId active : string) (s : AppState)
  (selected : SavedReport) :
  activeReportId s = Some active ->
  activeReport s = Some selected ->
  (active = reportId ->
   activeReport (deleteReport reportId s)
   = hd_error (history (deleteReport reportId s)))
  /\ (active <> reportId ->
      activeReport (deleteReport reportId s) = Some selected).
Proof.
  intros Ha Hsel. unfold activeReport in Hsel. rewrite Ha in Hsel.
  split.
  - intros ->. unfold deleteReport, activeReport. rewrite Ha.
    unfold sameId at 2 4. rewrite String.eqb_refl. state_simpl.
    apply find_head_id.
  - intros Hne. unfold deleteReport, activeReport. rewrite Ha.
    assert (E : sameId active reportId = false)
      by (apply String.eqb_neq; exact Hne).
    rewrite E. state_simpl. rewrite Ha.
    rewrite find_filter_other; [exact Hsel|].
    intros item Hid. unfold sameId in *. apply String.eqb_eq in Hid.
    rewrite Hid, E. reflexivity.
Qed.

Lemma deleteReport_removes_exactly_witness :
  history (deleteReport "r1" twoReports)
  = filter (fun item => sameId (report_id item) "r2") (history twoReports)
  /\ history (deleteReport "r0" twoReports) = history twoReports.
Proof.
  pose proof (deleteReport_removes_exactly "r0" twoReports) as [_ [_ [T _]]].
  split; [reflexivity|].
  apply T. repeat constructor; discriminate.
Defined.

Lemma deleteReport_selection_witness :
  activeReport (deleteReport "r1" twoReports)
  = hd_error (history (deleteReport "r1" twoReports))
  /\ map report_id (history (deleteReport "r1" twoReports)) = ["r2"].
Proof.
  destruct (activeReport twoReports) as [selected|] eqn:E;
    [|discriminate E].
  pose proof (deleteReport_selection "r1" "r1" twoReports selected
                eq_refl E) as [T _].
  split; [exact (T eq_refl)|reflexivity].
Defined.

(** X5.  When the commit of the last test fires, the report just built
    is the first of the history and is the one [activeReport] finds,
    also when an older report carries the same id. *)
Theorem finished_report_selected (s : AppState) (freshId now : string)
  (v : Verdict) (offscreenDistance : Z) (target : FlatTest)
  (plan : PlanInput) :
  step s = StepRun ->
  exitVerdict s = None ->
  nth_error (tests s) (cursor s) = Some target ->
  JSObject.inherited (id target) = false ->
  sourcePlan s = Some plan ->
  List.length (tests s) <= cursor s + 1 ->
  let s' := recordAndCommit freshId now v offscreenDistance s in
  exists report,
    hd_error (history s') = Some report
    /\ activeReport s' = Some report
    /\ report_id report = freshId
    /\ createdAt report = now
    /\ report_suiteName report = reportName (suiteName s)
    /\ source report = plan.
Proof.
  intros Hs He Ht Hi Hp Hle s'. subst s'.
  rewrite (recordAndCommit_last freshId now v offscreenDistance s target plan
             Hs He Ht Hi Hp Hle).
  unfold activeReport. state_simpl.
  unfold appendHistory, MAX_HISTORY_ITEMS. cbn [firstn hd_error find].
  eexists. split; [reflexivity|].
  cbn [buildReport report_id createdAt report_suiteName source].
  unfold sameId. rewrite String.eqb_refl. repeat split.
Qed.

Lemma finished_report_selected_witness :
  exists report,
    activeReport (recordAndCommit "r1" "t1" Pass 576 singleTestRun)
    = Some report
    /\ report_id report = "r1".
Proof.
  destruct (finished_report_selected singleTestRun "r1" "t1" Pass 576%Z
              (mkFlatTest "A-0-1" "A" "x" "y" 1)
              (mkPlanInput [("A", [mkPlanGroup "x" "y"])] None)
              eq_refl eq_refl eq_refl eq_refl eq_refl
              ltac:(vm_compute; lia))
    as [report [_ [H2 [H3 _]]]].
  exists report. split; [exact H2|exact H3].
Defined.




Section ReloadFacts.
Variable JSON_parse : string -> option JSValue.



End ReloadFacts.



(** The run of a plan whose only category is named [__proto__]: the
    report keeps the tests as the prototype of its source until the
    page is loaded again. *)
Example reload_drops_prototype_array :
  let s := run (parseAs prototypePlan)
             [StartNewSession; SubmitPlan; PressVerdict Pass 576%Z;
              TimerFires "r1" "t1"] (mount None) in
  map (fun report => prototypeArray (source report)) (history s)
  = [Some [mkPlanGroup "x" "y"]]
  /\ map (fun report => prototypeArray (source report))
       (history (dispatch (parseAs prototypePlan) s Reload))
     = [None].
Proof. split; reflexivity. Qed.

(** ** The file name of an exported report *)

Lemma isDash_eq c : isDash c = true -> c = "-"%char.
Proof.
  unfold isDash. intros H. apply Nat.eqb_eq in H.
  rewrite <- (ascii_nat_embedding c), H. reflexivity.
Qed.

Lemma isSlugChar_not_dash c : isSlugChar c = true -> isDash c = false.
Proof.
  unfold isSlugChar, isDash. intros H.
  apply Nat.eqb_neq. intros E. rewrite E in H. discriminate.
Qed.

Lemma isDash_not_slug c : isDash c = true -> isSlugChar c = false.
Proof.
  intros H. destruct (isSlugChar c) eqn:E; [|reflexivity].
  rewrite (isSlugChar_not_dash c E) in H. discriminate.
Qed.

Lemma collapseRuns_noDoubleDash s :
  forall inRun, noDoubleDash inRun (collapseRuns inRun s) = true.
Proof.
  induction s as [|c s IH]; intros inRun; simpl; [reflexivity|].
  destruct (isSlugChar c) eqn:Ec.
  - simpl. rewrite (isSlugChar_not_dash c Ec), Ec, IH. reflexivity.
  - destruct inRun; [apply IH|].
    simpl. apply (IH true).
Qed.

Lemma dropLeadingDash_noDoubleDash s :
  noDoubleDash false s = true -> noDoubleDash true (dropLeadingDash s) = true.
Proof.
  destruct s as [|c s]; simpl; [reflexivity|].
  destruct (isDash c) eqn:Ec; simpl.
  - auto.
  - rewrite Ec. auto.
Qed.

Lemma dropTrailingDash_slug s :
  forall afterDash,
    noDoubleDash afterDash s = true ->
    dropTrailingDash s = EmptyString
    \/ slugBody afterDash (dropTrailingDash s) = true.
Proof.
  induction s as [|c s IH]; intros afterDash H; [left; reflexivity|].
  destruct s as [|c' s'].
  - simpl in *. destruct (isDash c) eqn:Ec; [left; reflexivity|].
    right. simpl. rewrite Ec. rewrite andb_true_r in H. rewrite H.
    reflexivity.
  - change (dropTrailingDash (String c (String c' s')))
      with (String c (dropTrailingDash (String c' s'))).
    right. simpl in H. cbn [slugBody].
    destruct (isDash c) eqn:Ec.
    + apply andb_true_iff in H. destruct H as [Hp H]. rewrite Hp.
      destruct (IH true H) as [He|Hs]; [|exact Hs].
      exfalso. simpl in H, He.
      destruct (isDash c') eqn:Ec'; [discriminate H|].
      destruct s'; discriminate He.
    + apply andb_true_iff in H. destruct H as [Hc H]. rewrite Hc.
      destruct (IH false H) as [He|Hs]; [|exact Hs].
      rewrite He. reflexivity.
Qed.

Lemma slugify_wellFormed value : wellFormedSlug (slugify value) = true.
Proof.
  unfold slugify, stripEdgeDashes.
  pose proof (collapseRuns_noDoubleDash (toLowerCase value) false) as H.
  apply dropLeadingDash_noDoubleDash in H.
  destruct (dropTrailingDash_slug _ _ H) as [He|Hs].
  - rewrite He. reflexivity.
  - unfold wellFormedSlug.
    destruct (dropTrailingDash _); [reflexivity|exact Hs].
Qed.

Lemma slugBody_noDoubleDash s :
  forall afterDash,
    slugBody afterDash s = true -> noDoubleDash afterDash s = true.
Proof.
  induction s as [|c s IH]; intros afterDash H; simpl in *; [reflexivity|].
  destruct (isDash c); apply andb_true_iff in H; destruct H as [H1 H2];
    rewrite H1; simpl; apply IH; exact H2.
Qed.

Lemma lowerChar_slug c :
  isSlugChar c = true \/ isDash c = true -> lowerChar c = c.
Proof.
  unfold isSlugChar, isDash, lowerChar. intros H.
  destruct ((Nat.leb 65 (nat_of_ascii c) && Nat.leb (nat_of_ascii c) 90)
            || (Nat.leb 192 (nat_of_ascii c) && Nat.leb (nat_of_ascii c) 222
                && negb (Nat.eqb (nat_of_ascii c) 215))) eqn:E;
    [|reflexivity].
  exfalso.
  repeat match goal with
         | H : _ \/ _ |- _ => destruct H
         | H : (_ || _) = true |- _ => apply orb_true_iff in H
         | H : (_ && _) = true |- _ => apply andb_true_iff in H; destruct H
         | H : Nat.leb _ _ = true |- _ => apply Nat.leb_le in H
         | H : Nat.eqb _ _ = true |- _ => apply Nat.eqb_eq in H
         | H : negb _ = true |- _ => clear H
         end; lia.
Qed.

Lemma toLowerCase_noDoubleDash s :
  forall afterDash,
    noDoubleDash afterDash s = true -> toLowerCase s = s.
Proof.
  induction s as [|c s IH]; intros afterDash H; simpl in *; [reflexivity|].
  destruct (isDash c) eqn:Ec; apply andb_true_iff in H;
    destruct H as [H1 H2].
  - rewrite (IH _ H2), lowerChar_slug; auto.
  - rewrite (IH _ H2), lowerChar_slug; auto.
Qed.

Lemma collapseRuns_noDoubleDash_id s :
  forall afterDash inRun,
    noDoubleDash afterDash s = true ->
    (inRun = true -> afterDash = true) ->
    collapseRuns inRun s = s.
Proof.
  induction s as [|c s IH]; intros afterDash inRun H Hrun; simpl in *;
    [reflexivity|].
  destruct (isDash c) eqn:Ec; apply andb_true_iff in H;
    destruct H as [H1 H2].
  - rewrite (isDash_not_slug c Ec).
    destruct afterDash; [discriminate H1|].
    destruct inRun; [discriminate (Hrun eq_refl)|].
    rewrite (isDash_eq c Ec). f_equal. apply (IH true true); auto.
  - rewrite H1. f_equal. apply (IH false false); auto.
Qed.

Lemma dropTrailingDash_slug_id s :
  forall afterDash, slugBody afterDash s = true -> dropTrailingDash s = s.
Proof.
  induction s as [|c s IH]; intros afterDash H; [reflexivity|].
  destruct s as [|c' s'].
  - simpl in *. destruct (isDash c); [|reflexivity].
    rewrite andb_false_r in H. discriminate.
  - change (dropTrailingDash (String c (String c' s')))
      with (String c (dropTrailingDash (String c' s'))).
    f_equal. cbn [slugBody] in H.
    destruct (isDash c); apply andb_true_iff in H; destruct H as [_ H];
      eapply IH; exact H.
Qed.

Lemma slugify_fixes_slug s : wellFormedSlug s = true -> slugify s = s.
Proof.
  destruct s as [|c s]; [reflexivity|].
  unfold wellFormedSlug. intros H.
  pose proof (slugBody_noDoubleDash _ _ H) as Hn.
  unfold slugify, stripEdgeDashes.
  rewrite (toLowerCase_noDoubleDash _ _ Hn).
  rewrite (collapseRuns_noDoubleDash_id _ true false Hn) by discriminate.
  assert (Hd : isDash c = false).
  { simpl in H. destruct (isDash c); [discriminate H|reflexivity]. }
  unfold dropLeadingDash. rewrite Hd.
  eapply dropTrailingDash_slug_id. exact H.
Qed.

(** X7.  [slugify] always returns a slug: only the letters a-z, digits
    and hyphens, no hyphen at either end and no two hyphens in a row.
    A slug is left as it is, so slugifying twice is slugifying once. *)
Theorem slugify_slug_idempotent (value : string) :
  wellFormedSlug (slugify value) = true
  /\ slugify (slugify value) = slugify value
  /\ (wellFormedSlug value = true -> slugify value = value).
Proof.
  split; [apply slugify_wellFormed|].
  split; [apply slugify_fixes_slug, slugify_wellFormed|].
  apply slugify_fixes_slug.
Qed.

Lemma slugify_slug_idempotent_witness :
  slugify "qa-report-2" = "qa-report-2".
Proof.
  apply (proj2 (proj2 (slugify_slug_idempotent "qa-report-2"))).
  reflexivity.
Defined.

Lemma isSlugChar_lowerChar c : isSlugChar (lowerChar c) = isAlnum c.
Proof.
  destruct c as [[] [] [] [] [] [] [] []]; reflexivity.
Qed.

Lemma anyChar_toLowerCase s :
  anyChar isSlugChar (toLowerCase s) = anyChar isAlnum s.
Proof.
  induction s as [|c s IH]; simpl; [reflexivity|].
  rewrite isSlugChar_lowerChar, IH. reflexivity.
Qed.

Lemma anyChar_collapseRuns s :
  forall inRun, anyChar isSlugChar (collapseRuns inRun s) = anyChar isSlugChar s.
Proof.
  induction s as [|c s IH]; intros inRun; simpl; [reflexivity|].
  destruct (isSlugChar c) eqn:Ec; simpl.
  - rewrite Ec. reflexivity.
  - destruct inRun; simpl; apply IH.
Qed.

Lemma anyChar_dropLeadingDash s :
  anyChar isSlugChar (dropLeadingDash s) = anyChar isSlugChar s.
Proof.
  destruct s as [|c s]; simpl; [reflexivity|].
  destruct (isDash c) eqn:Ec; [|reflexivity].
  rewrite (isDash_not_slug c Ec). reflexivity.
Qed.

Lemma anyChar_dropTrailingDash s :
  anyChar isSlugChar (dropTrailingDash s) = anyChar isSlugChar s.
Proof.
  induction s as [|c s IH]; [reflexivity|].
  destruct s as [|c' s'].
  - simpl. destruct (isDash c) eqn:Ec; [|reflexivity].
    rewrite (isDash_not_slug c Ec). reflexivity.
  - change (dropTrailingDash (String c (String c' s')))
      with (String c (dropTrailingDash (String c' s'))).
    cbn [anyChar] in *. rewrite IH. reflexivity.
Qed.

Lemma anyChar_slugify value :
  anyChar isSlugChar (slugify value)
  = anyChar isSlugChar (toLowerCase value).
Proof.
  unfold slugify, stripEdgeDashes.
  rewrite anyChar_dropTrailingDash, anyChar_dropLeadingDash,
    anyChar_collapseRuns.
  reflexivity.
Qed.

Lemma slugify_empty_iff value :
  slugify value = EmptyString
  <-> anyChar isSlugChar (toLowerCase value) = false.
Proof.
  rewrite <- anyChar_slugify.
  pose proof (slugify_wellFormed value) as Hw.
  destruct (slugify value) as [|c t]; [split; reflexivity|].
  split; [discriminate|].
  unfold wellFormedSlug in Hw. simpl in *.
  destruct (isDash c); [discriminate Hw|].
  apply andb_true_iff in Hw. destruct Hw as [Hc _]. rewrite Hc.
  discriminate.
Qed.

(** X8.  The label of an exported file is the slug of the suite name
    unless that slug is empty, which it is exactly when the lower-cased
    name holds no letter a-z and no digit; the label is then qa-report.
    A name that holds an ASCII letter or digit keeps its own slug.
    Either way the label is a non-empty slug, and the file name is the
    label, a hyphen, the report id and the extension .json. *)
Theorem fileLabel_fallback (report : SavedReport) :
  let name := report_suiteName report in
  (slugify name = EmptyString
   <-> anyChar isSlugChar (toLowerCase name) = false)
  /\ (anyChar isSlugChar (toLowerCase name) = false ->
      fileLabel name = "qa-report")
  /\ (anyChar isSlugChar (toLowerCase name) = true ->
      fileLabel name = slugify name)
  /\ (anyChar isAlnum name = true ->
      slugify name <> EmptyString /\ fileLabel name = slugify name)
  /\ fileLabel name <> EmptyString
  /\ wellFormedSlug (fileLabel name) = true
  /\ downloadName report
     = (fileLabel name ++ "-" ++ report_id report ++ ".json")%string.
Proof.
  intros name.
  pose proof (slugify_empty_iff name) as Hiff.
  pose proof (slugify_wellFormed name) as Hw.
  pose proof (anyChar_toLowerCase name) as Hlow.
  split; [exact Hiff|].
  assert (Hname : downloadName report
                  = (fileLabel name ++ "-" ++ report_id report ++ ".json")%string)
    by reflexivity.
  revert Hname. generalize (downloadName report). intros file Hname.
  unfold fileLabel in *.
  destruct (slugify name) as [|c t] eqn:Es; simpl in *.
  - destruct Hiff as [Hiff _]. specialize (Hiff eq_refl).
    split; [reflexivity|].
    split; [intros H; rewrite Hiff in H; discriminate H|].
    split; [intros H; rewrite <- Hlow, Hiff in H; discriminate H|].
    repeat split; try discriminate; auto.
  - split; [intros H; destruct Hiff as [_ Hiff]; discriminate (Hiff H)|].
    repeat split; try discriminate; auto.
Qed.

Lemma fileLabel_fallback_witness :
  fileLabel (report_suiteName (buildReport "r1" "t1" "!!! ???" emptySource nil))
  = "qa-report"
  /\ fileLabel
       (report_suiteName (buildReport "r2" "t2" "Smoke 2" emptySource nil))
     = "smoke-2".
Proof.
  split.
  - apply (proj1 (proj2 (fileLabel_fallback
                           (buildReport "r1" "t1" "!!! ???" emptySource nil)))).
    reflexivity.
  - pose proof (proj1 (proj2 (proj2 (proj2 (fileLabel_fallback
                  (buildReport "r2" "t2" "Smoke 2" emptySource nil)))))
                  eq_refl) as T.
    exact (proj2 T).
Defined.

(** ** Where the history changes *)






(** ** Comments and the commit in flight *)

Lemma timerFires_results freshId now v c s target :
  swipeTimeout s = Some (v, c) ->
  r_step c = StepRun ->
  nth_error (r_tests c) (r_cursor c) = Some target ->
  JSObject.inherited (id target) = false ->
  results (timerFires freshId now s)
  = arraySet (r_cursor c)
      (SlotResult (entryFor target v (r_commentDrafts c))) (r_results c)
  /\ commentDrafts (timerFires freshId now s) = commentDrafts s.
Proof.
  intros Et Hs Hn Hi. unfold timerFires. rewrite Et.
  unfold commitVerdict. rewrite Hs, Hn. cbn [isRun negb].
  rewrite (draftComment_not_inherited _ _ Hi). cbn [bind].
  fold (entryFor).
  destruct (Nat.leb (List.length (r_tests c)) (r_cursor c + 1)).
  - unfold finishRun. destruct (r_sourcePlan c); split; reflexivity.
  - split; reflexivity.
Qed.

Lemma recordVerdict_armed v d s target :
  step s = StepRun -> exitVerdict s = None ->
  nth_error (tests s) (cursor s) = Some target ->
  recordVerdict v d s
  = setSwipeTimeout (Some (v, render s))
      (setDragOffset (match v with
                      | Pass => d
                      | Fail => (- d)%Z
                      end)
         (setExitVerdict (Some v)
            (setIsDragging false (setSwipeTimeout None s)))).
Proof.
  intros Hs He Ht. unfold recordVerdict. rewrite Hs, He, Ht. reflexivity.
Qed.

(** X10.  The comment of a result is the trimmed text of the box as it
    was when the verdict was given: an edit made before the verdict is
    committed with it, an edit made while the commit is in flight is
    left out of the result and stays in the box as a draft. *)
Theorem comment_edit_timing (freshId now : string) (v : Verdict)
  (offscreenDistance : Z) (text : string) (s : AppState)
  (target : FlatTest) :
  step s = StepRun ->
  exitVerdict s = None ->
  nth_error (tests s) (cursor s) = Some target ->
  JSObject.inherited (id target) = false ->
  let before :=
    recordAndCommit freshId now v offscreenDistance
      (updateComment (id target) text s) in
  let during :=
    timerFires freshId now
      (updateComment (id target) text
         (recordVerdict v offscreenDistance s)) in
  nth_error (results before) (cursor s)
  = Some (SlotResult (mkTestResult target v (JSString.trim text)))
  /\ nth_error (results during) (cursor s)
     = Some (SlotResult
               (mkTestResult target v
                  (JSString.trim (draftText (id target) (commentDrafts s)))))
  /\ draftText (id target) (commentDrafts during) = text.
Proof.
  intros Hs He Ht Hi before during.
  split; [|split].
  - subst before. unfold recordAndCommit.
    rewrite (recordVerdict_armed v offscreenDistance
               (updateComment (id target) text s) target Hs He Ht).
    match goal with
    | |- nth_error (results (timerFires _ _ ?armed)) _ = _ =>
        destruct (timerFires_results freshId now v
                    (render (updateComment (id target) text s)) armed target
                    eq_refl Hs Ht Hi) as [Hr _]
    end.
    rewrite Hr. state_simpl.
    rewrite nth_error_arraySet_same. unfold entryFor, draftText.
    state_simpl. rewrite getOwn_setOwn_same. reflexivity.
  - subst during.
    rewrite (recordVerdict_armed v offscreenDistance s target Hs He Ht).
    match goal with
    | |- nth_error (results (timerFires _ _ ?armed)) _ = _ =>
        destruct (timerFires_results freshId now v (render s) armed target
                    eq_refl Hs Ht Hi) as [Hr _]
    end.
    rewrite Hr. state_simpl. apply nth_error_arraySet_same.
  - subst during.
    rewrite (recordVerdict_armed v offscreenDistance s target Hs He Ht).
    match goal with
    | |- draftText _ (commentDrafts (timerFires _ _ ?armed)) = _ =>
        destruct (timerFires_results freshId now v (render s) armed target
                    eq_refl Hs Ht Hi) as [_ Hd]
    end.
    rewrite Hd. state_simpl. unfold draftText.
    rewrite getOwn_setOwn_same. reflexivity.
Qed.

Lemma comment_edit_timing_witness :
  nth_error
    (results
       (timerFires "r1" "t1"
          (updateComment "A-1-2" "late"
             (recordVerdict Pass 576%Z threeTestRun)))) 1
  = Some (SlotResult
            (mkTestResult (mkFlatTest "A-1-2" "A" "p" "q" 2) Pass
               EmptyString)).
Proof.
  pose proof (comment_edit_timing "r1" "t1" Pass 576%Z "late" threeTestRun
                (mkFlatTest "A-1-2" "A" "p" "q" 2)
                eq_refl eq_refl eq_refl eq_refl) as T.
  exact (proj1 (proj2 T)).
Defined.

(** X11.  Undo followed by the same verdict again, with the comment
    box unchanged, gives back the run as it was before the undo: the
    cursor, the results, the drafts and the history are the same, and
    no commit stays in flight. *)
Theorem undo_then_redo (freshId now : string) (v : Verdict)
  (offscreenDistance : Z) (s : AppState) (target : FlatTest) :
  step s = StepRun ->
  exitVerdict s = None ->
  0 < cursor s ->
  cursor s < List.length (tests s) ->
  nth_error (tests s) (cursor s - 1) = Some target ->
  JSObject.inherited (id target) = false ->
  nth_error (results s) (cursor s - 1)
  = Some (SlotResult (entryFor target v (commentDrafts s))) ->
  let s' := recordAndCommit freshId now v offscreenDistance (undoLast s) in
  render s' = render s
  /\ history s' = history s
  /\ exitVerdict s' = None
  /\ swipeTimeout s' = None.
Proof.
  intros Hs He Hpos Hlt Ht Hi Hr s'. subst s'.
  rewrite (undoLast_running s Hs Hpos He).
  rewrite (recordAndCommit_inner freshId now v offscreenDistance _ target);
    state_simpl; auto; try lia.
  unfold render. state_simpl.
  replace (cursor s - 1 + 1) with (cursor s) by lia.
  rewrite arraySet_twice, (arraySet_same _ _ _ Hr).
  repeat split; reflexivity.
Qed.

Lemma undo_then_redo_witness :
  render (recordAndCommit "r1" "t1" Fail 576%Z (undoLast threeTestRun))
  = render threeTestRun.
Proof.
  pose proof (undo_then_redo "r1" "t1" Fail 576%Z threeTestRun
                (mkFlatTest "A-0-1" "A" "x" "y" 1)
                eq_refl eq_refl) as T.
  refine (proj1 (T _ _ eq_refl eq_refl eq_refl)).
  - vm_compute. lia.
  - vm_compute. lia.
Defined.

(** ** Keyboard shortcuts *)

Lemma eqb_lowered (text name : string) (other : string) :
  String.eqb text name = true ->
  String.eqb name other = false ->
  String.eqb text other = false.
Proof.
  intros H Hne. apply String.eqb_eq in H. subst text. exact Hne.
Qed.

Lemma eqb_arrow (text name other : string) :
  String.eqb text name = true ->
  String.eqb (toLowerCase name) other = false ->
  String.eqb (toLowerCase text) other = false.
Proof.
  intros H Hne. apply String.eqb_eq in H. subst text. exact Hne.
Qed.

Lemma passKey_exclusive ev :
  passKey ev = true -> failKey ev = false /\ undoKey ev = false.
Proof.
  unfold passKey, failKey, undoKey. intros H.
  apply orb_true_iff in H. destruct H as [Ep|Er].
  - rewrite (eqb_lowered _ "p" "f" Ep eq_refl),
      (eqb_lowered _ "p" "u" Ep eq_refl),
      (eqb_lowered _ "p" "z" Ep eq_refl).
    assert (El : String.eqb (key ev) "ArrowLeft" = false).
    { destruct (String.eqb (key ev) "ArrowLeft") eqn:E; [|reflexivity].
      rewrite (eqb_arrow _ "ArrowLeft" "p" E eq_refl) in Ep.
      discriminate Ep. }
    rewrite El, andb_false_r. split; reflexivity.
  - rewrite (eqb_arrow _ "ArrowRight" "f" Er eq_refl),
      (eqb_arrow _ "ArrowRight" "u" Er eq_refl),
      (eqb_arrow _ "ArrowRight" "z" Er eq_refl),
      (eqb_lowered _ "ArrowRight" "ArrowLeft" Er eq_refl).
    rewrite andb_false_r. split; reflexivity.
Qed.

Lemma failKey_exclusive ev : failKey ev = true -> undoKey ev = false.
Proof.
  unfold failKey, undoKey. intros H.
  apply orb_true_iff in H. destruct H as [Ef|El].
  - rewrite (eqb_lowered _ "f" "u" Ef eq_refl),
      (eqb_lowered _ "f" "z" Ef eq_refl).
    rewrite andb_false_r. reflexivity.
  - rewrite (eqb_arrow _ "ArrowLeft" "u" El eq_refl),
      (eqb_arrow _ "ArrowLeft" "z" El eq_refl).
    rewrite andb_false_r. reflexivity.
Qed.

(** X12.  A key pressed in the run step triggers at most one of the
    three actions, since no key passes two of the handler's tests: p or
    the right arrow records a pass, f or the left arrow a fail, u or
    z with the control or command key undoes, in either letter case,
    and any other key does nothing.  A key typed into an input, a
    textarea or an editable element triggers none, and outside the run
    step the keys do nothing. *)
Theorem keyDown_one_action (ev : KeyboardEvent) (offscreenDistance : Z)
  (s : AppState) :
  (typedIntoField ev = true \/ step s <> StepRun ->
   keyDown ev offscreenDistance s = s)
  /\ (typedIntoField ev = false -> step s = StepRun ->
      (passKey ev = true ->
       keyDown ev offscreenDistance s = recordVerdict Pass offscreenDistance s)
      /\ (failKey ev = true ->
          keyDown ev offscreenDistance s
          = recordVerdict Fail offscreenDistance s)
      /\ (undoKey ev = true -> keyDown ev offscreenDistance s = undoLast s)
      /\ (passKey ev = false -> failKey ev = false -> undoKey ev = false ->
          keyDown ev offscreenDistance s = s))
  /\ passKey ev && failKey ev = false
  /\ passKey ev && undoKey ev = false
  /\ failKey ev && undoKey ev = false.
Proof.
  unfold keyDown, onKeyDown.
  split; [|split; [|split; [|split]]].
  - intros [H|H].
    + rewrite H. destruct (isRun (step s)); reflexivity.
    + destruct (step s); try reflexivity. congruence.
  - intros Hf Hs. rewrite Hf, Hs. cbn [isRun].
    split; [|split; [|split]].
    + intros H. destruct (passKey_exclusive ev H) as [H1 H2].
      rewrite H, H1, H2. reflexivity.
    + intros H. pose proof (failKey_exclusive ev H) as H2.
      destruct (passKey ev) eqn:Hp.
      * destruct (passKey_exclusive ev Hp) as [H1 _]. congruence.
      * rewrite H, H2. reflexivity.
    + intros H.
      destruct (passKey ev) eqn:Hp.
      * destruct (passKey_exclusive ev Hp) as [_ H1]. congruence.
      * destruct (failKey ev) eqn:Hk.
        -- pose proof (failKey_exclusive ev Hk). congruence.
        -- rewrite H. reflexivity.
    + intros H1 H2 H3. rewrite H1, H2, H3. reflexivity.
  - destruct (passKey ev) eqn:Hp; [|reflexivity].
    apply (passKey_exclusive ev Hp).
  - destruct (passKey ev) eqn:Hp; [|reflexivity].
    apply (passKey_exclusive ev Hp).
  - destruct (failKey ev) eqn:Hk; [|reflexivity].
    apply (failKey_exclusive ev Hk).
Qed.

Lemma keyDown_one_action_witness :
  keyDown
    (mkKeyboardEvent (Some (mkKeyTarget (Some "TEXTAREA") false)) "p"
       false false) 576%Z threeTestRun
  = threeTestRun
  /\ keyDown (mkKeyboardEvent None "P" false false) 576%Z threeTestRun
     = recordVerdict Pass 576%Z threeTestRun.
Proof.
  split.
  - apply (proj1 (keyDown_one_action
                    (mkKeyboardEvent
                       (Some (mkKeyTarget (Some "TEXTAREA") false))
                       "p" false false) 576%Z threeTestRun)).
    left. reflexivity.
  - apply (proj1 (proj1 (proj2 (keyDown_one_action
                                  (mkKeyboardEvent None "P" false false)
                                  576%Z threeTestRun))
                    eq_refl eq_refl)).
    reflexivity.
Defined.

(** ** The swipe gesture *)










(** ** The category summary adds up *)

Section SumFacts.
Variable field : Counts -> nat.
Hypothesis field_zero : field zeroCounts = 0.

Lemma sumOver_replaceOwn k c c' (summary : CategorySummary) :
  JSObject.getOwn k summary = Some c ->
  sumOver field (JSObject.replaceOwn k c' summary) + field c
  = sumOver field summary + field c'.
Proof.
  unfold sumOver.
  induction summary as [|[k0 c0] summary IH]; simpl; [discriminate|].
  destruct (String.eqb k0 k); simpl.
  - intros H. injection H as ->. lia.
  - intros H. specialize (IH H). lia.
Qed.

Lemma sumOver_insertIndex n k (summary : CategorySummary) :
  sumOver field (JSObject.insertIndex n k zeroCounts summary)
  = sumOver field summary.
Proof.
  unfold sumOver.
  induction summary as [|[k0 c0] summary IH]; simpl.
  - rewrite field_zero. reflexivity.
  - destruct (JSString.arrayIndex k0) as [m|]; [destruct (m <? n)%N|];
      simpl; rewrite ?IH, ?field_zero; reflexivity.
Qed.

Lemma sumOver_ensureEntry k (summary : CategorySummary) :
  sumOver field (ensureEntry k summary) = sumOver field summary.
Proof.
  unfold ensureEntry, JSObject.get.
  destruct (JSObject.getOwn k summary) eqn:E; [reflexivity|].
  destruct (JSObject.inherited k); [reflexivity|].
  unfold JSObject.setOwn, JSObject.hasOwn. rewrite E.
  destruct (JSString.arrayIndex k) as [n|].
  - apply sumOver_insertIndex.
  - unfold sumOver. rewrite map_app, list_sum_app. simpl.
    rewrite field_zero. lia.
Qed.

Lemma sumOver_bump k f d c (summary : CategorySummary) :
  (forall x, field (f x) = field x + d) ->
  JSObject.getOwn k summary = Some c ->
  sumOver field (bump k f summary) = sumOver field summary + d.
Proof.
  intros Hf H. unfold bump. rewrite H.
  pose proof (sumOver_replaceOwn k c (f c) summary H) as E.
  rewrite Hf in E. lia.
Qed.

End SumFacts.

Lemma ensureEntry_own k (summary : CategorySummary) :
  JSObject.inherited k = false ->
  exists c, JSObject.getOwn k (ensureEntry k summary) = Some c.
Proof.
  intros Hk. unfold ensureEntry, JSObject.get.
  destruct (JSObject.getOwn k summary) as [c|] eqn:E.
  - exists c. exact E.
  - rewrite Hk. exists zeroCounts. apply getOwn_setOwn_same.
Qed.

Lemma summarize_sums summary r :
  JSObject.inherited (category (test r)) = false ->
  sumOver total (summarize summary r) = sumOver total summary + 1
  /\ sumOver passed (summarize summary r)
     = sumOver passed summary + (if isPass r then 1 else 0)
  /\ sumOver failed (summarize summary r)
     = sumOver failed summary + (if isPass r then 0 else 1).
Proof.
  intros Hk. unfold summarize.
  destruct (ensureEntry_own _ summary Hk) as [c Hc].
  assert (Hc' : JSObject.getOwn (category (test r))
                  (bump (category (test r)) addTotal
                     (ensureEntry (category (test r)) summary))
                = Some (addTotal c)).
  { rewrite bump_getOwn, String.eqb_refl, Hc. reflexivity. }
  assert (Hsame : forall x : nat, x = x + 0) by (intros; lia).
  destruct (isPass r).
  - rewrite
      (sumOver_bump total eq_refl _ addPassed 0 _ _ (fun x => Hsame _) Hc'),
      (sumOver_bump passed eq_refl _ addPassed 1 _ _ (fun x => eq_refl) Hc'),
      (sumOver_bump failed eq_refl _ addPassed 0 _ _ (fun x => Hsame _) Hc'),
      (sumOver_bump total eq_refl _ addTotal 1 _ _ (fun x => eq_refl) Hc),
      (sumOver_bump passed eq_refl _ addTotal 0 _ _ (fun x => Hsame _) Hc),
      (sumOver_bump failed eq_refl _ addTotal 0 _ _ (fun x => Hsame _) Hc),
      !sumOver_ensureEntry by reflexivity.
    repeat split; lia.
  - rewrite
      (sumOver_bump total eq_refl _ addFailed 0 _ _ (fun x => Hsame _) Hc'),
      (sumOver_bump passed eq_refl _ addFailed 0 _ _ (fun x => Hsame _) Hc'),
      (sumOver_bump failed eq_refl _ addFailed 1 _ _ (fun x => eq_refl) Hc'),
      (sumOver_bump total eq_refl _ addTotal 1 _ _ (fun x => eq_refl) Hc),
      (sumOver_bump passed eq_refl _ addTotal 0 _ _ (fun x => Hsame _) Hc),
      (sumOver_bump failed eq_refl _ addTotal 0 _ _ (fun x => Hsame _) Hc),
      !sumOver_ensureEntry by reflexivity.
    repeat split; lia.
Qed.

Lemma fold_summarize_sums results :
  Forall (fun r => JSObject.inherited (category (test r)) = false) results ->
  forall summary,
    sumOver total (fold_left summarize results summary)
    = sumOver total summary + List.length results
    /\ sumOver passed (fold_left summarize results summary)
       = sumOver passed summary + List.length (filter isPass results)
    /\ sumOver failed (fold_left summarize results summary)
       + List.length (filter isPass results)
       = sumOver failed summary + List.length results.
Proof.
  induction 1 as [|r rest Hr _ IH]; intros summary; simpl.
  - repeat split; lia.
  - destruct (IH (summarize summary r)) as [Ht [Hp Hf]].
    destruct (summarize_sums summary r Hr) as [Ht' [Hp' Hf']].
    rewrite Ht, Hp, Ht', Hp'. rewrite Hf' in Hf.
    destruct (isPass r); simpl; repeat split; lia.
Qed.

(** X15.  When no result belongs to a category named like a member of
    [Object.prototype], the counts of [byCategory] add up to the totals
    of the report: the entries' totals to [total], their passed counts
    to [passed] and their failed counts to [failed]. *)
Theorem byCategory_adds_up (freshId now suiteName : string)
  (plan : PlanInput) (results : list TestResult) :
  Forall (fun r => JSObject.inherited (category (test r)) = false) results ->
  let report := buildReport freshId now suiteName plan results in
  sumOver total (byCategory report) = report_total report
  /\ sumOver passed (byCategory report) = report_passed report
  /\ sumOver failed (byCategory report) = report_failed report.
Proof.
  intros H report. subst report. unfold buildReport.
  cbn [byCategory report_total report_passed report_failed].
  unfold getCategorySummary.
  destruct (fold_summarize_sums results H []) as [Ht [Hp Hf]].
  pose proof (filter_length_le isPass results).
  unfold sumOver in *. simpl in *. repeat split; lia.
Qed.

Lemma byCategory_adds_up_witness :
  sumOver total
    (byCategory
       (buildReport "r1" "t1" "Plan" emptySource
          [mkTestResult (mkFlatTest "A-0-1" "A" "x" "y" 1) Pass EmptyString;
           mkTestResult (mkFlatTest "B-0-2" "B" "u" "v" 2) Fail EmptyString]))
  = 2.
Proof.
  refine (proj1 (byCategory_adds_up "r1" "t1" "Plan" emptySource
                   [mkTestResult (mkFlatTest "A-0-1" "A" "x" "y" 1) Pass
                      EmptyString;
                    mkTestResult (mkFlatTest "B-0-2" "B" "u" "v" 2) Fail
                      EmptyString] _)).
  repeat constructor.
Defined.

(** ** The fields of a parsed test *)

Lemma trimEnd_idempotent s :
  JSString.trimEnd (JSString.trimEnd s) = JSString.trimEnd s.
Proof.
  induction s as [|c s IH]; [reflexivity|].
  cbn [JSString.trimEnd].
  destruct (JSString.trimEnd s) as [|c' kept] eqn:E.
  - destruct (JSString.isWhiteSpace c) eqn:Ec; [reflexivity|].
    cbn [JSString.trimEnd]. rewrite Ec. reflexivity.
  - cbn [JSString.trimEnd] in *. rewrite IH. reflexivity.
Qed.

Lemma trimStart_head s :
  JSString.trimStart s = EmptyString
  \/ exists c rest,
       JSString.trimStart s = String c rest
       /\ JSString.isWhiteSpace c = false.
Proof.
  induction s as [|c s IH]; [left; reflexivity|].
  cbn [JSString.trimStart].
  destruct (JSString.isWhiteSpace c) eqn:Ec; [exact IH|].
  right. exists c, s. split; [reflexivity|exact Ec].
Qed.

Lemma trimEnd_head c rest :
  JSString.trimEnd (String c rest) = EmptyString
  \/ exists kept, JSString.trimEnd (String c rest) = String c kept.
Proof.
  cbn [JSString.trimEnd].
  destruct (JSString.trimEnd rest) as [|c' kept].
  - destruct (JSString.isWhiteSpace c); [left; reflexivity|].
    right. eexists. reflexivity.
  - right. eexists. reflexivity.
Qed.

Lemma trim_idempotent s : JSString.trim (JSString.trim s) = JSString.trim s.
Proof.
  unfold JSString.trim.
  destruct (trimStart_head s) as [E|[c [rest [E Ec]]]]; rewrite E.
  - reflexivity.
  - destruct (trimEnd_head c rest) as [E'|[kept E']].
    + rewrite E'. reflexivity.
    + rewrite E' at 1. cbn [JSString.trimStart]. rewrite Ec.
      rewrite <- E'. apply trimEnd_idempotent.
Qed.

Lemma truthy_trim_clean s :
  JSString.truthy (JSString.trim s) = true -> cleanText (JSString.trim s).
Proof.
  intros H. split; [|apply trim_idempotent].
  intros E. rewrite E in H. discriminate H.
Qed.

Lemma trimmedField_clean k fields :
  JSString.truthy (trimmedField k fields) = true ->
  cleanText (trimmedField k fields).
Proof.
  unfold trimmedField.
  destruct (getProperty k fields) as [[]|]; try discriminate.
  apply truthy_trim_clean.
Qed.

Lemma forEachTest_clean category rawTests :
  cleanText category ->
  forall index st st',
    forEachTest category index rawTests st = Normal st' ->
    Forall cleanTest (ps_flattened st) ->
    Forall cleanTest (ps_flattened st').
Proof.
  intros Hc.
  induction rawTests as [|item rest IH]; simpl; intros index st st' H Hall.
  - injection H as <-. exact Hall.
  - destruct (parseTest category index item st) as [st1|] eqn:E;
      simpl in H; [|discriminate].
    apply (IH _ _ _ H). clear IH H.
    unfold parseTest in E.
    destruct item; cbn [isRecord] in *; try discriminate.
    destruct (JSString.truthy (trimmedField "action" _)) eqn:Ea;
      [|discriminate].
    destruct (JSString.truthy (trimmedField "result" _)) eqn:Er;
      [|discriminate].
    cbn [negb orb] in E.
    destruct (pushGroup _ _ _); simpl in E; [|discriminate].
    injection E as <-. cbn [ps_flattened].
    apply Forall_app. split; [exact Hall|].
    constructor; [|constructor].
    split; [exact Hc|].
    split; apply trimmedField_clean; assumption.
Qed.

Lemma parseCategories_clean entries :
  forall st st',
    parseCategories entries st = Normal st' ->
    Forall cleanTest (ps_flattened st) ->
    Forall cleanTest (ps_flattened st').
Proof.
  induction entries as [|[rawCategory rawTests] rest IH]; simpl;
    intros st st' H Hall.
  - injection H as <-. exact Hall.
  - destruct (parseCategory rawCategory rawTests st) as [st1|] eqn:E;
      simpl in H; [|discriminate].
    apply (IH _ _ H). clear IH H.
    unfold parseCategory in E.
    destruct (JSString.truthy (JSString.trim rawCategory)) eqn:Ec;
      [|discriminate].
    cbn [negb] in E.
    destruct rawTests; cbn [isArray] in *; try discriminate.
    apply (forEachTest_clean _ _ (truthy_trim_clean _ Ec) _ _ _ E).
    exact Hall.
Qed.

(** X16.  Every test of a plan that [parsePlan] accepts has a category,
    an action and an expected result that are not empty and carry no
    white space at either end: a field that is missing, not a string or
    blank makes the parse fail instead. *)
Theorem parsePlan_fields_clean (JSON_parse : string -> option JSValue)
  (rawText : string) (source : PlanInput) (flattened : list FlatTest) :
  parsePlan JSON_parse rawText = Normal (source, flattened) ->
  Forall cleanTest flattened.
Proof.
  unfold parsePlan, parsePlanValue. intros H.
  destruct (JSON_parse rawText) as [value|]; [|discriminate].
  destruct (isRecord value) as [entries|]; [|discriminate].
  destruct (parseCategories entries initialParseState) as [st|] eqn:E;
    simpl in H; [|discriminate].
  apply parseCategories_clean in E; [|constructor].
  destruct (ps_flattened st); [discriminate|].
  injection H as _ <-. exact E.
Qed.

Lemma parsePlan_fields_clean_witness :
  exists source flattened,
    parsePlan (parseAs threeTestPlan) EmptyString = Normal (source, flattened)
    /\ Forall cleanTest flattened.
Proof.
  eexists. eexists. split; [reflexivity|].
  apply (parsePlan_fields_clean (parseAs threeTestPlan) EmptyString _ _
           eq_refl).
Defined.
